(** * Smart-University-CMS: entity store, controllers and catalog view

    A shallow embedding of the Mongoose models (Department, Course, Module,
    Student, Enrollment) and of the Express controllers that guard them,
    followed by the properties of the specification that concern
    uniqueness, referential integrity, delete guards, the structured
    catalog view and the enrollment life cycle.

    Conventions of the embedding.
    - A collection is the list of its documents in natural (insertion)
      order; [findOne] returns the first match, [deleteOne] removes the
      first match, [deleteMany] removes every match.
    - An ObjectId is its hexadecimal string.  Ids of new documents are
      generated by the driver on the client ([new Model(...)]) and are an
      explicit argument of the operation that constructs the document.
    - A controller maps a request and a store to a reply and a store.
    - Request fields that the controllers pass through [parseInt] or
      [parseFloat] are taken after that call: [option Z] ([None] is NaN)
      and binary64 [float].
    - Request fields that name a document are well-formed ObjectIds; a
      reference that may be absent is an [option].
    - Strings are sequences of 8-bit characters.  Case mapping and
      trimming are those of JavaScript on ASCII strings; the Unicode
      case mapping and the Unicode spaces are left out.  The properties
      take [toUpperCase], [toLowerCase], [trim] and the setters built
      from them by name, and none rests on what they do to a character
      outside ASCII; they are evaluated on ASCII strings only.
    - A Date path that is not required keeps apart a field that is
      absent, blank, no date, or a date ([DateField]).
    - The [createdAt] and [updatedAt] timestamps of the schemas are left
      out of the documents. *)

From Stdlib Require Import ZArith String Ascii List Bool Lia Permutation.
From Stdlib Require Import Floats.PrimFloat Floats.SpecFloat Floats.FloatOps Floats.FloatAxioms.
From stdpp Require Import base decidable option list strings gmap.

Set Warnings "-inexact-float".

(** ** JavaScript strings *)

Abbreviation ObjectId := string (only parsing).

Definition upperChar (a : ascii) : ascii :=
  let n := nat_of_ascii a in
  if (97 <=? n)%nat && (n <=? 122)%nat then ascii_of_nat (n - 32) else a.

Definition lowerChar (a : ascii) : ascii :=
  let n := nat_of_ascii a in
  if (65 <=? n)%nat && (n <=? 90)%nat then ascii_of_nat (n + 32) else a.

Fixpoint mapString (f : ascii -> ascii) (s : string) : string :=
  match s with
  | EmptyString => EmptyString
  | String a r => String (f a) (mapString f r)
  end.

(** [String.prototype.toUpperCase] and [toLowerCase] on ASCII strings:
    the letters a-z, or A-Z, change case and every other character is
    kept.  Outside ASCII the functions of JavaScript follow the Unicode
    case mapping, which can also change the length of a string. *)
Definition toUpperCase (s : string) : string := mapString upperChar s.
Definition toLowerCase (s : string) : string := mapString lowerChar s.

(** White space removed by [String.prototype.trim] within ASCII: tab,
    line feed, vertical tab, form feed, carriage return and space.
    JavaScript also removes the Unicode spaces (U+00A0, U+FEFF and the
    like). *)
Definition isSpace (a : ascii) : bool :=
  let n := nat_of_ascii a in
  ((9 <=? n)%nat && (n <=? 13)%nat) || (n =? 32)%nat.

Fixpoint trimStart (s : string) : string :=
  match s with
  | EmptyString => EmptyString
  | String a r => if isSpace a then trimStart r else s
  end.

Fixpoint trimEnd (s : string) : string :=
  match s with
  | EmptyString => EmptyString
  | String a r =>
      match trimEnd r with
      | EmptyString => if isSpace a then EmptyString else String a EmptyString
      | r' => String a r'
      end
  end.

Definition trim (s : string) : string := trimEnd (trimStart s).

(** A string is truthy when it is not empty. *)
Definition truthy (s : string) : bool := negb (bool_decide (s = EmptyString)).

(** [a || b] on strings. *)
Definition orElse (a b : string) : string := if truthy a then a else b.

(** ** Replies of a controller *)

(** What a rejected promise carries: a Mongoose validation failure on a
    path, an [Error] raised by a hook, or a driver error with its code
    (11000 is the duplicate key of a unique index). *)
Inductive Error :=
| ValidationFailed (path : string)
| HookError (message : string)
| MongoServerError (code : Z).

(** The reply of a handler: [res.status(n).json({message})],
    [res.status(n).json(doc)], [req.flash(kind, text); res.redirect(url)],
    or an error that [asyncHandler] hands to [next]. *)
Inductive Reply (A : Type) :=
| json (status : Z) (message : string)
| jsonDoc (status : Z) (doc : A)
| redirect (flashKind flashText location : string)
| thrown (err : Error).

Arguments json {A} status message.
Arguments jsonDoc {A} status doc.
Arguments redirect {A} flashKind flashText location.
Arguments thrown {A} err.

(** The dual-mode answer [if (req.accepts('json')) return res.status(n).json(...);
    req.flash(...); return res.redirect(...)]. *)
Definition respond {A} (acceptsJson : bool) (status : Z) (message : string)
    (flashKind flashText location : string) : Reply A :=
  if acceptsJson then json status message
  else redirect flashKind flashText location.

(** The error taxonomy of the specification. *)
Inductive ErrorKind :=
| NotFound
| DuplicateKey
| MissingReference
| ReferenceMismatch
| HasDependents
| ValidationError.

Global Instance ErrorKind_eq_dec : EqDecision ErrorKind.
Proof. solve_decision. Defined.

(** The messages the controllers answer with, by the condition of the
    taxonomy they report. *)
Definition controllerMessages : list (string * ErrorKind) :=
  [ ("Course not found", NotFound);
    ("Department not found", NotFound);
    ("Module not found", NotFound);
    ("Student not found", NotFound);
    ("Enrollment not found", NotFound);
    ("You are not enrolled in this course", NotFound);
    ("Course with this code already exists", DuplicateKey);
    ("Department with this name or code already exists", DuplicateKey);
    ("Module with this code already exists", DuplicateKey);
    ("Email or Roll Number already exists", DuplicateKey);
    ("A user with this email already exists", DuplicateKey);
    ("Cannot delete course with associated modules", HasDependents);
    ("Cannot delete department with associated courses", HasDependents);
    ("Cannot delete module as it is a prerequisite for other modules", HasDependents);
    ("Assessment weights must sum to 100%", ValidationError);
    ("End date must be after start date", ValidationError);
    ("Password must be at least 6 characters", ValidationError) ].

(** The messages of the errors raised by the pre-save hooks. *)
Definition hookMessages : list (string * ErrorKind) :=
  [ ("Course not found", MissingReference);
    ("Department not found", MissingReference);
    ("Department does not match the course department", ReferenceMismatch) ].

Definition kindOfText (table : list (string * ErrorKind)) (text : string)
    : option ErrorKind :=
  snd <$> List.find (fun p => bool_decide (fst p = text)) table.

Definition kindOfError (e : Error) : option ErrorKind :=
  match e with
  | ValidationFailed _ => Some ValidationError
  | HookError msg => kindOfText hookMessages msg
  | MongoServerError code => if (code =? 11000)%Z then Some DuplicateKey else None
  end.

(** The condition a reply reports, [None] for a success. *)
Definition errorKind {A} (r : Reply A) : option ErrorKind :=
  match r with
  | json status msg =>
      if (400 <=? status)%Z then kindOfText controllerMessages msg else None
  | jsonDoc _ _ => None
  | redirect kind text _ =>
      if bool_decide (kind = "error") then kindOfText controllerMessages text else None
  | thrown e => kindOfError e
  end.

(** A reply that is neither an error status, an error flash nor a
    rejected promise. *)
Definition isSuccess {A} (r : Reply A) : bool :=
  match r with
  | json status _ | jsonDoc status _ => (status <? 400)%Z
  | redirect kind _ _ => bool_decide (kind = "success")
  | thrown _ => false
  end.

(** The message of a reply, in either mode. *)
Definition reports {A} (r : Reply A) (text : string) : Prop :=
  match r with
  | json _ msg => msg = text
  | redirect _ msg _ => msg = text
  | jsonDoc _ _ | thrown _ => False
  end.

(** ** Collections *)

Section Collection.
Context {D : Type} (idOf : D -> ObjectId).

(** [Model.findOne(filter)]: the first document that matches. *)
Definition findOne (filter : D -> bool) (l : list D) : option D :=
  List.find filter l.

(** [Model.findById(id)]. *)
Definition findById (l : list D) (id : ObjectId) : option D :=
  findOne (fun d => bool_decide (idOf d = id)) l.

(** [Model.countDocuments(filter)]. *)
Definition countDocuments (filter : D -> bool) (l : list D) : nat :=
  length (List.filter filter l).

(** [Model.deleteMany(filter)]. *)
Definition deleteMany (filter : D -> bool) (l : list D) : list D :=
  List.filter (fun d => negb (filter d)) l.

(** The delete of one document by its [_id] ([doc.remove()],
    [doc.deleteOne()]): at most one document goes. *)
Fixpoint deleteOne (id : ObjectId) (l : list D) : list D :=
  match l with
  | [] => []
  | d :: r => if bool_decide (idOf d = id) then r else d :: deleteOne id r
  end.

(** The write of [doc.save()] for a document that is already stored:
    the stored document with that [_id] takes the new field values. *)
Fixpoint replaceOne (d' : D) (l : list D) : list D :=
  match l with
  | [] => []
  | d :: r =>
      if bool_decide (idOf d = idOf d') then d' :: r else d :: replaceOne d' r
  end.

End Collection.

(** ** Models *)

Module Department.

Record t := {
  _id : ObjectId;
  name : string;
  code : string;
  description : string;
  headOfDepartment : string;
  establishedDate : Z;
  isActive : bool
}.

End Department.

(** A Date path that is not required.  In a request: the field is
    absent, is the empty string of a blank form field, is a string that
    is no date, or is a date, given by its time value.  In a document,
    after the cast of the schema: [undefined], [null] (the cast of the
    empty string), a failed cast, or the date. *)
Inductive DateField :=
| Unset
| Blank
| Invalid
| DateAt (t : Z).

(** The time value of [new Date(v)], [None] for an invalid date. *)
Definition timeOf (v : DateField) : option Z :=
  match v with
  | DateAt t => Some t
  | Unset | Blank | Invalid => None
  end.

Module Course.

Record t := {
  _id : ObjectId;
  name : string;
  code : string;
  department : ObjectId;
  duration : option Z;
  description : string;
  credits : option Z;
  isActive : bool;
  fee : float;
  startDate : option Z;
  endDate : DateField
}.

End Course.

Module Mod.

Record Assessment := {
  exam : float;
  coursework : float;
  practical : float
}.

Record t := {
  _id : ObjectId;
  name : string;
  code : string;
  course : ObjectId;
  department : ObjectId;
  description : string;
  credits : option Z;
  semester : option Z;
  isCore : bool;
  lecturer : string;
  learningOutcomes : list string;
  assessmentMethods : Assessment;
  prerequisites : list ObjectId
}.

End Mod.

Module Student.

Record t := {
  _id : ObjectId;
  name : string;
  email : string;
  rollNumber : string;
  department : ObjectId;
  course : ObjectId;
  year : option Z;
  semester : option Z;
  enrollmentDate : Z;
  status : string;
  notes : string;
  user : option ObjectId
}.

End Student.

Module User.

(** Modelled from the spec: models/User.js is not among the sources.  The
    data model gives a User a name, a unique email, a hashed password, a
    role and an [isActive] flag. *)
Record t := {
  _id : ObjectId;
  name : string;
  email : string;
  password : string;
  role : string;
  isActive : bool
}.

End User.

Module Enrollment.

Inductive Status := enrolled | dropped.

Record t := {
  _id : ObjectId;
  user : ObjectId;
  course : ObjectId;
  status : Status;
  joinedAt : Z
}.

End Enrollment.

(** The entity store: one collection per model. *)
Record Store := {
  departments : list Department.t;
  courses : list Course.t;
  modules : list Mod.t;
  students : list Student.t;
  users : list User.t;
  enrollments : list Enrollment.t
}.

Definition setDepartments (l : list Department.t) (s : Store) : Store :=
  {| departments := l; courses := courses s; modules := modules s;
     students := students s; users := users s; enrollments := enrollments s |}.

Definition setCourses (l : list Course.t) (s : Store) : Store :=
  {| departments := departments s; courses := l; modules := modules s;
     students := students s; users := users s; enrollments := enrollments s |}.

Definition setModules (l : list Mod.t) (s : Store) : Store :=
  {| departments := departments s; courses := courses s; modules := l;
     students := students s; users := users s; enrollments := enrollments s |}.

Definition setStudents (l : list Student.t) (s : Store) : Store :=
  {| departments := departments s; courses := courses s; modules := modules s;
     students := l; users := users s; enrollments := enrollments s |}.

Definition setUsers (l : list User.t) (s : Store) : Store :=
  {| departments := departments s; courses := courses s; modules := modules s;
     students := students s; users := l; enrollments := enrollments s |}.

Definition setEnrollments (l : list Enrollment.t) (s : Store) : Store :=
  {| departments := departments s; courses := courses s; modules := modules s;
     students := students s; users := users s; enrollments := l |}.

(** ** Enrollment manager (portal controller) *)

Module EnrollmentModel.

(** The filter [{ user: u, course: c }]. *)
Definition forPair (u c : ObjectId) (e : Enrollment.t) : bool :=
  bool_decide (Enrollment.user e = u) && bool_decide (Enrollment.course e = c).

(** [Enrollment.create(doc)] under the unique index [{ user: 1, course: 1 }]:
    an insert that meets a row of the same pair is rejected with E11000. *)
Definition create (doc : Enrollment.t) (l : list Enrollment.t)
    : Error + list Enrollment.t :=
  if existsb (forPair (Enrollment.user doc) (Enrollment.course doc)) l
  then inl (MongoServerError 11000)
  else inr (l ++ [doc]).

(** What the unique index guarantees of a collection. *)
Definition uniquePairs (l : list Enrollment.t) : Prop :=
  NoDup (map (fun e => (Enrollment.user e, Enrollment.course e)) l).

End EnrollmentModel.

Module PortalController.

(** [req.session.user._id], [req.body.courseId] and [req.accepts('json')]. *)
Record Request := {
  userId : ObjectId;
  courseId : ObjectId;
  acceptsJson : bool
}.

(** POST /portal/enroll.  [newId] and [now] are the [_id] and the
    [joinedAt] default of the document that [Enrollment.create] builds. *)
Definition enrollInCourse (req : Request) (newId : ObjectId) (now : Z)
    (s : Store) : Reply unit * Store :=
  match findById Course._id (courses s) (courseId req) with
  | None =>
      (respond (acceptsJson req) 404 "Course not found"
         "error" "Course not found" "/catalog", s)
  | Some _ =>
      let doc := {| Enrollment._id := newId;
                    Enrollment.user := userId req;
                    Enrollment.course := courseId req;
                    Enrollment.status := Enrollment.enrolled;
                    Enrollment.joinedAt := now |} in
      match EnrollmentModel.create doc (enrollments s) with
      | inl (MongoServerError 11000) =>
          (respond (acceptsJson req) 200 "Already enrolled"
             "success" "Already enrolled" ("/catalog/course/" +:+ courseId req), s)
      | inl err => (thrown err, s)
      | inr l =>
          (respond (acceptsJson req) 201 "Enrolled"
             "success" "Enrolled successfully" ("/catalog/course/" +:+ courseId req),
           setEnrollments l s)
      end
  end.

(** POST /portal/drop. *)
Definition dropFromCourse (req : Request) (s : Store) : Reply unit * Store :=
  match findOne (EnrollmentModel.forPair (userId req) (courseId req)) (enrollments s) with
  | None =>
      (respond (acceptsJson req) 404 "Enrollment not found"
         "error" "You are not enrolled in this course"
         ("/catalog/course/" +:+ courseId req), s)
  | Some enrollment =>
      (respond (acceptsJson req) 200 "Dropped"
         "success" "Dropped from course" ("/catalog/course/" +:+ courseId req),
       setEnrollments
         (deleteOne Enrollment._id (Enrollment._id enrollment) (enrollments s)) s)
  end.

(** The requests of the enrollment manager and the store they lead to. *)
Inductive Op :=
| Enroll (req : Request) (newId : ObjectId) (now : Z)
| Drop (req : Request).

Definition run (op : Op) (s : Store) : Store :=
  match op with
  | Enroll req newId now => snd (enrollInCourse req newId now s)
  | Drop req => snd (dropFromCourse req s)
  end.

(** The stores reached from an empty Enrollment collection by enroll and
    drop requests. *)
Inductive reachable : Store -> Prop :=
| reachable_empty s : enrollments s = [] -> reachable s
| reachable_run op s : reachable s -> reachable (run op s).

End PortalController.

(** ** Students (student controller) *)

(** JavaScript's [a || b] on the result of [parseInt]: NaN and 0 are falsy. *)
Definition orNumber (a b : option Z) : option Z :=
  match a with
  | None | Some 0%Z => b
  | Some _ => a
  end.

(** A schema range [{ min, max }] on an optional number: an absent value
    is not checked. *)
Definition inRange (lo hi : Z) (v : option Z) : bool :=
  match v with
  | None => true
  | Some n => (lo <=? n)%Z && (n <=? hi)%Z
  end.

Definition isNone {A} (o : option A) : bool :=
  match o with None => true | Some _ => false end.

Module StudentModel.

(** The setters of the schema: [lowercase]/[uppercase] and [trim]. *)
Definition setName (v : string) : string := trim v.
Definition setEmail (v : string) : string := trim (toLowerCase v).
Definition setRollNumber (v : string) : string := trim (toUpperCase v).
Definition setNotes (v : string) : string := trim v.

Definition statusEnum : list string :=
  ["active"; "graduated"; "on_leave"; "inactive"].

(** Schema validation, run by [save] before anything is written: the
    first path that fails. *)
Definition validate (d : Student.t) : option Error :=
  if negb (truthy (Student.name d)) then Some (ValidationFailed "name")
  else if negb (truthy (Student.email d)) then Some (ValidationFailed "email")
  else if negb (truthy (Student.rollNumber d)) then Some (ValidationFailed "rollNumber")
  else if negb (inRange 1 10 (Student.year d)) then Some (ValidationFailed "year")
  else if negb (inRange 1 12 (Student.semester d)) then Some (ValidationFailed "semester")
  else if negb (bool_decide (Student.status d ∈ statusEnum)) then Some (ValidationFailed "status")
  else None.

(** Another document holds one of the unique keys of [d]: [email],
    [rollNumber], or the sparse [user] link. *)
Definition clashes (d : Student.t) (x : Student.t) : bool :=
  negb (bool_decide (Student._id x = Student._id d))
  && (bool_decide (Student.email x = Student.email d)
      || bool_decide (Student.rollNumber x = Student.rollNumber d)
      || match Student.user d with
         | Some u => bool_decide (Student.user x = Some u)
         | None => false
         end).

(** [student.save()] on a document loaded from the store. *)
Definition save (d : Student.t) (l : list Student.t) : Error + list Student.t :=
  match validate d with
  | Some err => inl err
  | None =>
      if existsb (clashes d) l then inl (MongoServerError 11000)
      else inr (replaceOne Student._id d l)
  end.

End StudentModel.

Section Students.

(** Modelled from the spec: the pre-save hook of the User model (not
    among the sources) stores the hash of the password, never the
    plaintext; the hash function is left open. *)
Variable hashPassword : string -> string.

(** Modelled from the spec: [user.save()] of the User model (not among
    the sources) under its unique [email] index, for a new document. *)
Definition User_insert (u : User.t) (l : list User.t) : Error + list User.t :=
  if existsb (fun x => bool_decide (User.email x = User.email u)) l
  then inl (MongoServerError 11000)
  else inr (l ++ [ {| User._id := User._id u; User.name := User.name u;
                      User.email := User.email u;
                      User.password := hashPassword (User.password u);
                      User.role := User.role u;
                      User.isActive := User.isActive u |} ]).

(** Modelled from the spec: [user.save()] of a stored User whose
    password was assigned; the hook hashes it again. *)
Definition User_savePassword (u : User.t) (plain : string) (l : list User.t)
    : list User.t :=
  replaceOne User._id
    {| User._id := User._id u; User.name := User.name u;
       User.email := User.email u; User.password := hashPassword plain;
       User.role := User.role u; User.isActive := User.isActive u |} l.

(** [req.params.id], [req.body] and [req.accepts('json')] of PUT /students/:id. *)
Record UpdateStudentRequest := {
  us_id : ObjectId;
  us_name : string;
  us_email : string;
  us_rollNumber : string;
  us_department : ObjectId;
  us_course : ObjectId;
  us_year : option Z;
  us_semester : option Z;
  us_enrollmentDate : option Z;
  us_status : string;
  us_notes : string;
  us_createLogin : string;
  us_password : string;
  us_resetPassword : string;
  us_acceptsJson : bool
}.

(** The filter [{ _id: { $ne: id }, $or: [{ email }, { rollNumber }] }],
    its values cast by the setters of the schema. *)
Definition otherWithKey (id : ObjectId) (email rollNumber : string)
    (x : Student.t) : bool :=
  negb (bool_decide (Student._id x = id))
  && (bool_decide (Student.email x = StudentModel.setEmail email)
      || bool_decide (Student.rollNumber x = StudentModel.setRollNumber rollNumber)).

Definition withUser (u : ObjectId) (d : Student.t) : Student.t :=
  {| Student._id := Student._id d; Student.name := Student.name d;
     Student.email := Student.email d; Student.rollNumber := Student.rollNumber d;
     Student.department := Student.department d; Student.course := Student.course d;
     Student.year := Student.year d; Student.semester := Student.semester d;
     Student.enrollmentDate := Student.enrollmentDate d;
     Student.status := Student.status d; Student.notes := Student.notes d;
     Student.user := Some u |}.

(** The assignments [student.name = name; ...; student.notes = notes],
    each through the setter of its path. *)
Definition assignFields (req : UpdateStudentRequest) (student : Student.t)
    : Student.t :=
  {| Student._id := Student._id student;
     Student.name := StudentModel.setName (us_name req);
     Student.email := StudentModel.setEmail (toLowerCase (us_email req));
     Student.rollNumber :=
       StudentModel.setRollNumber (toUpperCase (us_rollNumber req));
     Student.department := us_department req;
     Student.course := us_course req;
     Student.year := orNumber (us_year req) (Student.year student);
     Student.semester := orNumber (us_semester req) (Student.semester student);
     Student.enrollmentDate :=
       default (Student.enrollmentDate student) (us_enrollmentDate req);
     Student.status := orElse (us_status req) (Student.status student);
     Student.notes := StudentModel.setNotes (us_notes req);
     Student.user := Student.user student |}.

(** The tail of [updateStudent]: the password reset, then the answer. *)
Definition resetAndAnswer (req : UpdateStudentRequest) (student : Student.t)
    (s : Store) : Reply Student.t * Store :=
  let edit := "/students/" +:+ Student._id student +:+ "/edit" in
  match Student.user student with
  | Some uid =>
      if truthy (us_resetPassword req) then
        if (String.length (us_resetPassword req) <? 6)%nat then
          (respond (us_acceptsJson req) 400 "Password must be at least 6 characters"
             "error" "Password must be at least 6 characters" edit, s)
        else
          let s' := match findById User._id (users s) uid with
                    | Some user =>
                        setUsers (User_savePassword user (us_resetPassword req) (users s)) s
                    | None => s
                    end in
          (if us_acceptsJson req then jsonDoc 200 student
           else redirect "success" "Student updated" ("/students/" +:+ Student._id student),
           s')
      else
        (if us_acceptsJson req then jsonDoc 200 student
         else redirect "success" "Student updated" ("/students/" +:+ Student._id student),
         s)
  | None =>
      (if us_acceptsJson req then jsonDoc 200 student
       else redirect "success" "Student updated" ("/students/" +:+ Student._id student),
       s)
  end.

(** PUT /students/:id.  [newUserId] is the [_id] of the User document
    that the handler constructs when a login is requested. *)
Definition updateStudent (req : UpdateStudentRequest) (newUserId : ObjectId)
    (s : Store) : Reply Student.t * Store :=
  match findById Student._id (students s) (us_id req) with
  | None =>
      (respond (us_acceptsJson req) 404 "Student not found"
         "error" "Student not found" "/students", s)
  | Some student =>
      let edit := "/students/" +:+ Student._id student +:+ "/edit" in
      match findOne
              (otherWithKey (Student._id student)
                 (toLowerCase (us_email req)) (toUpperCase (us_rollNumber req)))
              (students s) with
      | Some _ =>
          (respond (us_acceptsJson req) 400 "Email or Roll Number already exists"
             "error" "Email or Roll Number already exists" edit, s)
      | None =>
          let student1 := assignFields req student in
          match StudentModel.save student1 (students s) with
          | inl err => (thrown err, s)
          | inr l1 =>
              let s1 := setStudents l1 s in
              if bool_decide (us_createLogin req = "on") && isNone (Student.user student1)
              then
                match findOne
                        (fun u => bool_decide (User.email u = toLowerCase (us_email req)))
                        (users s1) with
                | Some _ =>
                    (respond (us_acceptsJson req) 400 "A user with this email already exists"
                       "error" "A user with this email already exists" edit, s1)
                | None =>
                    if negb (truthy (us_password req))
                       || (String.length (us_password req) <? 6)%nat
                    then
                      (respond (us_acceptsJson req) 400
                         "Password must be at least 6 characters"
                         "error" "Password must be at least 6 characters" edit, s1)
                    else
                      let user := {| User._id := newUserId;
                                     User.name := us_name req;
                                     User.email := toLowerCase (us_email req);
                                     User.password := us_password req;
                                     User.role := "student";
                                     User.isActive := true |} in
                      match User_insert user (users s1) with
                      | inl err => (thrown err, s1)
                      | inr lu =>
                          let s2 := setUsers lu s1 in
                          let student2 := withUser newUserId student1 in
                          match StudentModel.save student2 (students s2) with
                          | inl err => (thrown err, s2)
                          | inr l2 => resetAndAnswer req student2 (setStudents l2 s2)
                          end
                      end
                end
              else resetAndAnswer req student1 s1
          end
      end
  end.

(** DELETE /students/:id.  The Student schema declares no hook. *)
Definition deleteStudent (id : ObjectId) (acceptsJson : bool) (s : Store)
    : Reply unit * Store :=
  match findById Student._id (students s) id with
  | None =>
      (respond acceptsJson 404 "Student not found"
         "error" "Student not found" "/students", s)
  | Some student =>
      (respond acceptsJson 200 "Student removed"
         "success" "Student deleted" "/students",
       setStudents (deleteOne Student._id (Student._id student) (students s)) s)
  end.

End Students.

(** ** Courses and departments (course and department controllers) *)

(** The filter [{ course: id }] on modules and [{ department: id }] on courses. *)
Definition ofCourse (id : ObjectId) (m : Mod.t) : bool :=
  bool_decide (Mod.course m = id).

Definition ofDepartment (id : ObjectId) (c : Course.t) : bool :=
  bool_decide (Course.department c = id).

Module CourseModel.

(** The setters of the schema, in the order of its options. *)
Definition setName (v : string) : string := trim v.
Definition setCode (v : string) : string := toUpperCase (trim v).
Definition setDescription (v : string) : string := trim v.

(** A required number with a range. *)
Definition requiredIn (lo : Z) (hi : option Z) (v : option Z) : bool :=
  match v with
  | None => false
  | Some n => (lo <=? n)%Z && match hi with Some h => (n <=? h)%Z | None => true end
  end.

(** Schema validation: required paths, ranges, and the [endDate]
    validator [value > this.startDate].  Mongoose skips the validator
    when the path is [undefined] and runs it on [null], which compares
    as the number 0; a failed cast is a validation error of the path. *)
Definition validate (d : Course.t) : option Error :=
  if negb (truthy (Course.name d)) then Some (ValidationFailed "name")
  else if negb (truthy (Course.code d)) then Some (ValidationFailed "code")
  else if negb (requiredIn 1 (Some 10%Z) (Course.duration d)) then Some (ValidationFailed "duration")
  else if negb (requiredIn 1 None (Course.credits d)) then Some (ValidationFailed "credits")
  else if negb (PrimFloat.leb 0 (Course.fee d)) then Some (ValidationFailed "fee")
  else match Course.startDate d, Course.endDate d with
       | None, _ => Some (ValidationFailed "startDate")
       | Some _, Unset => None
       | Some b, Blank => if (b <? 0)%Z then None else Some (ValidationFailed "endDate")
       | Some _, Invalid => Some (ValidationFailed "endDate")
       | Some b, DateAt e => if (b <? e)%Z then None else Some (ValidationFailed "endDate")
       end.

(** The pre-save hook: the referenced department must exist. *)
Definition preSave (s : Store) (d : Course.t) : option Error :=
  match findById Department._id (departments s) (Course.department d) with
  | None => Some (HookError "Department not found")
  | Some _ => None
  end.

(** [course.save()] of a new document: validation, the hook, then the
    insert under the unique [code] index. *)
Definition insert (s : Store) (d : Course.t) : Error + list Course.t :=
  match validate d with
  | Some err => inl err
  | None =>
      match preSave s d with
      | Some err => inl err
      | None =>
          if existsb (fun x => bool_decide (Course.code x = Course.code d)) (courses s)
          then inl (MongoServerError 11000)
          else inr (courses s ++ [d])
      end
  end.

End CourseModel.

Module CourseController.

(** [req.body] and [req.accepts('json')] of POST /api/courses.
    [startDate] is the time value of the submitted date, [None] when the
    field is absent, blank or no date: the required path fails in each
    case.  [endDate] keeps these cases apart. *)
Record CreateRequest := {
  name : string;
  code : string;
  department : ObjectId;
  duration : option Z;
  description : string;
  credits : option Z;
  fee : float;
  startDate : option Z;
  endDate : DateField;
  acceptsJson : bool
}.

(** [new Date(endDate) <= new Date(startDate)]: false when either date
    is invalid. *)
Definition notAfter (e b : option Z) : bool :=
  match e, b with
  | Some x, Some y => (x <=? y)%Z
  | _, _ => false
  end.

(** POST /api/courses.  The filter [{ code }] is cast by the setters of
    the schema, so the submitted code is compared upper-cased. *)
Definition createCourse (req : CreateRequest) (newId : ObjectId) (s : Store)
    : Reply Course.t * Store :=
  match findOne (fun x => bool_decide (Course.code x = CourseModel.setCode (code req)))
          (courses s) with
  | Some _ =>
      (respond (acceptsJson req) 400 "Course with this code already exists"
         "error" "Course with this code already exists" "/courses/new", s)
  | None =>
      if notAfter (timeOf (endDate req)) (startDate req) then
        (respond (acceptsJson req) 400 "End date must be after start date"
           "error" "End date must be after start date" "/courses/new", s)
      else
        let course :=
          {| Course._id := newId;
             Course.name := CourseModel.setName (name req);
             Course.code := CourseModel.setCode (toUpperCase (code req));
             Course.department := department req;
             Course.duration := duration req;
             Course.description := CourseModel.setDescription (description req);
             Course.credits := credits req;
             Course.isActive := true;
             Course.fee := fee req;
             Course.startDate := startDate req;
             Course.endDate := endDate req |} in
        match CourseModel.insert s course with
        | inl err => (thrown err, s)
        | inr l =>
            (if acceptsJson req then jsonDoc 201 course
             else redirect "success" "Course created successfully" ("/courses/" +:+ newId),
             setCourses l s)
        end
  end.

(** DELETE /api/courses/:id.  The Course schema declares no remove hook. *)
Definition deleteCourse (id : ObjectId) (acceptsJson : bool) (s : Store)
    : Reply unit * Store :=
  match findById Course._id (courses s) id with
  | None =>
      (respond acceptsJson 404 "Course not found"
         "error" "Course not found" "/courses", s)
  | Some course =>
      let moduleCount := countDocuments (ofCourse (Course._id course)) (modules s) in
      if (0 <? moduleCount)%nat then
        (respond acceptsJson 400 "Cannot delete course with associated modules"
           "error" "Cannot delete course with associated modules"
           ("/courses/" +:+ Course._id course), s)
      else
        (respond acceptsJson 200 "Course removed"
           "success" "Course deleted successfully" "/courses",
         setCourses (deleteOne Course._id (Course._id course) (courses s)) s)
  end.

End CourseController.

Module DepartmentModel.

(** [department.remove()]: the pre-remove hook deletes every course of
    the department, then the department document goes. *)
Definition remove (d : Department.t) (s : Store) : Store :=
  let s1 := setCourses (deleteMany (ofDepartment (Department._id d)) (courses s)) s in
  setDepartments (deleteOne Department._id (Department._id d) (departments s1)) s1.

End DepartmentModel.

Module DepartmentController.

(** DELETE /api/departments/:id. *)
Definition deleteDepartment (id : ObjectId) (acceptsJson : bool) (s : Store)
    : Reply unit * Store :=
  match findById Department._id (departments s) id with
  | None =>
      (respond acceptsJson 404 "Department not found"
         "error" "Department not found" "/departments", s)
  | Some department =>
      let courseCount :=
        countDocuments (ofDepartment (Department._id department)) (courses s) in
      if (0 <? courseCount)%nat then
        (respond acceptsJson 400 "Cannot delete department with associated courses"
           "error" "Cannot delete department with associated courses"
           ("/departments/" +:+ Department._id department), s)
      else
        (respond acceptsJson 200 "Department removed"
           "success" "Department deleted successfully" "/departments",
         DepartmentModel.remove department s)
  end.

End DepartmentController.

(** ** Modules (module model and controller) *)

(** [s.split(sep)] for a one-character separator. *)
Fixpoint splitOn (sep : ascii) (s : string) : list string :=
  match s with
  | EmptyString => [EmptyString]
  | String a r =>
      if bool_decide (a = sep) then EmptyString :: splitOn sep r
      else match splitOn sep r with
           | h :: t => String a h :: t
           | [] => [String a EmptyString]
           end
  end.

Definition newline : ascii := ascii_of_nat 10.

(** [x || 0] on the result of [parseFloat]: NaN, 0 and -0 are falsy. *)
Definition orZero (x : float) : float :=
  if PrimFloat.is_nan x || PrimFloat.eqb x 0 then 0%float else x.

Module ModuleModel.

(** The setters of the schema. *)
Definition setName (v : string) : string := trim v.
Definition setCode (v : string) : string := toUpperCase (trim v).
Definition setText (v : string) : string := trim v.

(** A weight within [{ min: 0, max: 100 }]. *)
Definition weightInRange (w : float) : bool :=
  PrimFloat.leb 0 w && PrimFloat.leb w 100.

(** Schema validation, run by [save] before the hooks of the schema. *)
Definition validate (d : Mod.t) : option Error :=
  if negb (truthy (Mod.name d)) then Some (ValidationFailed "name")
  else if negb (truthy (Mod.code d)) then Some (ValidationFailed "code")
  else if negb (CourseModel.requiredIn 1 None (Mod.credits d))
       then Some (ValidationFailed "credits")
  else if negb (CourseModel.requiredIn 1 (Some 12%Z) (Mod.semester d))
       then Some (ValidationFailed "semester")
  else if negb (weightInRange (Mod.exam (Mod.assessmentMethods d)))
       then Some (ValidationFailed "assessmentMethods.exam")
  else if negb (weightInRange (Mod.coursework (Mod.assessmentMethods d)))
       then Some (ValidationFailed "assessmentMethods.coursework")
  else if negb (weightInRange (Mod.practical (Mod.assessmentMethods d)))
       then Some (ValidationFailed "assessmentMethods.practical")
  else None.

(** The pre-save hook: the course and the department must exist, and
    the department must be the department of the course. *)
Definition preSave (s : Store) (d : Mod.t) : option Error :=
  match findById Course._id (courses s) (Mod.course d),
        findById Department._id (departments s) (Mod.department d) with
  | None, _ => Some (HookError "Course not found")
  | Some _, None => Some (HookError "Department not found")
  | Some course, Some _ =>
      if negb (bool_decide (Course.department course = Mod.department d))
      then Some (HookError "Department does not match the course department")
      else None
  end.

(** [module.save()] of a new document: validation, the hook, then the
    insert under the unique [code] index. *)
Definition insert (s : Store) (d : Mod.t) : Error + list Mod.t :=
  match validate d with
  | Some err => inl err
  | None =>
      match preSave s d with
      | Some err => inl err
      | None =>
          if existsb (fun x => bool_decide (Mod.code x = Mod.code d)) (modules s)
          then inl (MongoServerError 11000)
          else inr (modules s ++ [d])
      end
  end.

(** [module.save()] of a stored document. *)
Definition save (s : Store) (d : Mod.t) : Error + list Mod.t :=
  match validate d with
  | Some err => inl err
  | None =>
      match preSave s d with
      | Some err => inl err
      | None =>
          if existsb (fun x => negb (bool_decide (Mod._id x = Mod._id d))
                               && bool_decide (Mod.code x = Mod.code d)) (modules s)
          then inl (MongoServerError 11000)
          else inr (replaceOne Mod._id d (modules s))
      end
  end.

End ModuleModel.

Module ModuleController.

(** [req.body.prerequisites]: an array of ids, or one value (the empty
    string when the field is blank). *)
Inductive Prerequisites :=
| Many (ids : list ObjectId)
| One (id : string).

(** [req.body] and [req.accepts('json')] of POST /api/modules and
    PUT /api/modules/:id. *)
Record Body := {
  name : string;
  code : string;
  course : ObjectId;
  department : ObjectId;
  description : string;
  credits : option Z;
  semester : option Z;
  isCore : string;
  lecturer : string;
  learningOutcomes : string;
  examWeight : float;
  courseworkWeight : float;
  practicalWeight : float;
  prerequisites : Prerequisites;
  acceptsJson : bool
}.

(** [learningOutcomes.split('\n').map(trim).filter(nonempty)], or [[]]
    when the field is empty. *)
Definition processLearningOutcomes (text : string) : list string :=
  if truthy text
  then List.filter truthy (map trim (splitOn newline text))
  else [].

(** [{ exam: parseFloat(examWeight) || 0, ... }]. *)
Definition assessmentOf (b : Body) : Mod.Assessment :=
  {| Mod.exam := orZero (examWeight b);
     Mod.coursework := orZero (courseworkWeight b);
     Mod.practical := orZero (practicalWeight b) |}.

(** [Object.values(assessmentMethods).reduce((sum, w) => sum + w, 0)]. *)
Definition totalWeight (a : Mod.Assessment) : float :=
  fold_left PrimFloat.add [Mod.exam a; Mod.coursework a; Mod.practical a] 0%float.

(** [Math.abs(totalWeight - 100) > 0.01]. *)
Definition weightsOff (a : Mod.Assessment) : bool :=
  PrimFloat.ltb 0.01 (PrimFloat.abs (PrimFloat.sub (totalWeight a) 100)).


(** [Array.isArray(p) ? p : [p].filter(Boolean)]. *)
Definition prerequisiteIds (p : Prerequisites) : list ObjectId :=
  match p with
  | Many ids => ids
  | One id => List.filter truthy [id]
  end.

(** The document that the handlers build from the body. *)
Definition moduleOf (id : ObjectId) (b : Body) : Mod.t :=
  {| Mod._id := id;
     Mod.name := ModuleModel.setName (name b);
     Mod.code := ModuleModel.setCode (toUpperCase (code b));
     Mod.course := course b;
     Mod.department := department b;
     Mod.description := ModuleModel.setText (description b);
     Mod.credits := credits b;
     Mod.semester := semester b;
     Mod.isCore := bool_decide (isCore b = "on");
     Mod.lecturer := ModuleModel.setText (lecturer b);
     Mod.learningOutcomes :=
       map ModuleModel.setText (processLearningOutcomes (learningOutcomes b));
     Mod.assessmentMethods := assessmentOf b;
     Mod.prerequisites := prerequisiteIds (prerequisites b) |}.

(** POST /api/modules.  The filter [{ code }] is cast by the setters of
    the schema, so the submitted code is compared upper-cased. *)
Definition createModule (b : Body) (newId : ObjectId) (s : Store)
    : Reply Mod.t * Store :=
  match findOne (fun x => bool_decide (Mod.code x = ModuleModel.setCode (code b)))
          (modules s) with
  | Some _ =>
      (respond (acceptsJson b) 400 "Module with this code already exists"
         "error" "Module with this code already exists" "/modules/new", s)
  | None =>
      if weightsOff (assessmentOf b) then
        (respond (acceptsJson b) 400 "Assessment weights must sum to 100%"
           "error" "Assessment weights must sum to 100%" "/modules/new", s)
      else
        let module := moduleOf newId b in
        match ModuleModel.insert s module with
        | inl err => (thrown err, s)
        | inr l =>
            (if acceptsJson b then jsonDoc 201 module
             else redirect "success" "Module created successfully" ("/modules/" +:+ newId),
             setModules l s)
        end
  end.

(** PUT /api/modules/:id. *)
Definition updateModule (id : ObjectId) (b : Body) (s : Store)
    : Reply Mod.t * Store :=
  match findById Mod._id (modules s) id with
  | None =>
      (respond (acceptsJson b) 404 "Module not found"
         "error" "Module not found" "/modules", s)
  | Some stored =>
      let edit := "/modules/" +:+ Mod._id stored +:+ "/edit" in
      match findOne
              (fun x => negb (bool_decide (Mod._id x = Mod._id stored))
                        && bool_decide (Mod.code x = ModuleModel.setCode (toUpperCase (code b))))
              (modules s) with
      | Some _ =>
          (respond (acceptsJson b) 400 "Module with this code already exists"
             "error" "Module with this code already exists" edit, s)
      | None =>
          if weightsOff (assessmentOf b) then
            (respond (acceptsJson b) 400 "Assessment weights must sum to 100%"
               "error" "Assessment weights must sum to 100%" edit, s)
          else
            let module := moduleOf (Mod._id stored) b in
            match ModuleModel.save s module with
            | inl err => (thrown err, s)
            | inr l =>
                (if acceptsJson b then jsonDoc 200 module
                 else redirect "success" "Module updated successfully"
                        ("/modules/" +:+ Mod._id stored),
                 setModules l s)
            end
      end
  end.

End ModuleController.

(** ** Catalog aggregator (structured modules view) *)

(** A JavaScript object used as a map from strings: its own keys in
    insertion order.  The keys here are ObjectId strings, which are never
    array indices, so enumeration follows insertion. *)
Definition Obj (V : Type) : Type := list (string * V).

Definition objGet {V} (o : Obj V) (k : string) : option V :=
  snd <$> List.find (fun p => bool_decide (fst p = k)) o.

(** [o[k] = v]: an existing key keeps its place. *)
Fixpoint objSet {V} (k : string) (v : V) (o : Obj V) : Obj V :=
  match o with
  | [] => [(k, v)]
  | (k', v') :: r =>
      if bool_decide (k' = k) then (k, v) :: r else (k', v') :: objSet k v r
  end.

Module Catalog.

(** What [populate('course', 'name code department')] and
    [populate('department', 'name code')] put in place of the ids. *)
Record CourseRef := {
  c_id : ObjectId;
  c_name : string;
  c_code : string;
  c_department : ObjectId
}.

Record DepartmentRef := {
  d_id : ObjectId;
  d_name : string;
  d_code : string
}.

(** A module as the query returns it: a reference that does not resolve
    is populated with null. *)
Record Populated := {
  doc : Mod.t;
  course : option CourseRef;
  department : option DepartmentRef
}.

Definition populate (s : Store) (m : Mod.t) : Populated :=
  {| doc := m;
     course :=
       (fun c => {| c_id := Course._id c; c_name := Course.name c;
                    c_code := Course.code c; c_department := Course.department c |})
       <$> findById Course._id (courses s) (Mod.course m);
     department :=
       (fun d => {| d_id := Department._id d; d_name := Department.name d;
                    d_code := Department.code d |})
       <$> findById Department._id (departments s) (Mod.department m) |}.

(** The buckets of the structure; the semesters of a course are keyed by
    the semester number. *)
Record CourseBucket := {
  cb_id : ObjectId;
  cb_name : string;
  cb_code : string;
  semesters : gmap Z (list Populated)
}.

Record DepartmentBucket := {
  db_id : ObjectId;
  db_name : string;
  db_code : string;
  courses : Obj CourseBucket
}.

Definition Structure : Type := Obj DepartmentBucket.

(** The body of [departments.forEach]. *)
Definition addDepartment (st : Structure) (dep : Department.t) : Structure :=
  objSet (Department._id dep)
    {| db_id := Department._id dep; db_name := Department.name dep;
       db_code := Department.code dep; courses := [] |} st.

(** The body of [courses.forEach]. *)
Definition addCourse (st : Structure) (c : Course.t) : Structure :=
  let depId := Course.department c in
  match objGet st depId with
  | None => st
  | Some b =>
      objSet depId
        {| db_id := db_id b; db_name := db_name b; db_code := db_code b;
           courses :=
             objSet (Course._id c)
               {| cb_id := Course._id c; cb_name := Course.name c;
                  cb_code := Course.code c; semesters := ∅ |} (courses b) |} st
  end.

(** [m.department ? String(m.department._id || m.department)
     : (m.course && m.course.department ? String(m.course.department) : null)]. *)
Definition departmentKey (m : Populated) : option string :=
  match department m with
  | Some d => Some (d_id d)
  | None =>
      match course m with
      | Some c => if truthy (c_department c) then Some (c_department c) else None
      | None => None
      end
  end.

(** [m.course ? String(m.course._id || m.course) : null]. *)
Definition courseKey (m : Populated) : option string :=
  c_id <$> course m.

(** [Number(m.semester) || 0]. *)
Definition semesterKey (m : Populated) : Z :=
  default 0%Z (Mod.semester (doc m)).

(** The buckets that receive [m], or [None] when [m] is skipped. *)
Definition bucketsOf (st : Structure) (m : Populated)
    : option (string * DepartmentBucket * string * CourseBucket) :=
  match departmentKey m with
  | None => None
  | Some depId =>
      if negb (truthy depId) then None else
      match objGet st depId with
      | None => None
      | Some b =>
          match courseKey m with
          | None => None
          | Some courseId =>
              if negb (truthy courseId) then None else
              match objGet (courses b) courseId with
              | None => None
              | Some cb => Some (depId, b, courseId, cb)
              end
          end
      end
  end.

(** The body of [modules.forEach]. *)
Definition addModule (st : Structure) (m : Populated) : Structure :=
  match bucketsOf st m with
  | None => st
  | Some (depId, b, courseId, cb) =>
      let sem := semesterKey m in
      let sems :=
        match semesters cb !! sem with
        | None => <[sem := []]> (semesters cb)
        | Some _ => semesters cb
        end in
      let sems' := <[sem := default [] (sems !! sem) ++ [m]]> sems in
      objSet depId
        {| db_id := db_id b; db_name := db_name b; db_code := db_code b;
           courses :=
             objSet courseId
               {| cb_id := cb_id cb; cb_name := cb_name cb; cb_code := cb_code cb;
                  semesters := sems' |} (courses b) |} st
  end.

(** The structure built from the three query results. *)
Definition buildStructure (departments : list Department.t)
    (courses : list Course.t) (modules : list Populated) : Structure :=
  fold_left addModule modules
    (fold_left addCourse courses (fold_left addDepartment departments [])).

(** Module [m] sits in some semester bucket of the structure. *)
Definition placed (st : Structure) (m : Populated) : Prop :=
  exists depId b courseId cb sem l,
    objGet st depId = Some b /\
    objGet (courses b) courseId = Some cb /\
    semesters cb !! sem = Some l /\
    m ∈ l.

End Catalog.

(** The order of a query result under [.sort(...)]: a stable insertion
    sort, so documents with equal keys keep the natural order. *)
Fixpoint insertBy {A} (le : A -> A -> bool) (x : A) (l : list A) : list A :=
  match l with
  | [] => [x]
  | y :: r => if le x y then x :: l else y :: insertBy le x r
  end.

Definition sortBy {A} (le : A -> A -> bool) (l : list A) : list A :=
  foldr (insertBy le) [] l.

(** [{ name: 1 }]: strings compare by their bytes. *)
Definition departmentsByName : list Department.t -> list Department.t :=
  sortBy (fun a b => String.leb (Department.name a) (Department.name b)).

Definition coursesByName : list Course.t -> list Course.t :=
  sortBy (fun a b => String.leb (Course.name a) (Course.name b)).

(** [{ semester: 1, name: 1 }]: a missing semester sorts first. *)
Definition semesterCompare (a b : option Z) : comparison :=
  match a, b with
  | None, None => Eq
  | None, Some _ => Lt
  | Some _, None => Gt
  | Some x, Some y => (x ?= y)%Z
  end.

Definition modulesBySemesterName : list Mod.t -> list Mod.t :=
  sortBy (fun a b =>
            match semesterCompare (Mod.semester a) (Mod.semester b) with
            | Lt => true
            | Eq => String.leb (Mod.name a) (Mod.name b)
            | Gt => false
            end).

(** GET /api/modules/structured: the three queries and the structure
    built from their results. *)
Definition getStructuredModules (s : Store) : Catalog.Structure :=
  Catalog.buildStructure
    (departmentsByName (departments s))
    (coursesByName (courses s))
    (map (Catalog.populate s) (modulesBySemesterName (modules s))).

(** ** Sample data

    The department, course and modules of the catalog example of the
    specification, a student with and without a login, and the stores
    built from them. *)

Module Sample.

Definition idCS : ObjectId := "65f0000000000000000000d1".
Definition idPhysics : ObjectId := "65f0000000000000000000d2".
Definition idCS101 : ObjectId := "65f0000000000000000000c1".
Definition idUnknown : ObjectId := "65f0000000000000000000c9".
Definition idM1 : ObjectId := "65f0000000000000000000a1".
Definition idM2 : ObjectId := "65f0000000000000000000a2".
Definition idMorphan : ObjectId := "65f0000000000000000000a3".
Definition idM4 : ObjectId := "65f0000000000000000000a4".
Definition idAda : ObjectId := "65f0000000000000000000e1".
Definition idBob : ObjectId := "65f0000000000000000000e2".
Definition idAdaUser : ObjectId := "65f0000000000000000000f1".
Definition idEveUser : ObjectId := "65f0000000000000000000f2".
Definition idNew : ObjectId := "65f0000000000000000000ff".

Definition CS : Department.t :=
  {| Department._id := idCS; Department.name := "Computer Science";
     Department.code := "CS"; Department.description := "Computing";
     Department.headOfDepartment := "Dr. Hopper";
     Department.establishedDate := 0; Department.isActive := true |}.

Definition CS101 : Course.t :=
  {| Course._id := idCS101; Course.name := "Introduction to Computing";
     Course.code := "CS101"; Course.department := idCS;
     Course.duration := Some 3%Z; Course.description := "First course";
     Course.credits := Some 120%Z; Course.isActive := true;
     Course.fee := 1000%float; Course.startDate := Some 1000%Z;
     Course.endDate := DateAt 2000 |}.

Definition weights6040 : Mod.Assessment :=
  {| Mod.exam := 60%float; Mod.coursework := 40%float; Mod.practical := 0%float |}.

Definition moduleDoc (id : ObjectId) (name code : string) (course : ObjectId)
    (semester : Z) : Mod.t :=
  {| Mod._id := id; Mod.name := name; Mod.code := code; Mod.course := course;
     Mod.department := idCS; Mod.description := EmptyString;
     Mod.credits := Some 10%Z; Mod.semester := Some semester;
     Mod.isCore := true; Mod.lecturer := EmptyString;
     Mod.learningOutcomes := []; Mod.assessmentMethods := weights6040;
     Mod.prerequisites := [] |}.

Definition M1 : Mod.t := moduleDoc idM1 "M1" "CS101" idCS101 1.
Definition M2 : Mod.t := moduleDoc idM2 "M2" "CS102" idCS101 1.
Definition Morphan : Mod.t := moduleDoc idMorphan "Morphan" "CS999" idUnknown 2.

Definition Ada : Student.t :=
  {| Student._id := idAda; Student.name := "Ada"; Student.email := "ada@uni.edu";
     Student.rollNumber := "R001"; Student.department := idCS;
     Student.course := idCS101; Student.year := Some 1%Z;
     Student.semester := Some 1%Z; Student.enrollmentDate := 1000;
     Student.status := "active"; Student.notes := EmptyString;
     Student.user := Some idAdaUser |}.

Definition Bob : Student.t :=
  {| Student._id := idBob; Student.name := "Bob"; Student.email := "bob@uni.edu";
     Student.rollNumber := "R002"; Student.department := idCS;
     Student.course := idCS101; Student.year := Some 1%Z;
     Student.semester := Some 1%Z; Student.enrollmentDate := 1000;
     Student.status := "active"; Student.notes := EmptyString;
     Student.user := None |}.

Definition AdaUser : User.t :=
  {| User._id := idAdaUser; User.name := "Ada"; User.email := "ada@uni.edu";
     User.password := "$2a$10$hash"; User.role := "student"; User.isActive := true |}.

Definition EveUser : User.t :=
  {| User._id := idEveUser; User.name := "Eve"; User.email := "eve@uni.edu";
     User.password := "$2a$10$hash"; User.role := "admin"; User.isActive := true |}.

(** A stand-in for the password hash of the User model. *)
Definition hash (plain : string) : string := "$2a$10$" +:+ plain.

(** An edit of Bob that renames him, moves him to year 2 and asks for a
    login under the email of an existing user. *)
Definition loginForBob : UpdateStudentRequest :=
  {| us_id := idBob; us_name := "Robert"; us_email := "Eve@Uni.edu";
     us_rollNumber := "r002"; us_department := idCS; us_course := idCS101;
     us_year := Some 2%Z; us_semester := Some 3%Z; us_enrollmentDate := None;
     us_status := EmptyString; us_notes := EmptyString; us_createLogin := "on";
     us_password := "secret1"; us_resetPassword := EmptyString;
     us_acceptsJson := true |}.

(** An edit of Bob that takes the email of Ada. *)
Definition adaMailForBob : UpdateStudentRequest :=
  {| us_id := idBob; us_name := "Robert"; us_email := "ADA@uni.edu";
     us_rollNumber := "r002"; us_department := idCS; us_course := idCS101;
     us_year := Some 2%Z; us_semester := Some 3%Z; us_enrollmentDate := None;
     us_status := EmptyString; us_notes := EmptyString; us_createLogin := EmptyString;
     us_password := EmptyString; us_resetPassword := EmptyString;
     us_acceptsJson := true |}.

(** A module of CS101 that names a department that is not in the store. *)
Definition physicsModule : Mod.t :=
  {| Mod._id := idM4; Mod.name := "Mechanics"; Mod.code := "PH101";
     Mod.course := idCS101; Mod.department := idPhysics;
     Mod.description := EmptyString; Mod.credits := Some 10%Z;
     Mod.semester := Some 1%Z; Mod.isCore := true; Mod.lecturer := EmptyString;
     Mod.learningOutcomes := []; Mod.assessmentMethods := weights6040;
     Mod.prerequisites := [] |}.

(** A form for a module of CS101 under the given code and weights. *)
Definition moduleForm (code : string) (exam coursework practical : float)
    : ModuleController.Body :=
  {| ModuleController.name := "Algorithms"; ModuleController.code := code;
     ModuleController.course := idCS101; ModuleController.department := idCS;
     ModuleController.description := EmptyString;
     ModuleController.credits := Some 10%Z; ModuleController.semester := Some 1%Z;
     ModuleController.isCore := "on"; ModuleController.lecturer := EmptyString;
     ModuleController.learningOutcomes := EmptyString;
     ModuleController.examWeight := exam;
     ModuleController.courseworkWeight := coursework;
     ModuleController.practicalWeight := practical;
     ModuleController.prerequisites := ModuleController.Many [];
     ModuleController.acceptsJson := true |}.

(** One department with one course and no module. *)
Definition campus : Store :=
  {| departments := [CS]; courses := [CS101]; modules := [];
     students := [Ada; Bob]; users := [AdaUser; EveUser]; enrollments := [] |}.

(** The campus with a second department, Physics, that has no course. *)
Definition Physics : Department.t :=
  {| Department._id := idPhysics; Department.name := "Physics";
     Department.code := "PHY"; Department.description := EmptyString;
     Department.headOfDepartment := EmptyString;
     Department.establishedDate := 0; Department.isActive := true |}.

Definition twoDepartments : Store := setDepartments [CS; Physics] campus.

(** The store of the catalog example. *)
Definition catalog : Store := setModules [M1; M2; Morphan] campus.

End Sample.

(** * Properties *)

(** ** Evaluation on small inputs *)

Example toUpperCase_cs101 : toUpperCase "cs101" = "CS101".
Proof. reflexivity. Qed.

Example toLowerCase_email : toLowerCase "Eve@Uni.edu" = "eve@uni.edu".
Proof. reflexivity. Qed.

Example trim_padded : trim "  CS 101 " = "CS 101".
Proof. reflexivity. Qed.

Example setCode_padded : ModuleModel.setCode " cs101 " = "CS101".
Proof. reflexivity. Qed.

Example processLearningOutcomes_lines :
  ModuleController.processLearningOutcomes
    ("  sort " +:+ String newline (String newline " search"))
  = ["sort"; "search"].
Proof. reflexivity. Qed.

Example orZero_nan : orZero PrimFloat.nan = 0%float.
Proof. reflexivity. Qed.

Example orNumber_nan : orNumber None (Some 3%Z) = Some 3%Z.
Proof. reflexivity. Qed.

(** Three weights of 33.33 sum, in binary64, to a number further than
    0.01 from 100; 33.34 + 33.33 + 33.33 passes. *)
Example weightsOff_thirds :
  ModuleController.weightsOff
    {| Mod.exam := 33.33; Mod.coursework := 33.33; Mod.practical := 33.33 |} = true /\
  ModuleController.weightsOff
    {| Mod.exam := 33.34; Mod.coursework := 33.33; Mod.practical := 33.33 |} = false.
Proof. split; reflexivity. Qed.

(** The end date of a course that starts at time 1000: a field that is
    absent passes, a blank field and a value that is no date are
    refused, and so is a date that is not after the start. *)
Example validate_endDate :
  let course (v : DateField) :=
    {| Course._id := Sample.idCS101; Course.name := "Introduction to Computing";
       Course.code := "CS101"; Course.department := Sample.idCS;
       Course.duration := Some 3%Z; Course.description := EmptyString;
       Course.credits := Some 120%Z; Course.isActive := true;
       Course.fee := 1000%float; Course.startDate := Some 1000%Z;
       Course.endDate := v |} in
  CourseModel.validate (course Unset) = None /\
  CourseModel.validate (course Blank) = Some (ValidationFailed "endDate") /\
  CourseModel.validate (course Invalid) = Some (ValidationFailed "endDate") /\
  CourseModel.validate (course (DateAt 1000)) = Some (ValidationFailed "endDate") /\
  CourseModel.validate (course (DateAt 2000)) = None.
Proof. repeat split. Qed.

Example modulesBySemesterName_sample :
  modulesBySemesterName [Sample.Morphan; Sample.M2; Sample.M1]
  = [Sample.M1; Sample.M2; Sample.Morphan].
Proof. reflexivity. Qed.

Example enroll_then_drop :
  let req := {| PortalController.userId := Sample.idAdaUser;
                PortalController.courseId := Sample.idCS101;
                PortalController.acceptsJson := true |} in
  PortalController.enrollInCourse req Sample.idNew 5 Sample.campus
  = (json 201 "Enrolled",
     setEnrollments
       [ {| Enrollment._id := Sample.idNew; Enrollment.user := Sample.idAdaUser;
            Enrollment.course := Sample.idCS101;
            Enrollment.status := Enrollment.enrolled; Enrollment.joinedAt := 5 |} ]
       Sample.campus) /\
  PortalController.dropFromCourse req
    (snd (PortalController.enrollInCourse req Sample.idNew 5 Sample.campus))
  = (json 200 "Dropped", Sample.campus) /\
  PortalController.dropFromCourse req Sample.campus
  = (json 404 "Enrollment not found", Sample.campus).
Proof. repeat split. Qed.

(** ** Collections *)

Section CollectionFacts.
Context {D : Type} (idOf : D -> ObjectId).

Lemma findOne_Some (f : D -> bool) (l : list D) (d : D) :
  findOne f l = Some d -> d ∈ l /\ f d = true.
Proof.
  unfold findOne. intros H. apply find_some in H as [Hin Hf].
  split; [by apply list_elem_of_In | done].
Qed.

Lemma findOne_None (f : D -> bool) (l : list D) :
  findOne f l = None <-> forall d, d ∈ l -> f d = false.
Proof.
  unfold findOne. split.
  - intros H d Hd. apply list_elem_of_In in Hd. by eapply find_none in H.
  - induction l as [|x r IH]; intros H; simpl; [done|].
    rewrite (H x) by constructor. apply IH. intros d Hd. apply H. by constructor.
Qed.

Lemma findOne_existsb (f : D -> bool) (l : list D) :
  existsb f l = negb (isNone (findOne f l)).
Proof.
  unfold findOne. induction l as [|x r IH]; simpl; [done|].
  destruct (f x); simpl; [done | apply IH].
Qed.

Lemma findById_Some (l : list D) (id : ObjectId) (d : D) :
  findById idOf l id = Some d -> d ∈ l /\ idOf d = id.
Proof.
  intros H. apply findOne_Some in H as [Hin Hf].
  split; [done | by apply bool_decide_eq_true in Hf].
Qed.

Lemma countDocuments_zero (f : D -> bool) (l : list D) :
  countDocuments f l = 0 <-> forall d, d ∈ l -> f d = false.
Proof.
  unfold countDocuments. induction l as [|x r IH]; simpl.
  - split; [intros _ d Hd; inversion Hd | done].
  - destruct (f x) eqn:Hx; simpl.
    + split; [done|]. intros H. specialize (H x (list_elem_of_here _ _)). congruence.
    + rewrite IH. split.
      * intros H d Hd. apply elem_of_cons in Hd as [->|Hd]; auto.
      * intros H d Hd. apply H. by constructor.
Qed.

Lemma countDocuments_pos (f : D -> bool) (l : list D) :
  0 < countDocuments f l <-> exists d, d ∈ l /\ f d = true.
Proof.
  unfold countDocuments. induction l as [|x r IH]; simpl.
  - split; [lia | intros (d & Hd & _); inversion Hd].
  - destruct (f x) eqn:Hx; simpl.
    + split; [|lia]. intros _. exists x. split; [constructor | done].
    + rewrite IH. split.
      * intros (d & Hd & Hf). exists d. split; [by constructor | done].
      * intros (d & Hd & Hf). apply elem_of_cons in Hd as [->|Hd]; [congruence|].
        by exists d.
Qed.

Lemma countDocuments_app (f : D -> bool) (l1 l2 : list D) :
  countDocuments f (l1 ++ l2) = countDocuments f l1 + countDocuments f l2.
Proof. unfold countDocuments. by rewrite List.filter_app, length_app. Qed.

Lemma deleteOne_subset (id : ObjectId) (l : list D) (d : D) :
  d ∈ deleteOne idOf id l -> d ∈ l.
Proof.
  induction l as [|x r IH]; simpl; [done|].
  case_bool_decide as Hx; intros Hd; [by constructor|].
  apply elem_of_cons in Hd as [->|Hd]; [constructor | constructor; auto].
Qed.

Lemma deleteOne_length (id : ObjectId) (l : list D) :
  (exists d, d ∈ l /\ idOf d = id) -> S (length (deleteOne idOf id l)) = length l.
Proof.
  induction l as [|x r IH]; simpl; intros (d & Hd & Hid).
  - inversion Hd.
  - case_bool_decide as Hx; [done|]. simpl. f_equal. apply IH.
    apply elem_of_cons in Hd as [->|Hd]; [done | by exists d].
Qed.

Lemma deleteOne_sublist (id : ObjectId) (l : list D) :
  sublist (deleteOne idOf id l) l.
Proof.
  induction l as [|x r IH]; simpl; [constructor|].
  case_bool_decide as Hx; [by apply sublist_cons | by apply sublist_skip].
Qed.

(** Deleting the document that [findById] returned removes exactly that
    document. *)
Lemma deleteOne_found (l : list D) (id : ObjectId) (d : D) :
  findById idOf l id = Some d -> l ≡ₚ d :: deleteOne idOf id l.
Proof.
  unfold findById, findOne.
  induction l as [|x r IH]; simpl; [done|].
  case_bool_decide as Hx; intros H.
  - by injection H as ->.
  - rewrite (IH H) at 1. apply perm_swap.
Qed.

Lemma deleteMany_spec (f : D -> bool) (l : list D) (d : D) :
  d ∈ deleteMany f l <-> d ∈ l /\ f d = false.
Proof.
  unfold deleteMany. rewrite list_elem_of_In, filter_In, <- list_elem_of_In.
  by rewrite negb_true_iff.
Qed.

Lemma deleteMany_none (f : D -> bool) (l : list D) :
  countDocuments f l = 0 -> deleteMany f l = l.
Proof.
  rewrite countDocuments_zero. unfold deleteMany.
  induction l as [|x r IH]; intros H; simpl; [done|].
  rewrite (H x) by constructor. simpl. f_equal. apply IH.
  intros d Hd. apply H. by constructor.
Qed.

End CollectionFacts.

(** ** Enrollment manager *)

Section EnrollmentFacts.
Import PortalController.

Lemma forPair_true (u c : ObjectId) (e : Enrollment.t) :
  EnrollmentModel.forPair u c e = true <->
  (Enrollment.user e, Enrollment.course e) = (u, c).
Proof.
  unfold EnrollmentModel.forPair.
  rewrite andb_true_iff, !bool_decide_eq_true. split.
  - by intros [-> ->].
  - by intros [= -> ->].
Qed.

Lemma existsb_forPair (u c : ObjectId) (l : list Enrollment.t) :
  existsb (EnrollmentModel.forPair u c) l = true <->
  (u, c) ∈ map (fun e => (Enrollment.user e, Enrollment.course e)) l.
Proof.
  rewrite existsb_exists, list_elem_of_fmap. split.
  - intros (e & Hin & He). exists e. apply forPair_true in He.
    split; [done | by apply list_elem_of_In].
  - intros (e & He & Hin). exists e.
    split; [by apply list_elem_of_In | by apply forPair_true].
Qed.

(** Under the unique index a pair has at most one row. *)
Lemma uniquePairs_count (u c : ObjectId) (l : list Enrollment.t) :
  EnrollmentModel.uniquePairs l ->
  countDocuments (EnrollmentModel.forPair u c) l <= 1.
Proof.
  unfold EnrollmentModel.uniquePairs, countDocuments.
  induction l as [|e r IH]; simpl; [lia|].
  intros Hnd. apply NoDup_cons in Hnd as [Hnotin Hnd].
  destruct (EnrollmentModel.forPair u c e) eqn:He; simpl; [|by apply IH].
  apply forPair_true in He. rewrite He in Hnotin.
  assert (countDocuments (EnrollmentModel.forPair u c) r = 0) as Hz.
  { apply countDocuments_zero. intros d Hd.
    destruct (EnrollmentModel.forPair u c d) eqn:Hf; [|done].
    exfalso. apply Hnotin. apply existsb_forPair, existsb_exists.
    exists d. split; [by apply list_elem_of_In | done]. }
  unfold countDocuments in Hz. lia.
Qed.

Lemma create_ok (doc : Enrollment.t) (l l' : list Enrollment.t) :
  EnrollmentModel.create doc l = inr l' ->
  l' = l ++ [doc] /\
  countDocuments
    (EnrollmentModel.forPair (Enrollment.user doc) (Enrollment.course doc)) l = 0.
Proof.
  unfold EnrollmentModel.create.
  destruct (existsb _ l) eqn:Hex; [done|]. intros [= <-]. split; [done|].
  apply countDocuments_zero. intros d Hd.
  destruct (EnrollmentModel.forPair _ _ d) eqn:Hf; [|done].
  assert (existsb (EnrollmentModel.forPair (Enrollment.user doc) (Enrollment.course doc)) l
          = true) as Ht.
  { apply existsb_exists. exists d. split; [by apply list_elem_of_In | done]. }
  congruence.
Qed.

Lemma create_error (doc : Enrollment.t) (l : list Enrollment.t) (err : Error) :
  EnrollmentModel.create doc l = inl err ->
  err = MongoServerError 11000 /\
  0 < countDocuments
        (EnrollmentModel.forPair (Enrollment.user doc) (Enrollment.course doc)) l.
Proof.
  unfold EnrollmentModel.create.
  destruct (existsb _ l) eqn:Hex; [|done]. intros [= <-]. split; [done|].
  apply countDocuments_pos. apply existsb_exists in Hex as (d & Hd & Hf).
  exists d. split; [by apply list_elem_of_In | done].
Qed.

(** The unique index is kept by an insert and by a delete. *)
Lemma create_uniquePairs (doc : Enrollment.t) (l l' : list Enrollment.t) :
  EnrollmentModel.uniquePairs l ->
  EnrollmentModel.create doc l = inr l' ->
  EnrollmentModel.uniquePairs l'.
Proof.
  unfold EnrollmentModel.uniquePairs, EnrollmentModel.create.
  intros Hnd. destruct (existsb _ l) eqn:Hex; [done|]. intros [= <-].
  rewrite map_app. simpl. apply NoDup_app. split; [done|]. split.
  - intros p Hp Hp'. apply list_elem_of_singleton in Hp' as ->.
    apply existsb_forPair in Hp. congruence.
  - apply NoDup_singleton.
Qed.

Lemma deleteOne_uniquePairs (id : ObjectId) (l : list Enrollment.t) :
  EnrollmentModel.uniquePairs l ->
  EnrollmentModel.uniquePairs (deleteOne Enrollment._id id l).
Proof.
  unfold EnrollmentModel.uniquePairs. intros Hnd.
  eapply sublist_NoDup; [exact Hnd|].
  apply (fmap_sublist (fun e => (Enrollment.user e, Enrollment.course e))),
    deleteOne_sublist.
Qed.

Lemma enroll_frame (req : Request) (newId : ObjectId) (now : Z) (s : Store) :
  courses (snd (enrollInCourse req newId now s)) = courses s.
Proof.
  unfold enrollInCourse. destruct (findById _ _ _); [|done].
  destruct (EnrollmentModel.create _ _) as [[| |code]|l] eqn:Hc; try done.
  apply create_error in Hc as [[= ->] _]. done.
Qed.

Lemma run_uniquePairs (op : Op) (s : Store) :
  EnrollmentModel.uniquePairs (enrollments s) ->
  EnrollmentModel.uniquePairs (enrollments (run op s)).
Proof.
  intros Hu. destruct op as [req newId now|req]; simpl.
  - unfold enrollInCourse. destruct (findById _ _ _); [|done].
    destruct (EnrollmentModel.create _ _) as [[| |code]|l] eqn:Hc; try done.
    + apply create_error in Hc as [[= ->] _]. done.
    + simpl. by eapply create_uniquePairs.
  - unfold dropFromCourse. destruct (findOne _ _); [|done].
    simpl. by apply deleteOne_uniquePairs.
Qed.

Lemma reachable_uniquePairs (s : Store) :
  reachable s -> EnrollmentModel.uniquePairs (enrollments s).
Proof.
  induction 1 as [s Hs|op s _ IH].
  - rewrite Hs. apply NoDup_nil_2.
  - by apply run_uniquePairs.
Qed.

Lemma run_enrolled (op : Op) (s : Store) :
  Forall (fun e => Enrollment.status e = Enrollment.enrolled) (enrollments s) ->
  Forall (fun e => Enrollment.status e = Enrollment.enrolled) (enrollments (run op s)).
Proof.
  intros Hall. destruct op as [req newId now|req]; simpl.
  - unfold enrollInCourse. destruct (findById _ _ _); [|done].
    destruct (EnrollmentModel.create _ _) as [[| |code]|l] eqn:Hc; try done.
    + apply create_error in Hc as [[= ->] _]. done.
    + apply create_ok in Hc as [-> _]. simpl.
      apply Forall_app. split; [done|]. by repeat constructor.
  - unfold dropFromCourse. destruct (findOne _ _); [|done]. simpl.
    rewrite Forall_forall in Hall |- *. intros e He.
    apply Hall. by eapply deleteOne_subset.
Qed.

End EnrollmentFacts.

(** C2: with the unique index in force and the course in the store,
    two enroll requests of one user for one course (nothing in between)
    leave exactly one Enrollment row for the pair: the second request is
    answered with the success [Already enrolled], reports no error, and
    leaves the store as the first request left it. *)
Theorem enroll_twice_single_row (req : PortalController.Request)
    (id1 id2 : ObjectId) (t1 t2 : Z) (s : Store) :
  EnrollmentModel.uniquePairs (enrollments s) ->
  is_Some (findById Course._id (courses s) (PortalController.courseId req)) ->
  let first := PortalController.enrollInCourse req id1 t1 s in
  let second := PortalController.enrollInCourse req id2 t2 (snd first) in
  fst second =
    respond (PortalController.acceptsJson req) 200 "Already enrolled"
      "success" "Already enrolled"
      ("/catalog/course/" +:+ PortalController.courseId req) /\
  isSuccess (fst second) = true /\
  errorKind (fst second) = None /\
  snd second = snd first /\
  countDocuments
    (EnrollmentModel.forPair (PortalController.userId req) (PortalController.courseId req))
    (enrollments (snd second)) = 1.
Proof.
  intros Huniq [course Hcourse] first second.
  assert (exists s1, snd first = s1 /\ courses s1 = courses s /\
            EnrollmentModel.uniquePairs (enrollments s1) /\
            0 < countDocuments
                  (EnrollmentModel.forPair (PortalController.userId req)
                     (PortalController.courseId req)) (enrollments s1))
    as (s1 & Hs1 & Hc1 & Hu1 & Hpos).
  { exists (snd first). split; [done|]. split; [apply enroll_frame|].
    split; [apply (run_uniquePairs (PortalController.Enroll req id1 t1)), Huniq|].
    subst first. unfold PortalController.enrollInCourse. rewrite Hcourse.
    destruct (EnrollmentModel.create _ _) as [err|l] eqn:Hc.
    - apply create_error in Hc as [-> Hpos]. exact Hpos.
    - apply create_ok in Hc as [-> _]. simpl.
      rewrite countDocuments_app. unfold countDocuments at 2. simpl.
      unfold EnrollmentModel.forPair at 2. simpl.
      rewrite !bool_decide_eq_true_2 by done. simpl. lia. }
  subst second. rewrite Hs1. clear first Hs1.
  unfold PortalController.enrollInCourse. rewrite Hc1, Hcourse.
  destruct (EnrollmentModel.create _ _) as [err|l] eqn:Hc.
  - apply create_error in Hc as [-> _]. simpl.
    repeat split; try by destruct (PortalController.acceptsJson req).
    pose proof (uniquePairs_count (PortalController.userId req)
                  (PortalController.courseId req) _ Hu1). lia.
  - apply create_ok in Hc as [_ Hz]. simpl in Hz. lia.
Qed.

(** The hypotheses of C2 hold of the sample campus and a request of Ada
    for CS101. *)
Lemma enroll_twice_single_row_witness :
  let req := {| PortalController.userId := Sample.idAdaUser;
                PortalController.courseId := Sample.idCS101;
                PortalController.acceptsJson := true |} in
  countDocuments (EnrollmentModel.forPair Sample.idAdaUser Sample.idCS101)
    (enrollments
       (snd (PortalController.enrollInCourse req Sample.idM2 7
               (snd (PortalController.enrollInCourse req Sample.idM1 5 Sample.campus)))))
  = 1.
Proof.
  intros req.
  refine (proj2 (proj2 (proj2 (proj2
    (enroll_twice_single_row req Sample.idM1 Sample.idM2 5 7 Sample.campus _ _))))).
  - apply NoDup_nil_2.
  - eexists. reflexivity.
Defined.

(** C8: in every store reached from an empty Enrollment collection by
    enroll and drop requests, every Enrollment row has status
    [enrolled] and none has [dropped]; a drop that succeeds takes one
    row out of the collection and rewrites none. *)
Theorem reachable_all_enrolled (s : Store) :
  PortalController.reachable s ->
  Forall (fun e => Enrollment.status e = Enrollment.enrolled) (enrollments s) /\
  (forall e, e ∈ enrollments s -> Enrollment.status e <> Enrollment.dropped) /\
  (forall req,
     let r := PortalController.dropFromCourse req s in
     isSuccess (fst r) = true ->
     S (length (enrollments (snd r))) = length (enrollments s) /\
     sublist (enrollments (snd r)) (enrollments s)).
Proof.
  intros Hreach.
  assert (Forall (fun e => Enrollment.status e = Enrollment.enrolled) (enrollments s))
    as Hall.
  { induction Hreach as [s Hs|op s _ IH].
    - rewrite Hs. constructor.
    - by apply run_enrolled. }
  split; [exact Hall|]. split.
  - intros e He. rewrite Forall_forall in Hall. rewrite (Hall e He). done.
  - intros req r. subst r. unfold PortalController.dropFromCourse.
    destruct (findOne _ _) as [e|] eqn:Hfind.
    2:{ simpl. by destruct (PortalController.acceptsJson req). }
    intros _. simpl. apply findOne_Some in Hfind as [Hin _]. split.
    + apply deleteOne_length. by exists e.
    + apply deleteOne_sublist.
Qed.

(** The sample campus after Ada enrolled in CS101 is reachable, and her
    row is [enrolled]. *)
Lemma reachable_all_enrolled_witness :
  let req := {| PortalController.userId := Sample.idAdaUser;
                PortalController.courseId := Sample.idCS101;
                PortalController.acceptsJson := true |} in
  Forall (fun e => Enrollment.status e = Enrollment.enrolled)
    (enrollments (PortalController.run (PortalController.Enroll req Sample.idM1 5)
                    Sample.campus)).
Proof.
  intros req.
  refine (proj1 (reachable_all_enrolled _ _)).
  apply PortalController.reachable_run, PortalController.reachable_empty.
  reflexivity.
Defined.

(** ** Students *)

Section StudentFacts.
Variable hashPassword : string -> string.

Lemma findById_replaceOne {D : Type} (idOf : D -> ObjectId) (l : list D)
    (id : ObjectId) (d d' : D) :
  findById idOf l id = Some d -> idOf d' = id ->
  findById idOf (replaceOne idOf d' l) id = Some d'.
Proof.
  unfold findById, findOne. intros Hfind Hid.
  induction l as [|x r IH]; simpl in *; [done|].
  case_bool_decide as Hx.
  - rewrite bool_decide_eq_true_2 by congruence. simpl.
    by rewrite bool_decide_eq_true_2.
  - rewrite bool_decide_eq_false_2 by congruence. simpl.
    rewrite bool_decide_eq_false_2 by done. by apply IH.
Qed.

Lemma save_ok (d : Student.t) (l l' : list Student.t) :
  StudentModel.save d l = inr l' -> l' = replaceOne Student._id d l.
Proof.
  unfold StudentModel.save. destruct (StudentModel.validate d); [done|].
  destruct (existsb _ l); [done|]. by intros [= <-].
Qed.

(** The tail of the handler never answers with a duplicate-key message
    and leaves the students alone. *)
Lemma resetAndAnswer_frame (req : UpdateStudentRequest) (d : Student.t) (s : Store)
    (text : string) :
  text <> "Password must be at least 6 characters" ->
  text <> "Student updated" ->
  ~ reports (fst (resetAndAnswer hashPassword req d s)) text.
Proof.
  intros Hne Hne'. unfold resetAndAnswer.
  destruct (Student.user d); [destruct (truthy _); [destruct (_ <? _)%nat|]|];
    destruct (us_acceptsJson req); simpl; try done; congruence.
Qed.

End StudentFacts.

(** C10: deleting a student that is linked to a User removes exactly
    the Student document: the handler succeeds, the students lose that
    one document, the Users collection, and with it the linked User, its
    [isActive] flag and credentials, is as before, and so is every
    other collection. *)
Theorem deleteStudent_leaves_user (id : ObjectId) (acceptsJson : bool) (s : Store)
    (student : Student.t) (uid : ObjectId) (u : User.t) :
  findById Student._id (students s) id = Some student ->
  Student.user student = Some uid ->
  findById User._id (users s) uid = Some u ->
  let r := deleteStudent id acceptsJson s in
  isSuccess (fst r) = true /\
  students s ≡ₚ student :: students (snd r) /\
  users (snd r) = users s /\
  findById User._id (users (snd r)) uid = Some u /\
  departments (snd r) = departments s /\
  courses (snd r) = courses s /\
  modules (snd r) = modules s /\
  enrollments (snd r) = enrollments s.
Proof.
  intros Hfind Hlink Huser r. subst r. unfold deleteStudent. rewrite Hfind.
  simpl. split; [by destruct acceptsJson|]. split.
  - destruct (findById_Some _ _ _ _ Hfind) as [_ ->].
    by apply deleteOne_found.
  - by repeat split.
Qed.

(** Ada of the sample campus has a login; deleting her leaves it. *)
Lemma deleteStudent_leaves_user_witness :
  findById User._id
    (users (snd (deleteStudent Sample.idAda true Sample.campus))) Sample.idAdaUser
  = Some Sample.AdaUser.
Proof.
  refine (proj1 (proj2 (proj2 (proj2
    (deleteStudent_leaves_user Sample.idAda true Sample.campus
       Sample.Ada Sample.idAdaUser Sample.AdaUser _ _ _))))); reflexivity.
Defined.

Section UpdateStudentFacts.
Variable hashPassword : string -> string.
Variables (req : UpdateStudentRequest) (newUserId : ObjectId) (s : Store).
Variable student : Student.t.
Hypothesis Hfind : findById Student._id (students s) (us_id req) = Some student.

Let keyText := "Email or Roll Number already exists".
Let userText := "A user with this email already exists".
Let keyConflict :=
  findOne (otherWithKey (Student._id student)
             (toLowerCase (us_email req)) (toUpperCase (us_rollNumber req)))
    (students s).

(** A student that holds one of the keys stops the handler before any
    write. *)
Lemma updateStudent_key_conflict (other : Student.t) :
  keyConflict = Some other ->
  updateStudent hashPassword req newUserId s =
    (respond (us_acceptsJson req) 400 keyText "error" keyText
       ("/students/" +:+ Student._id student +:+ "/edit"), s).
Proof.
  subst keyConflict. intros Hother. unfold updateStudent. by rewrite Hfind, Hother.
Qed.

(** Without such a student the handler never answers with that text. *)
Lemma updateStudent_no_key_conflict :
  keyConflict = None ->
  ~ reports (fst (updateStudent hashPassword req newUserId s)) keyText.
Proof.
  subst keyConflict keyText. intros Hother. unfold updateStudent.
  rewrite Hfind, Hother.
  destruct (StudentModel.save _ _) as [err|l1]; [simpl; tauto|].
  destruct (_ && _); [|by apply resetAndAnswer_frame].
  destruct (findOne _ (users _)).
  { destruct (us_acceptsJson req); simpl; discriminate. }
  destruct (_ || _).
  { destruct (us_acceptsJson req); simpl; discriminate. }
  destruct (User_insert _ _ _); [simpl; tauto|].
  destruct (StudentModel.save _ _); [simpl; tauto|].
  by apply resetAndAnswer_frame.
Qed.

(** The answer for a User email comes after the base save of the
    student: no User is written, a login was asked for, the student had
    none, and the stored student carries the submitted fields. *)
Lemma updateStudent_user_conflict :
  let r := updateStudent hashPassword req newUserId s in
  reports (fst r) userText ->
  errorKind (fst r) = Some DuplicateKey /\
  users (snd r) = users s /\
  Student.user student = None /\
  findById Student._id (students (snd r)) (us_id req) = Some (assignFields req student) /\
  us_createLogin req = "on".
Proof.
  subst userText. intros r. subst r. unfold updateStudent. rewrite Hfind.
  destruct (findById_Some _ _ _ _ Hfind) as [_ Hid].
  destruct (findOne (otherWithKey _ _ _) _).
  { destruct (us_acceptsJson req); simpl; discriminate. }
  destruct (StudentModel.save _ _) as [err|l1] eqn:Hsave; [simpl; tauto|].
  apply save_ok in Hsave as ->.
  destruct (bool_decide (us_createLogin req = "on") && isNone _) eqn:Hlogin.
  2:{ intros H. by apply resetAndAnswer_frame in H. }
  apply andb_true_iff in Hlogin as [Hon Hnone]. simpl in Hnone.
  apply bool_decide_eq_true in Hon.
  destruct (findOne _ (users _)) as [u|].
  { intros _. simpl. split; [by destruct (us_acceptsJson req)|]. split; [done|].
    split; [by destruct (Student.user student)|]. split; [|done].
    eapply findById_replaceOne; [exact Hfind | exact Hid]. }
  destruct (_ || _).
  { destruct (us_acceptsJson req); simpl; discriminate. }
  destruct (User_insert _ _ _); [simpl; tauto|].
  destruct (StudentModel.save _ _); [simpl; tauto|].
  intros H. by apply resetAndAnswer_frame in H.
Qed.

End UpdateStudentFacts.

(** C9: the handler breaks the claim at this input.  Bob of the sample
    campus has no login; an edit that changes the name, the year and
    the semester and asks for a login under the email of an existing
    user is answered with the duplicate-key error of the User email, yet
    the stored Student already carries the edited fields.  The handler
    saves the student before it looks for a conflicting User;
    [createStudent] looks for the User before it writes anything. *)
Lemma updateStudent_partial_write :
  let r := updateStudent Sample.hash Sample.loginForBob Sample.idNew Sample.campus in
  findById Student._id (students Sample.campus) Sample.idBob = Some Sample.Bob /\
  fst r = json 400 "A user with this email already exists" /\
  errorKind (fst r) = Some DuplicateKey /\
  findById Student._id (students (snd r)) Sample.idBob =
    Some {| Student._id := Sample.idBob; Student.name := "Robert";
            Student.email := "eve@uni.edu"; Student.rollNumber := "R002";
            Student.department := Sample.idCS; Student.course := Sample.idCS101;
            Student.year := Some 2%Z; Student.semester := Some 3%Z;
            Student.enrollmentDate := 1000; Student.status := "active";
            Student.notes := EmptyString; Student.user := None |} /\
  findById Student._id (students (snd r)) Sample.idBob <> Some Sample.Bob /\
  users (snd r) = users Sample.campus.
Proof.
  vm_compute. repeat split; discriminate.
Qed.

(** The two duplicate-key answers of the update handler in general.  The
    answer for a conflicting student email or roll number is given
    exactly when another student holds one of the two keys, and then the
    store is unchanged.  The answer for a conflicting User email is given
    only when a login is asked for and the student has none; no User is
    created then, and the stored student carries the submitted fields. *)
Lemma updateStudent_duplicate_key (hashPassword : string -> string)
    (req : UpdateStudentRequest) (newUserId : ObjectId) (s : Store)
    (student : Student.t) :
  findById Student._id (students s) (us_id req) = Some student ->
  let r := updateStudent hashPassword req newUserId s in
  (reports (fst r) "Email or Roll Number already exists" <->
   is_Some (findOne (otherWithKey (Student._id student)
                       (toLowerCase (us_email req)) (toUpperCase (us_rollNumber req)))
              (students s))) /\
  (reports (fst r) "Email or Roll Number already exists" ->
   errorKind (fst r) = Some DuplicateKey /\ snd r = s /\
   findById Student._id (students (snd r)) (us_id req) = Some student) /\
  (reports (fst r) "A user with this email already exists" ->
   errorKind (fst r) = Some DuplicateKey /\
   users (snd r) = users s /\
   us_createLogin req = "on" /\
   Student.user student = None /\
   findById Student._id (students (snd r)) (us_id req) =
     Some (assignFields req student)).
Proof.
  intros Hfind r. subst r.
  destruct (findOne (otherWithKey _ _ _) _) as [other|] eqn:Hother.
  - rewrite (updateStudent_key_conflict hashPassword req newUserId s student Hfind
               other Hother). simpl.
    split; [|split].
    + split; [by eexists | intros _; by destruct (us_acceptsJson req)].
    + intros _. split; [by destruct (us_acceptsJson req) | done].
    + destruct (us_acceptsJson req); simpl; discriminate.
  - pose proof (updateStudent_no_key_conflict hashPassword req newUserId s student
                  Hfind Hother) as Hno.
    split; [|split].
    + split; [done | by intros [? ?]].
    + done.
    + intros Hrep.
      destruct (updateStudent_user_conflict hashPassword req newUserId s student
                  Hfind Hrep) as (Hkind & Husers & Hnone & Hstored & Hon).
      done.
Qed.

(** Bob of the sample campus exists; an edit that takes the email of Ada
    is refused and the store is as before. *)
Lemma updateStudent_duplicate_key_witness :
  let r := updateStudent Sample.hash Sample.adaMailForBob Sample.idNew Sample.campus in
  reports (fst r) "Email or Roll Number already exists" /\ snd r = Sample.campus.
Proof.
  pose proof (updateStudent_duplicate_key Sample.hash Sample.adaMailForBob
                Sample.idNew Sample.campus Sample.Bob eq_refl) as (Hiff & Hdup & _).
  assert (reports
            (fst (updateStudent Sample.hash Sample.adaMailForBob Sample.idNew Sample.campus))
            "Email or Roll Number already exists") as Hrep.
  { apply Hiff. eexists. vm_compute. reflexivity. }
  split; [exact Hrep | exact (proj1 (proj2 (Hdup Hrep)))].
Defined.

(** ** Courses and departments *)

Lemma ofCourse_true (id : ObjectId) (m : Mod.t) :
  ofCourse id m = true <-> Mod.course m = id.
Proof. unfold ofCourse. apply bool_decide_eq_true. Qed.

Lemma ofDepartment_true (id : ObjectId) (c : Course.t) :
  ofDepartment id c = true <-> Course.department c = id.
Proof. unfold ofDepartment. apply bool_decide_eq_true. Qed.

(** C4: for a course of the store, the delete is refused with
    HasDependents exactly when some module references the course, and
    then nothing is written; when no module references it the delete
    succeeds and takes that one course out of the store. *)
Theorem deleteCourse_guard (id : ObjectId) (acceptsJson : bool) (s : Store)
    (course : Course.t) :
  findById Course._id (courses s) id = Some course ->
  let r := CourseController.deleteCourse id acceptsJson s in
  (errorKind (fst r) = Some HasDependents <->
   exists m, m ∈ modules s /\ Mod.course m = id) /\
  (errorKind (fst r) = Some HasDependents -> snd r = s) /\
  ((forall m, m ∈ modules s -> Mod.course m <> id) ->
   isSuccess (fst r) = true /\
   courses s ≡ₚ course :: courses (snd r) /\
   departments (snd r) = departments s /\
   modules (snd r) = modules s).
Proof.
  intros Hfind r. subst r. unfold CourseController.deleteCourse. rewrite Hfind.
  destruct (findById_Some _ _ _ _ Hfind) as [_ Hid]. rewrite Hid.
  destruct (0 <? countDocuments (ofCourse id) (modules s))%nat eqn:Hcount.
  - apply Nat.ltb_lt, countDocuments_pos in Hcount as (m & Hm & Hof).
    apply ofCourse_true in Hof. simpl. split; [|split].
    + split; [intros _; by exists m | intros _; by destruct acceptsJson].
    + done.
    + intros Hnone. by destruct (Hnone m Hm).
  - apply Nat.ltb_ge in Hcount.
    assert (countDocuments (ofCourse id) (modules s) = 0) as Hzero by lia.
    rewrite countDocuments_zero in Hzero. simpl. split; [|split].
    + split; [by destruct acceptsJson|].
      intros (m & Hm & Hof). apply ofCourse_true in Hof.
      rewrite (Hzero m Hm) in Hof. done.
    + by destruct acceptsJson.
    + intros _. split; [by destruct acceptsJson|]. split; [|done].
      by apply deleteOne_found.
Qed.

(** CS101 of the sample campus has no module and its delete succeeds;
    in the store of the catalog example M1 references it and the delete
    reports HasDependents. *)
Lemma deleteCourse_guard_witness :
  isSuccess (fst (CourseController.deleteCourse Sample.idCS101 true Sample.campus))
  = true /\
  errorKind (fst (CourseController.deleteCourse Sample.idCS101 true Sample.catalog))
  = Some HasDependents.
Proof.
  split.
  - refine (proj1 (proj2 (proj2
      (deleteCourse_guard Sample.idCS101 true Sample.campus Sample.CS101 eq_refl)) _)).
    intros m Hm. inversion Hm.
  - refine (proj2 (proj1
      (deleteCourse_guard Sample.idCS101 true Sample.catalog Sample.CS101 eq_refl)) _).
    exists Sample.M1. split; [constructor | reflexivity].
Defined.

(** C1, as stated, fails: the department CS of the sample campus has the
    course CS101; its delete is refused and the course stays. *)
Lemma deleteDepartment_blocked_counterexample :
  let r := DepartmentController.deleteDepartment Sample.idCS true Sample.campus in
  findById Department._id (departments Sample.campus) Sample.idCS = Some Sample.CS /\
  fst r = json 400 "Cannot delete department with associated courses" /\
  isSuccess (fst r) = false /\
  courses (snd r) = [Sample.CS101] /\
  Course.department Sample.CS101 = Sample.idCS.
Proof. vm_compute. repeat split. Qed.

(** C1, amended: for a department of the store, the delete is refused
    with HasDependents, and nothing is written, exactly when some course
    references the department; otherwise it succeeds, takes that one
    department out of the store and leaves no course of the department
    behind.  The cascade itself, [department.remove()], removes every
    course of the department whatever modules reference those courses,
    keeps the other courses and touches no module. *)
Theorem deleteDepartment_guard (id : ObjectId) (acceptsJson : bool) (s : Store)
    (department : Department.t) :
  findById Department._id (departments s) id = Some department ->
  let r := DepartmentController.deleteDepartment id acceptsJson s in
  (errorKind (fst r) = Some HasDependents <->
   exists c, c ∈ courses s /\ Course.department c = id) /\
  (errorKind (fst r) = Some HasDependents -> snd r = s) /\
  ((forall c, c ∈ courses s -> Course.department c <> id) ->
   isSuccess (fst r) = true /\
   departments s ≡ₚ department :: departments (snd r) /\
   courses (snd r) = courses s /\
   modules (snd r) = modules s) /\
  (forall c, c ∈ courses (DepartmentModel.remove department s) <->
             c ∈ courses s /\ Course.department c <> id) /\
  modules (DepartmentModel.remove department s) = modules s /\
  departments s ≡ₚ department :: departments (DepartmentModel.remove department s).
Proof.
  intros Hfind r. subst r.
  unfold DepartmentController.deleteDepartment. rewrite Hfind.
  destruct (findById_Some _ _ _ _ Hfind) as [_ Hid]. rewrite Hid.
  assert (forall c, c ∈ courses (DepartmentModel.remove department s) <->
                    c ∈ courses s /\ Course.department c <> id) as Hcascade.
  { intros c. unfold DepartmentModel.remove. simpl. rewrite Hid.
    rewrite deleteMany_spec. unfold ofDepartment.
    by rewrite bool_decide_eq_false. }
  assert (departments s ≡ₚ
            department :: departments (DepartmentModel.remove department s)) as Hgone.
  { unfold DepartmentModel.remove. simpl. rewrite Hid. by apply deleteOne_found. }
  destruct (0 <? countDocuments (ofDepartment id) (courses s))%nat eqn:Hcount.
  - apply Nat.ltb_lt, countDocuments_pos in Hcount as (c & Hc & Hof).
    apply ofDepartment_true in Hof. simpl. split; [|split; [|split]].
    + split; [intros _; by exists c | intros _; by destruct acceptsJson].
    + done.
    + intros Hnone. by destruct (Hnone c Hc).
    + done.
  - apply Nat.ltb_ge in Hcount.
    assert (countDocuments (ofDepartment id) (courses s) = 0) as Hzero by lia.
    pose proof Hzero as Hnone. rewrite countDocuments_zero in Hnone.
    simpl. split; [|split; [|split]].
    + split; [by destruct acceptsJson|].
      intros (c & Hc & Hof). apply ofDepartment_true in Hof.
      rewrite (Hnone c Hc) in Hof. done.
    + by destruct acceptsJson.
    + intros _. split; [by destruct acceptsJson|]. split; [exact Hgone|].
      split; [|done]. unfold DepartmentModel.remove. simpl.
      rewrite Hid. by apply deleteMany_none.
    + done.
Qed.

(** The department CS of the sample campus exists and has a course: its
    delete reports HasDependents. *)
Lemma deleteDepartment_guard_witness :
  errorKind (fst (DepartmentController.deleteDepartment Sample.idCS true Sample.campus))
  = Some HasDependents.
Proof.
  refine (proj2 (proj1
    (deleteDepartment_guard Sample.idCS true Sample.campus Sample.CS eq_refl)) _).
  exists Sample.CS101. split; [constructor | reflexivity].
Defined.

(** ** Modules *)

(** C7: module codes are unique whatever the case of the submitted
    code: when the store holds a module whose code is the submitted code
    upper-cased (and trimmed), as [CS101] is for [cs101], the create
    request is answered with the duplicate-key error and the store, with
    its modules, is unchanged. *)
Theorem createModule_code_case_insensitive (b : ModuleController.Body)
    (newId : ObjectId) (s : Store) (m : Mod.t) :
  m ∈ modules s ->
  Mod.code m = ModuleModel.setCode (ModuleController.code b) ->
  let r := ModuleController.createModule b newId s in
  reports (fst r) "Module with this code already exists" /\
  errorKind (fst r) = Some DuplicateKey /\
  snd r = s.
Proof.
  intros Hin Hcode r. subst r. unfold ModuleController.createModule.
  destruct (findOne _ _) as [x|] eqn:Hfind.
  - simpl. by destruct (ModuleController.acceptsJson b).
  - rewrite findOne_None in Hfind. specialize (Hfind m Hin).
    by apply bool_decide_eq_false in Hfind.
Qed.

(** The store of the catalog example holds a module with code CS101;
    the form with code cs101 is refused as a duplicate. *)
Lemma createModule_code_case_insensitive_witness :
  let r := ModuleController.createModule (Sample.moduleForm "cs101" 60 40 0)
             Sample.idNew Sample.catalog in
  Mod.code Sample.M1 = "CS101" /\
  errorKind (fst r) = Some DuplicateKey /\
  modules (snd r) = [Sample.M1; Sample.M2; Sample.Morphan].
Proof.
  split; [reflexivity|].
  pose proof (createModule_code_case_insensitive (Sample.moduleForm "cs101" 60 40 0)
                Sample.idNew Sample.catalog Sample.M1) as H.
  destruct H as (_ & Hkind & Hstore).
  - constructor.
  - reflexivity.
  - split; [exact Hkind|]. rewrite Hstore. reflexivity.
Defined.

(** The same holds of course codes. *)
Lemma createCourse_code_case_insensitive (req : CourseController.CreateRequest)
    (newId : ObjectId) (s : Store) (c : Course.t) :
  c ∈ courses s ->
  Course.code c = CourseModel.setCode (CourseController.code req) ->
  let r := CourseController.createCourse req newId s in
  reports (fst r) "Course with this code already exists" /\
  errorKind (fst r) = Some DuplicateKey /\
  snd r = s.
Proof.
  intros Hin Hcode r. subst r. unfold CourseController.createCourse.
  destruct (findOne _ _) as [x|] eqn:Hfind.
  - simpl. by destruct (CourseController.acceptsJson req).
  - rewrite findOne_None in Hfind. specialize (Hfind c Hin).
    by apply bool_decide_eq_false in Hfind.
Qed.






Lemma insert_not_created (s : Store) (m : Mod.t) (err : Error) :
  ModuleModel.preSave s m = Some err -> forall l, ModuleModel.insert s m <> inr l.
Proof.
  intros Hhook l. unfold ModuleModel.insert.
  destruct (ModuleModel.validate m); [done|]. by rewrite Hhook.
Qed.




(** C3, as stated, fails: CS101 of the sample campus belongs to the
    department CS; a module of CS101 that names another department, one
    that is not in the store, is refused by the hook with
    [Department not found], a MissingReference, not a ReferenceMismatch. *)
Lemma preSave_missing_department_counterexample :
  let m := Sample.physicsModule in
  findById Course._id (courses Sample.campus) (Mod.course m) = Some Sample.CS101 /\
  Course.department Sample.CS101 <> Mod.department m /\
  ModuleModel.validate m = None /\
  ModuleModel.insert Sample.campus m = inl (HookError "Department not found") /\
  kindOfError (HookError "Department not found") = Some MissingReference /\
  kindOfError (HookError "Department not found") <> Some ReferenceMismatch.
Proof. vm_compute. repeat split; discriminate. Qed.

(** C3, amended: for every module presented for creation whose course
    and department both exist: if the department of the module differs
    from the department of its course, the pre-save hook raises the
    ReferenceMismatch error and nothing is persisted ([save] returns
    that error whenever the document passes schema validation, which
    runs first, and the create handler leaves the store as it was); if
    the two are equal, the reference check passes.  When the course does
    not exist, or the course exists and the department does not, the
    hook raises a MissingReference error instead, whether or not the two
    departments differ, and again nothing is persisted. *)
Theorem module_reference_check (s : Store) (m : Mod.t) :
  let missingCourse := HookError "Course not found" in
  let missingDepartment := HookError "Department not found" in
  let mismatch := HookError "Department does not match the course department" in
  (findById Course._id (courses s) (Mod.course m) = None ->
   ModuleModel.preSave s m = Some missingCourse) /\
  (is_Some (findById Course._id (courses s) (Mod.course m)) ->
   findById Department._id (departments s) (Mod.department m) = None ->
   ModuleModel.preSave s m = Some missingDepartment) /\
  kindOfError missingCourse = Some MissingReference /\
  kindOfError missingDepartment = Some MissingReference /\
  (forall course department,
     findById Course._id (courses s) (Mod.course m) = Some course ->
     findById Department._id (departments s) (Mod.department m) = Some department ->
     (Course.department course <> Mod.department m ->
      ModuleModel.preSave s m = Some mismatch) /\
     (Course.department course = Mod.department m ->
      ModuleModel.preSave s m = None)) /\
  kindOfError mismatch = Some ReferenceMismatch /\
  (forall err,
     ModuleModel.preSave s m = Some err ->
     (forall l, ModuleModel.insert s m <> inr l) /\
     (ModuleModel.validate m = None -> ModuleModel.insert s m = inl err) /\
     (forall b newId,
        ModuleController.moduleOf newId b = m ->
        isSuccess (fst (ModuleController.createModule b newId s)) = false /\
        snd (ModuleController.createModule b newId s) = s)).
Proof.
  intros missingCourse missingDepartment mismatch.
  subst missingCourse missingDepartment mismatch.
  split; [|split; [|split; [|split; [|split; [|split]]]]]; try done.
  - intros Hcourse. unfold ModuleModel.preSave. by rewrite Hcourse.
  - intros [course Hcourse] Hdep. unfold ModuleModel.preSave.
    by rewrite Hcourse, Hdep.
  - intros course department Hcourse Hdep. unfold ModuleModel.preSave.
    rewrite Hcourse, Hdep. split.
    + intros Hne. by rewrite bool_decide_eq_false_2.
    + intros Heq. by rewrite bool_decide_eq_true_2.
  - intros err Hhook. split; [by eapply insert_not_created|]. split.
    + intros Hvalid. unfold ModuleModel.insert. by rewrite Hvalid, Hhook.
    + intros b newId Hm. unfold ModuleController.createModule.
      destruct (findOne _ _).
      { simpl. by destruct (ModuleController.acceptsJson b). }
      destruct (ModuleController.weightsOff _).
      { simpl. by destruct (ModuleController.acceptsJson b). }
      rewrite Hm.
      destruct (ModuleModel.insert s m) as [e|l] eqn:Hins; [done|].
      by eapply insert_not_created in Hins.
Qed.

(** With the departments CS and Physics in the store, a module of CS101
    (a course of CS) that names Physics is refused with the mismatch; on
    the sample campus, which has no Physics, the same module is refused
    with the missing department, a module of a course that is not in the
    store with the missing course, and a module of CS101 in CS passes
    the reference check. *)
Lemma module_reference_check_witness :
  ModuleModel.insert Sample.twoDepartments Sample.physicsModule =
    inl (HookError "Department does not match the course department") /\
  ModuleModel.insert Sample.campus Sample.physicsModule =
    inl (HookError "Department not found") /\
  ModuleModel.preSave Sample.campus Sample.Morphan =
    Some (HookError "Course not found") /\
  ModuleModel.preSave Sample.campus Sample.M1 = None.
Proof.
  pose proof (module_reference_check Sample.twoDepartments Sample.physicsModule)
    as (_ & _ & _ & _ & Hboth & _ & Hkept).
  pose proof (module_reference_check Sample.campus Sample.physicsModule)
    as (_ & Hdep & _ & _ & _ & _ & Hkept').
  pose proof (module_reference_check Sample.campus Sample.Morphan)
    as (Hcourse & _).
  pose proof (module_reference_check Sample.campus Sample.M1)
    as (_ & _ & _ & _ & Hsame & _).
  split; [|split; [|split]].
  - refine (proj1 (proj2 (Hkept _ _)) eq_refl).
    refine (proj1 (Hboth Sample.CS101 Sample.Physics eq_refl eq_refl) _).
    discriminate.
  - refine (proj1 (proj2 (Hkept' _ _)) eq_refl).
    apply Hdep; [by eexists | reflexivity].
  - apply Hcourse. reflexivity.
  - exact (proj2 (Hsame Sample.CS101 Sample.CS eq_refl eq_refl) eq_refl).
Defined.

(** ** Catalog aggregator *)

Section CatalogFacts.
Import Catalog.

Lemma objGet_objSet {V} (o : Obj V) (k k' : string) (v : V) :
  objGet (objSet k v o) k' = if bool_decide (k = k') then Some v else objGet o k'.
Proof.
  unfold objGet. induction o as [|[k0 v0] r IH]; simpl.
  - by destruct (bool_decide (k = k')).
  - destruct (bool_decide (k0 = k)) eqn:Hk0; simpl.
    + apply bool_decide_eq_true in Hk0 as ->.
      by destruct (bool_decide (k = k')).
    + destruct (bool_decide (k0 = k')) eqn:Hk0'; simpl; [|apply IH].
      apply bool_decide_eq_true in Hk0' as ->.
      apply bool_decide_eq_false in Hk0.
      by rewrite bool_decide_eq_false_2.
Qed.

Lemma objGet_nil {V} (k : string) : objGet (@nil (string * V)) k = None.
Proof. done. Qed.

Lemma bucketsOf_Some (st : Structure) (m : Populated)
    (depId : string) (b : DepartmentBucket) (courseId : string) (cb : CourseBucket) :
  bucketsOf st m = Some (depId, b, courseId, cb) ->
  departmentKey m = Some depId /\ objGet st depId = Some b /\
  courseKey m = Some courseId /\ objGet (courses b) courseId = Some cb.
Proof.
  unfold bucketsOf.
  destruct (departmentKey m) as [d|]; [|done].
  destruct (negb (truthy d)); [done|].
  destruct (objGet st d) as [b0|] eqn:Hb0; [|done].
  destruct (courseKey m) as [c|]; [|done].
  destruct (negb (truthy c)); [done|].
  destruct (objGet (courses b0) c) as [cb0|] eqn:Hcb0; [|done].
  by intros [= <- <- <- <-].
Qed.

Lemma placed_nil (m : Populated) : ~ placed [] m.
Proof. by intros (depId & b & courseId & cb & sem & l & H & _). Qed.

Lemma placed_addDepartment (st : Structure) (dep : Department.t) (m : Populated) :
  placed (addDepartment st dep) m -> placed st m.
Proof.
  intros (depId & b & courseId & cb & sem & l & Hb & Hcb & Hl & Hm).
  unfold addDepartment in Hb. rewrite objGet_objSet in Hb.
  case_bool_decide as Hk.
  - injection Hb as <-. done.
  - by exists depId, b, courseId, cb, sem, l.
Qed.

Lemma placed_addCourse (st : Structure) (c : Course.t) (m : Populated) :
  placed (addCourse st c) m -> placed st m.
Proof.
  unfold addCourse. destruct (objGet st (Course.department c)) as [b0|] eqn:Hb0; [|done].
  intros (depId & b & courseId & cb & sem & l & Hb & Hcb & Hl & Hm).
  rewrite objGet_objSet in Hb. case_bool_decide as Hk.
  - injection Hb as <-. simpl in Hcb. rewrite objGet_objSet in Hcb.
    case_bool_decide as Hc.
    + injection Hcb as <-. simpl in Hl. by rewrite lookup_empty in Hl.
    + exists (Course.department c), b0, courseId, cb, sem, l. by subst.
  - by exists depId, b, courseId, cb, sem, l.
Qed.

Lemma placed_addModule (st : Structure) (m' m : Populated) :
  placed (addModule st m') m ->
  placed st m \/ (m = m' /\ is_Some (bucketsOf st m')).
Proof.
  unfold addModule.
  destruct (bucketsOf st m') as [[[[depId0 b0] courseId0] cb0]|] eqn:Hbuckets;
    [|by left].
  apply bucketsOf_Some in Hbuckets as (_ & Hb0 & _ & Hcb0).
  intros (depId & b & courseId & cb & sem & l & Hb & Hcb & Hl & Hm).
  rewrite objGet_objSet in Hb. case_bool_decide as Hk.
  2:{ left. by exists depId, b, courseId, cb, sem, l. }
  injection Hb as <-. simpl in Hcb. rewrite objGet_objSet in Hcb.
  case_bool_decide as Hc.
  2:{ left. exists depId0, b0, courseId, cb, sem, l. by subst. }
  injection Hcb as <-. simpl in Hl.
  destruct (decide (semesterKey m' = sem)) as [<-|Hsem].
  2:{ rewrite lookup_insert_ne in Hl by done.
      left. exists depId0, b0, courseId0, cb0, sem.
      destruct (semesters cb0 !! semesterKey m') eqn:Hold.
      - by exists l.
      - rewrite lookup_insert_ne in Hl by done. by exists l. }
  rewrite lookup_insert_eq in Hl. injection Hl as <-.
  apply elem_of_app in Hm as [Hm|Hm].
  - left. destruct (semesters cb0 !! semesterKey m') as [l0|] eqn:Hold.
    + rewrite Hold in Hm. simpl in Hm.
      by exists depId0, b0, courseId0, cb0, (semesterKey m'), l0.
    + rewrite lookup_insert_eq in Hm. simpl in Hm. inversion Hm.
  - right. apply list_elem_of_singleton in Hm. split; [done | by eexists].
Qed.

Lemma placed_fold_addModule (ms : list Populated) (st : Structure) (m : Populated) :
  placed (fold_left addModule ms st) m ->
  placed st m \/ (m ∈ ms /\ is_Some (departmentKey m) /\ is_Some (courseKey m)).
Proof.
  revert st. induction ms as [|m' r IH]; simpl; intros st Hplaced; [by left|].
  destruct (IH _ Hplaced) as [Hhere|(Hin & Hkeys)].
  - apply placed_addModule in Hhere as [Hst|[-> [[[[depId b] courseId] cb] Hb]]].
    + by left.
    + right. apply bucketsOf_Some in Hb as (Hd & _ & Hc & _).
      split; [constructor|]. split; by eexists.
  - right. split; [by constructor | done].
Qed.

(** Every module of the structure is one of the fetched modules, and one
    whose department and course both resolved. *)
Lemma placed_buildStructure (ds : list Department.t) (cs : list Course.t)
    (ms : list Populated) (m : Populated) :
  placed (buildStructure ds cs ms) m ->
  m ∈ ms /\ is_Some (departmentKey m) /\ is_Some (courseKey m).
Proof.
  unfold buildStructure. intros Hplaced.
  apply placed_fold_addModule in Hplaced as [Hbase|Hin]; [|done].
  exfalso. revert Hbase.
  assert (forall st, ~ placed st m -> ~ placed (fold_left addCourse cs st) m) as Hcs.
  { induction cs as [|c r IH]; simpl; [done|].
    intros st Hst. apply IH. intros H. by apply placed_addCourse in H. }
  apply Hcs.
  assert (forall st, ~ placed st m -> ~ placed (fold_left addDepartment ds st) m) as Hds.
  { induction ds as [|d r IH]; simpl; [done|].
    intros st Hst. apply IH. intros H. by apply placed_addDepartment in H. }
  apply Hds, placed_nil.
Qed.

End CatalogFacts.

Section CatalogSkips.
Import Catalog.

(** A course whose department has no bucket is skipped. *)
Lemma addCourse_skip (st : Structure) (c : Course.t) :
  objGet st (Course.department c) = None -> addCourse st c = st.
Proof. unfold addCourse. by intros ->. Qed.

(** A module is skipped when its department does not resolve or has no
    bucket, and when its course does not resolve or has no bucket under
    the department. *)
Lemma addModule_skip (st : Structure) (m : Populated) :
  (match departmentKey m with
   | None => True
   | Some depId =>
       match objGet st depId with
       | None => True
       | Some b =>
           match courseKey m with
           | None => True
           | Some courseId => objGet (courses b) courseId = None
           end
       end
   end) ->
  addModule st m = st.
Proof.
  unfold addModule, bucketsOf.
  destruct (departmentKey m) as [depId|]; [|done].
  destruct (negb (truthy depId)); [done|].
  destruct (objGet st depId) as [b|]; [|done].
  destruct (courseKey m) as [courseId|]; [|done].
  destruct (negb (truthy courseId)); [done|].
  by intros ->.
Qed.

End CatalogSkips.

(** C5: for the departments [CS], the courses [CS101 in CS] and the
    modules [M1, M2 (CS101, CS, semester 1); Morphan (unknown course,
    CS, semester 2)], the structure maps CS to CS101 to semester 1 to
    [M1, M2] in input order and has no other bucket, and Morphan sits
    nowhere in it.  In general a course whose department has no bucket
    and a module whose department bucket or course bucket is absent
    leave the structure as it is, and every module of a structure is a
    fetched module whose department and course resolved. *)
Theorem catalog_example_and_orphan_skip :
  let fetched :=
    map (Catalog.populate Sample.catalog) [Sample.M1; Sample.M2; Sample.Morphan] in
  let st := Catalog.buildStructure [Sample.CS] [Sample.CS101] fetched in
  let M1 := Catalog.populate Sample.catalog Sample.M1 in
  let M2 := Catalog.populate Sample.catalog Sample.M2 in
  let Morphan := Catalog.populate Sample.catalog Sample.Morphan in
  getStructuredModules Sample.catalog = st /\
  st = [ (Sample.idCS,
          {| Catalog.db_id := Sample.idCS;
             Catalog.db_name := "Computer Science";
             Catalog.db_code := "CS";
             Catalog.courses :=
               [ (Sample.idCS101,
                  {| Catalog.cb_id := Sample.idCS101;
                     Catalog.cb_name := "Introduction to Computing";
                     Catalog.cb_code := "CS101";
                     Catalog.semesters := {[ 1%Z := [M1; M2] ]} |}) ] |}) ] /\
  (objGet st Sample.idCS ≫= fun b =>
   objGet (Catalog.courses b) Sample.idCS101 ≫= fun cb =>
   Catalog.semesters cb !! 1%Z) = Some [M1; M2] /\
  ~ Catalog.placed st Morphan /\
  (forall (st' : Catalog.Structure) (c : Course.t),
     objGet st' (Course.department c) = None -> Catalog.addCourse st' c = st') /\
  (forall (st' : Catalog.Structure) (m : Catalog.Populated),
     (forall depId, Catalog.departmentKey m = Some depId -> objGet st' depId = None) ->
     Catalog.addModule st' m = st') /\
  (forall (st' : Catalog.Structure) (m : Catalog.Populated) depId b,
     Catalog.departmentKey m = Some depId -> objGet st' depId = Some b ->
     (forall courseId, Catalog.courseKey m = Some courseId ->
                       objGet (Catalog.courses b) courseId = None) ->
     Catalog.addModule st' m = st') /\
  (forall ds cs ms m,
     Catalog.placed (Catalog.buildStructure ds cs ms) m ->
     m ∈ ms /\ is_Some (Catalog.departmentKey m) /\ is_Some (Catalog.courseKey m)).
Proof.
  intros fetched st M1 M2 Morphan.
  split; [reflexivity|]. split; [by vm_compute|]. split; [by vm_compute|].
  split; [|split; [|split; [|split]]].
  - intros Hplaced. apply placed_buildStructure in Hplaced as (_ & _ & [c Hc]).
    by vm_compute in Hc.
  - apply addCourse_skip.
  - intros st' m Hdep. apply addModule_skip.
    destruct (Catalog.departmentKey m) as [depId|]; [|done].
    by rewrite (Hdep depId).
  - intros st' m depId b Hkey Hb Hcourse. apply addModule_skip.
    rewrite Hkey, Hb. destruct (Catalog.courseKey m) as [courseId|]; [|done].
    by apply Hcourse.
  - apply placed_buildStructure.
Qed.

(** * Further operations

    The handlers and hooks beside the ones above: enrollment needs no
    more code; modules get their delete handler and remove hook,
    departments and courses their create and update handlers, students
    their create handler, and the session gets its login handler and the
    three gates of the middleware. *)

(** ** Module delete (module controller, Module schema) *)

Module ModuleAdmin.

(** The filter [{ prerequisites: id }]: the array holds the id. *)
Definition listsPrerequisite (id : ObjectId) (m : Mod.t) : bool :=
  bool_decide (id ∈ Mod.prerequisites m).

(** [{ $pull: { prerequisites: id } }]: every occurrence goes. *)
Definition pull (id : ObjectId) (m : Mod.t) : Mod.t :=
  {| Mod._id := Mod._id m; Mod.name := Mod.name m; Mod.code := Mod.code m;
     Mod.course := Mod.course m; Mod.department := Mod.department m;
     Mod.description := Mod.description m; Mod.credits := Mod.credits m;
     Mod.semester := Mod.semester m; Mod.isCore := Mod.isCore m;
     Mod.lecturer := Mod.lecturer m;
     Mod.learningOutcomes := Mod.learningOutcomes m;
     Mod.assessmentMethods := Mod.assessmentMethods m;
     Mod.prerequisites :=
       List.filter (fun p => negb (bool_decide (p = id))) (Mod.prerequisites m) |}.

(** [updateMany({ prerequisites: id }, { $pull: { prerequisites: id } })]. *)
Definition pullFromAll (id : ObjectId) (l : list Mod.t) : list Mod.t :=
  map (fun m => if listsPrerequisite id m then pull id m else m) l.

(** [module.remove()]: the pre-remove hook takes the module out of every
    prerequisite list, then the document goes. *)
Definition remove (d : Mod.t) (s : Store) : Store :=
  setModules (deleteOne Mod._id (Mod._id d) (pullFromAll (Mod._id d) (modules s))) s.

(** DELETE /api/modules/:id. *)
Definition deleteModule (id : ObjectId) (acceptsJson : bool) (s : Store)
    : Reply unit * Store :=
  match findById Mod._id (modules s) id with
  | None =>
      (respond acceptsJson 404 "Module not found"
         "error" "Module not found" "/modules", s)
  | Some module =>
      match findOne (listsPrerequisite (Mod._id module)) (modules s) with
      | Some _ =>
          (respond acceptsJson 400
             "Cannot delete module as it is a prerequisite for other modules"
             "error" "Cannot delete module as it is a prerequisite for other modules"
             ("/modules/" +:+ Mod._id module), s)
      | None =>
          (respond acceptsJson 200 "Module removed"
             "success" "Module deleted successfully" "/modules",
           remove module s)
      end
  end.

End ModuleAdmin.

(** ** Department create and update (department controller) *)

Module DepartmentAdmin.

(** The setters of the schema, in the order of its options. *)
Definition setName (v : string) : string := trim v.
Definition setCode (v : string) : string := toUpperCase (trim v).
Definition setText (v : string) : string := trim v.

(** Schema validation: [name] and [code] are required. *)
Definition validate (d : Department.t) : option Error :=
  if negb (truthy (Department.name d)) then Some (ValidationFailed "name")
  else if negb (truthy (Department.code d)) then Some (ValidationFailed "code")
  else None.

(** [x] holds the name or the code of [d]: the two unique indexes. *)
Definition sameKey (d x : Department.t) : bool :=
  bool_decide (Department.name x = Department.name d)
  || bool_decide (Department.code x = Department.code d).

(** [department.save()] of a new document. *)
Definition insert (d : Department.t) (l : list Department.t)
    : Error + list Department.t :=
  match validate d with
  | Some err => inl err
  | None =>
      if existsb (sameKey d) l then inl (MongoServerError 11000) else inr (l ++ [d])
  end.

(** [department.save()] of a stored document. *)
Definition save (d : Department.t) (l : list Department.t)
    : Error + list Department.t :=
  match validate d with
  | Some err => inl err
  | None =>
      if existsb (fun x => negb (bool_decide (Department._id x = Department._id d))
                           && sameKey d x) l
      then inl (MongoServerError 11000)
      else inr (replaceOne Department._id d l)
  end.

(** [req.body] and [req.accepts('json')] of POST /api/departments and
    PUT /api/departments/:id. *)
Record Body := {
  name : string;
  code : string;
  description : string;
  headOfDepartment : string;
  isActive : string;
  acceptsJson : bool
}.

(** The filter [{ $or: [{ name }, { code }] }], its values cast by the
    setters of the schema. *)
Definition nameOrCode (name code : string) (x : Department.t) : bool :=
  bool_decide (Department.name x = setName name)
  || bool_decide (Department.code x = setCode code).

(** POST /api/departments.  [newId] and [now] are the [_id] and the
    [establishedDate] default of the new document. *)
Definition createDepartment (b : Body) (newId : ObjectId) (now : Z) (s : Store)
    : Reply Department.t * Store :=
  match findOne (nameOrCode (name b) (code b)) (departments s) with
  | Some _ =>
      (respond (acceptsJson b) 400 "Department with this name or code already exists"
         "error" "Department with this name or code already exists"
         "/departments/new", s)
  | None =>
      let department :=
        {| Department._id := newId;
           Department.name := setName (name b);
           Department.code := setCode (toUpperCase (code b));
           Department.description := setText (description b);
           Department.headOfDepartment := setText (headOfDepartment b);
           Department.establishedDate := now;
           Department.isActive := true |} in
      match insert department (departments s) with
      | inl err => (thrown err, s)
      | inr l =>
          (if acceptsJson b then jsonDoc 201 department
           else redirect "success" "Department created successfully"
                  ("/departments/" +:+ newId),
           setDepartments l s)
      end
  end.

(** PUT /api/departments/:id. *)
Definition updateDepartment (id : ObjectId) (b : Body) (s : Store)
    : Reply Department.t * Store :=
  match findById Department._id (departments s) id with
  | None =>
      (respond (acceptsJson b) 404 "Department not found"
         "error" "Department not found" "/departments", s)
  | Some stored =>
      let edit := "/departments/" +:+ Department._id stored +:+ "/edit" in
      match findOne
              (fun x => negb (bool_decide (Department._id x = Department._id stored))
                        && nameOrCode (name b) (toUpperCase (code b)) x)
              (departments s) with
      | Some _ =>
          (respond (acceptsJson b) 400 "Department with this name or code already exists"
             "error" "Department with this name or code already exists" edit, s)
      | None =>
          let department :=
            {| Department._id := Department._id stored;
               Department.name := setName (name b);
               Department.code := setCode (toUpperCase (code b));
               Department.description := setText (description b);
               Department.headOfDepartment := setText (headOfDepartment b);
               Department.establishedDate := Department.establishedDate stored;
               Department.isActive := bool_decide (isActive b = "on") |} in
          match save department (departments s) with
          | inl err => (thrown err, s)
          | inr l =>
              (if acceptsJson b then jsonDoc 200 department
               else redirect "success" "Department updated successfully"
                      ("/departments/" +:+ Department._id stored),
               setDepartments l s)
          end
      end
  end.

End DepartmentAdmin.

(** ** Course update (course controller) *)

Module CourseAdmin.

(** [course.save()] of a stored document: validation, the hook, then the
    write under the unique [code] index. *)
Definition save (s : Store) (d : Course.t) : Error + list Course.t :=
  match CourseModel.validate d with
  | Some err => inl err
  | None =>
      match CourseModel.preSave s d with
      | Some err => inl err
      | None =>
          if existsb (fun x => negb (bool_decide (Course._id x = Course._id d))
                               && bool_decide (Course.code x = Course.code d)) (courses s)
          then inl (MongoServerError 11000)
          else inr (replaceOne Course._id d (courses s))
      end
  end.

(** PUT /api/courses/:id; [isActive] is the check box of the form. *)
Definition updateCourse (id : ObjectId) (req : CourseController.CreateRequest)
    (isActive : string) (s : Store) : Reply Course.t * Store :=
  match findById Course._id (courses s) id with
  | None =>
      (respond (CourseController.acceptsJson req) 404 "Course not found"
         "error" "Course not found" "/courses", s)
  | Some stored =>
      let edit := "/courses/" +:+ Course._id stored +:+ "/edit" in
      match findOne
              (fun x => negb (bool_decide (Course._id x = Course._id stored))
                        && bool_decide (Course.code x =
                             CourseModel.setCode (toUpperCase (CourseController.code req))))
              (courses s) with
      | Some _ =>
          (respond (CourseController.acceptsJson req) 400
             "Course with this code already exists"
             "error" "Course with this code already exists" edit, s)
      | None =>
          if CourseController.notAfter (timeOf (CourseController.endDate req))
               (CourseController.startDate req)
          then
            (respond (CourseController.acceptsJson req) 400
               "End date must be after start date"
               "error" "End date must be after start date" edit, s)
          else
            let course :=
              {| Course._id := Course._id stored;
                 Course.name := CourseModel.setName (CourseController.name req);
                 Course.code :=
                   CourseModel.setCode (toUpperCase (CourseController.code req));
                 Course.department := CourseController.department req;
                 Course.duration := CourseController.duration req;
                 Course.description :=
                   CourseModel.setDescription (CourseController.description req);
                 Course.credits := CourseController.credits req;
                 Course.isActive := bool_decide (isActive = "on");
                 Course.fee := CourseController.fee req;
                 Course.startDate := CourseController.startDate req;
                 Course.endDate := CourseController.endDate req |} in
            match save s course with
            | inl err => (thrown err, s)
            | inr l =>
                (if CourseController.acceptsJson req then jsonDoc 200 course
                 else redirect "success" "Course updated successfully"
                        ("/courses/" +:+ Course._id stored),
                 setCourses l s)
            end
      end
  end.

End CourseAdmin.

(** ** Student create (student controller) *)

Module StudentAdmin.

(** A stored document holds one of the unique keys of the new one. *)
Definition sameKey (d x : Student.t) : bool :=
  bool_decide (Student.email x = Student.email d)
  || bool_decide (Student.rollNumber x = Student.rollNumber d)
  || match Student.user d with
     | Some u => bool_decide (Student.user x = Some u)
     | None => false
     end.

(** [student.save()] of a new document. *)
Definition insert (d : Student.t) (l : list Student.t) : Error + list Student.t :=
  match StudentModel.validate d with
  | Some err => inl err
  | None =>
      if existsb (sameKey d) l then inl (MongoServerError 11000) else inr (l ++ [d])
  end.

(** [req.body] and [req.accepts('json')] of POST /students. *)
Record Body := {
  name : string;
  email : string;
  rollNumber : string;
  department : ObjectId;
  course : ObjectId;
  year : option Z;
  semester : option Z;
  enrollmentDate : option Z;
  status : string;
  notes : string;
  createLogin : string;
  password : string;
  acceptsJson : bool
}.

(** The filter [{ $or: [{ email }, { rollNumber }] }], its values cast by
    the setters of the schema. *)
Definition emailOrRoll (email rollNumber : string) (x : Student.t) : bool :=
  bool_decide (Student.email x = StudentModel.setEmail email)
  || bool_decide (Student.rollNumber x = StudentModel.setRollNumber rollNumber).

(** [new Student({ ... })]. *)
Definition studentOf (b : Body) (newId : ObjectId) (now : Z) : Student.t :=
  {| Student._id := newId;
     Student.name := StudentModel.setName (name b);
     Student.email := StudentModel.setEmail (toLowerCase (email b));
     Student.rollNumber := StudentModel.setRollNumber (toUpperCase (rollNumber b));
     Student.department := department b;
     Student.course := course b;
     Student.year := orNumber (year b) (Some 1%Z);
     Student.semester := orNumber (semester b) (Some 1%Z);
     Student.enrollmentDate := default now (enrollmentDate b);
     Student.status := orElse (status b) "active";
     Student.notes := StudentModel.setNotes (notes b);
     Student.user := None |}.

(** [new User({ name, email, password, role: 'student', isActive: true })]. *)
Definition loginOf (b : Body) (newUserId : ObjectId) : User.t :=
  {| User._id := newUserId; User.name := name b;
     User.email := toLowerCase (email b); User.password := password b;
     User.role := "student"; User.isActive := true |}.

Section Create.
Variable hashPassword : string -> string.

(** The answer to a created student. *)
Definition created (b : Body) (student : Student.t) : Reply Student.t :=
  if acceptsJson b then jsonDoc 201 student
  else redirect "success" "Student created" ("/students/" +:+ Student._id student).

(** POST /students.  [newId] and [newUserId] are the ids of the Student
    and of the User that the handler constructs; [now] is [Date.now()]. *)
Definition createStudent (b : Body) (newId newUserId : ObjectId) (now : Z)
    (s : Store) : Reply Student.t * Store :=
  match findOne (emailOrRoll (email b) (toUpperCase (rollNumber b))) (students s) with
  | Some _ =>
      (respond (acceptsJson b) 400 "Email or Roll Number already exists"
         "error" "Email or Roll Number already exists" "/students/new", s)
  | None =>
      let student := studentOf b newId now in
      if bool_decide (createLogin b = "on") then
        match findOne (fun u => bool_decide (User.email u = toLowerCase (email b)))
                (users s) with
        | Some _ =>
            (respond (acceptsJson b) 400 "A user with this email already exists"
               "error" "A user with this email already exists" "/students/new", s)
        | None =>
            if negb (truthy (password b)) || (String.length (password b) <? 6)%nat
            then
              (respond (acceptsJson b) 400 "Password must be at least 6 characters"
                 "error" "Password must be at least 6 characters" "/students/new", s)
            else
              match User_insert hashPassword (loginOf b newUserId) (users s) with
              | inl err => (thrown err, s)
              | inr lu =>
                  let s1 := setUsers lu s in
                  let linked := withUser newUserId student in
                  match insert linked (students s1) with
                  | inl err => (thrown err, s1)
                  | inr l => (created b linked, setStudents l s1)
                  end
              end
        end
      else
        match insert student (students s) with
        | inl err => (thrown err, s)
        | inr l => (created b student, setStudents l s)
        end
  end.

End Create.

End StudentAdmin.

(** ** Session gates and login (auth middleware, auth controller) *)

Module Auth.

(** [req.session.user]; [isActive] may be absent from the object. *)
Record SessionUser := {
  _id : ObjectId;
  name : string;
  email : string;
  role : string;
  isActive : option bool
}.

(** [user.isActive !== false]. *)
Definition notInactive (u : SessionUser) : bool :=
  negb (bool_decide (isActive u = Some false)).

(** What a middleware does with a request: it calls [next()] or answers. *)
Inductive Outcome :=
| next
| answered (r : Reply unit).

Definition protect (user : option SessionUser) (acceptsJson : bool) : Outcome :=
  match user with
  | Some u =>
      if notInactive u then next
      else answered (respond acceptsJson 401 "Not authenticated"
                       "error" "Please log in to continue" "/login")
  | None =>
      answered (respond acceptsJson 401 "Not authenticated"
                  "error" "Please log in to continue" "/login")
  end.

Definition admin (user : option SessionUser) (acceptsJson : bool) : Outcome :=
  match user with
  | Some u =>
      if bool_decide (role u = "admin") && notInactive u then next
      else answered (respond acceptsJson 403 "Admin access required"
                       "error" "Admin access required" "/")
  | None =>
      answered (respond acceptsJson 403 "Admin access required"
                  "error" "Admin access required" "/")
  end.

Definition requireRole (required : string) (user : option SessionUser)
    (acceptsJson : bool) : Outcome :=
  match user with
  | Some u =>
      if bool_decide (role u = required) && notInactive u then next
      else answered (respond acceptsJson 403 (required +:+ " access required")
                       "error" (required +:+ " access required") "/login")
  | None =>
      answered (respond acceptsJson 403 (required +:+ " access required")
                  "error" (required +:+ " access required") "/login")
  end.

Section Login.

(** [user.matchPassword(password)] of the User model, which is not among
    the sources: a parameter of the handler. *)
Variable matchPassword : User.t -> string -> bool.

(** The filter [{ email: email.toLowerCase(), isActive: true }]. *)
Definition activeWithEmail (email : string) (u : User.t) : bool :=
  bool_decide (User.email u = toLowerCase email) && User.isActive u.

(** [req.session.user = { _id, name, email, role, isActive }]. *)
Definition sessionOf (u : User.t) : SessionUser :=
  {| _id := User._id u; name := User.name u; email := User.email u;
     role := User.role u; isActive := Some (User.isActive u) |}.

(** POST /login: the answer and the session user after the request. *)
Definition login (email password : string) (acceptsJson : bool)
    (users : list User.t) (session : option SessionUser)
    : Reply SessionUser * option SessionUser :=
  match findOne (activeWithEmail email) users with
  | Some user =>
      if matchPassword user password then
        (if acceptsJson then jsonDoc 200 (sessionOf user)
         else redirect "success" "Logged in successfully" "/",
         Some (sessionOf user))
      else
        (respond acceptsJson 401 "Invalid credentials"
           "error" "Invalid email or password" "/login", session)
  | None =>
      (respond acceptsJson 401 "Invalid credentials"
         "error" "Invalid email or password" "/login", session)
  end.

End Login.

End Auth.

(** ** The write requests of an administrator *)

(** The handlers that write departments, courses and modules. *)
Inductive AdminOp :=
| CreateDepartment (b : DepartmentAdmin.Body) (newId : ObjectId) (now : Z)
| UpdateDepartment (id : ObjectId) (b : DepartmentAdmin.Body)
| DeleteDepartment (id : ObjectId) (acceptsJson : bool)
| CreateCourse (req : CourseController.CreateRequest) (newId : ObjectId)
| UpdateCourse (id : ObjectId) (req : CourseController.CreateRequest) (isActive : string)
| DeleteCourse (id : ObjectId) (acceptsJson : bool)
| CreateModule (b : ModuleController.Body) (newId : ObjectId)
| UpdateModule (id : ObjectId) (b : ModuleController.Body)
| DeleteModule (id : ObjectId) (acceptsJson : bool).

Definition runAdmin (op : AdminOp) (s : Store) : Store :=
  match op with
  | CreateDepartment b newId now => snd (DepartmentAdmin.createDepartment b newId now s)
  | UpdateDepartment id b => snd (DepartmentAdmin.updateDepartment id b s)
  | DeleteDepartment id acc => snd (DepartmentController.deleteDepartment id acc s)
  | CreateCourse req newId => snd (CourseController.createCourse req newId s)
  | UpdateCourse id req act => snd (CourseAdmin.updateCourse id req act s)
  | DeleteCourse id acc => snd (CourseController.deleteCourse id acc s)
  | CreateModule b newId => snd (ModuleController.createModule b newId s)
  | UpdateModule id b => snd (ModuleController.updateModule id b s)
  | DeleteModule id acc => snd (ModuleAdmin.deleteModule id acc s)
  end.

(** Every course names a department of the store. *)
Definition coursesResolve (s : Store) : Prop :=
  forall c, c ∈ courses s ->
    is_Some (findById Department._id (departments s) (Course.department c)).

(** Every module names a course of the store and the department of that
    course, which is in the store. *)
Definition modulesResolve (s : Store) : Prop :=
  forall m, m ∈ modules s ->
    exists c, findById Course._id (courses s) (Mod.course m) = Some c /\
              Course.department c = Mod.department m /\
              is_Some (findById Department._id (departments s) (Mod.department m)).

(** Every prerequisite of a module is a module of the store. *)
Definition prerequisitesResolve (s : Store) : Prop :=
  forall m p, m ∈ modules s -> p ∈ Mod.prerequisites m ->
    is_Some (findById Mod._id (modules s) p).

(** ** A store with prerequisite links *)

(** [m] with the prerequisites [ps]. *)
Definition requiring (ps : list ObjectId) (m : Mod.t) : Mod.t :=
  {| Mod._id := Mod._id m; Mod.name := Mod.name m; Mod.code := Mod.code m;
     Mod.course := Mod.course m; Mod.department := Mod.department m;
     Mod.description := Mod.description m; Mod.credits := Mod.credits m;
     Mod.semester := Mod.semester m; Mod.isCore := Mod.isCore m;
     Mod.lecturer := Mod.lecturer m;
     Mod.learningOutcomes := Mod.learningOutcomes m;
     Mod.assessmentMethods := Mod.assessmentMethods m;
     Mod.prerequisites := ps |}.

(** The sample campus with three modules of CS101: CS102 requires CS101,
    and CS103 requires both. *)
Definition linkedCatalog : Store :=
  setModules
    [ Sample.M1;
      requiring [Sample.idM1] Sample.M2;
      requiring [Sample.idM1; Sample.idM2]
        (Sample.moduleDoc Sample.idM4 "Compilers" "CS103" Sample.idCS101 2) ]
    Sample.campus.

(** ** Reading the catalog structure *)

(** The list under department [d], course [c] and semester [sem]. *)
Definition modulesAt (st : Catalog.Structure) (d c : string) (sem : Z)
    : option (list Catalog.Populated) :=
  objGet st d ≫= fun b =>
  objGet (Catalog.courses b) c ≫= fun cb =>
  Catalog.semesters cb !! sem.

(** The structure has a bucket for course [c] under department [d]. *)
Definition hasCourse (st : Catalog.Structure) (d c : string) : bool :=
  match objGet st d ≫= fun b => objGet (Catalog.courses b) c with
  | Some _ => true
  | None => false
  end.

(** The keys that [m] resolves to are [d], [c] and [sem]. *)
Definition goesTo (d c : string) (sem : Z) (m : Catalog.Populated) : bool :=
  bool_decide (Catalog.departmentKey m = Some d) && truthy d
  && bool_decide (Catalog.courseKey m = Some c) && truthy c
  && bool_decide (Catalog.semesterKey m = sem).

(** A stand-in for the password check of the User model, for the
    examples: the stored password is the hash of the one given. *)
Definition checkHash (u : User.t) (plain : string) : bool :=
  bool_decide (User.password u = Sample.hash plain).

(** * Further properties *)

(** ** Collections *)

Section MoreCollectionFacts.
Context {D : Type} (idOf : D -> ObjectId).

Lemma findOne_app (f : D -> bool) (l k : list D) :
  findOne f (l ++ k) =
    match findOne f l with Some d => Some d | None => findOne f k end.
Proof.
  unfold findOne. induction l as [|x r IH]; simpl; [done|].
  by destruct (f x).
Qed.

Lemma findById_deleteOne_ne (l : list D) (id id0 : ObjectId) :
  id <> id0 -> findById idOf (deleteOne idOf id0 l) id = findById idOf l id.
Proof.
  intros Hne. unfold findById, findOne.
  induction l as [|x r IH]; simpl; [done|].
  destruct (bool_decide (idOf x = id0)) eqn:H0; simpl.
  - apply bool_decide_eq_true in H0.
    rewrite bool_decide_eq_false_2 by congruence. done.
  - destruct (bool_decide (idOf x = id)); [done | apply IH].
Qed.

Lemma findById_replaceOne_ne (l : list D) (id : ObjectId) (d' : D) :
  id <> idOf d' -> findById idOf (replaceOne idOf d' l) id = findById idOf l id.
Proof.
  intros Hne. unfold findById, findOne.
  induction l as [|x r IH]; simpl; [done|].
  destruct (bool_decide (idOf x = idOf d')) eqn:H0; simpl.
  - apply bool_decide_eq_true in H0.
    rewrite !bool_decide_eq_false_2 by congruence. done.
  - destruct (bool_decide (idOf x = id)); [done | apply IH].
Qed.

Lemma findById_replaceOne_is_Some (l : list D) (id : ObjectId) (d' : D) :
  is_Some (findById idOf l id) -> is_Some (findById idOf (replaceOne idOf d' l) id).
Proof.
  intros [d Hd]. destruct (decide (id = idOf d')) as [->|Hne].
  - exists d'. by eapply findById_replaceOne.
  - rewrite findById_replaceOne_ne by done. by exists d.
Qed.

Lemma map_replaceOne (l : list D) (d' : D) :
  map idOf (replaceOne idOf d' l) = map idOf l.
Proof.
  induction l as [|x r IH]; simpl; [done|].
  case_bool_decide as Hx; simpl; [by rewrite Hx | by rewrite IH].
Qed.

Lemma elem_of_replaceOne (l : list D) (d' x : D) :
  x ∈ replaceOne idOf d' l -> x ∈ l \/ x = d'.
Proof.
  induction l as [|y r IH]; simpl; [by left|].
  case_bool_decide as Hy; intros Hx; apply elem_of_cons in Hx as [->|Hx].
  - by right.
  - left. by constructor.
  - left. constructor.
  - destruct (IH Hx) as [Hr| ->]; [left; by constructor | by right].
Qed.

Lemma findById_is_Some_app (l k : list D) (id : ObjectId) :
  is_Some (findById idOf l id) -> is_Some (findById idOf (l ++ k) id).
Proof.
  intros [d Hd]. exists d. unfold findById in *. by rewrite findOne_app, Hd.
Qed.

Lemma findById_elem (l : list D) (d : D) :
  d ∈ l -> is_Some (findById idOf l (idOf d)).
Proof.
  intros Hd. destruct (findById idOf l (idOf d)) eqn:Hf; [by eexists|].
  apply (findOne_None (fun x => bool_decide (idOf x = idOf d))) with (d := d) in Hf;
    [|done].
  by apply bool_decide_eq_false in Hf.
Qed.

(** With pairwise distinct ids, the delete of a document leaves the
    documents held under the other ids. *)
Lemma deleteOne_fresh (l : list D) (x : D) :
  (forall d, d ∈ l -> idOf d <> idOf x) ->
  deleteOne idOf (idOf x) (l ++ [x]) = l.
Proof.
  induction l as [|y r IH]; simpl; intros Hfresh.
  - by rewrite bool_decide_eq_true_2.
  - rewrite bool_decide_eq_false_2 by (apply Hfresh; constructor).
    f_equal. apply IH. intros d Hd. apply Hfresh. by constructor.
Qed.

End MoreCollectionFacts.

Lemma setEnrollments_same (s : Store) : setEnrollments (enrollments s) s = s.
Proof. by destruct s. Qed.

(** ** Enrollment manager: round trip and repeated drops *)

(** X1: enrolling in an existing course in which the user has no row,
    under a fresh id, and dropping again gives the store back: the drop
    answers [Dropped] and the store is the one before the enrollment. *)
Theorem enroll_then_drop_restores (req : PortalController.Request)
    (newId : ObjectId) (now : Z) (s : Store) :
  is_Some (findById Course._id (courses s) (PortalController.courseId req)) ->
  countDocuments
    (EnrollmentModel.forPair (PortalController.userId req) (PortalController.courseId req))
    (enrollments s) = 0 ->
  (forall e, e ∈ enrollments s -> Enrollment._id e <> newId) ->
  let enrolled := PortalController.enrollInCourse req newId now s in
  isSuccess (fst enrolled) = true /\
  PortalController.dropFromCourse req (snd enrolled) =
    (respond (PortalController.acceptsJson req) 200 "Dropped"
       "success" "Dropped from course"
       ("/catalog/course/" +:+ PortalController.courseId req), s).
Proof.
  intros [course Hcourse] Hnone Hfresh enrolled. subst enrolled.
  unfold PortalController.enrollInCourse. rewrite Hcourse.
  rewrite countDocuments_zero in Hnone.
  unfold EnrollmentModel.create. simpl.
  assert (existsb
            (EnrollmentModel.forPair (PortalController.userId req)
               (PortalController.courseId req)) (enrollments s) = false) as Hex.
  { rewrite findOne_existsb.
    by rewrite (proj2 (findOne_None _ _) Hnone). }
  rewrite Hex. simpl. split; [by destruct (PortalController.acceptsJson req)|].
  unfold PortalController.dropFromCourse. simpl.
  rewrite findOne_app, (proj2 (findOne_None _ _) Hnone). simpl.
  unfold EnrollmentModel.forPair at 1. simpl.
  rewrite !bool_decide_eq_true_2 by done. simpl.
  f_equal.
  match goal with
  | |- context [enrollments s ++ [?doc]] =>
      change newId with (Enrollment._id doc) at 1;
      rewrite (deleteOne_fresh Enrollment._id (enrollments s) doc) by exact Hfresh
  end.
  by destruct s.
Qed.

(** On the sample campus nobody is enrolled: Ada enrolls in CS101 and
    drops, and the campus is as before. *)
Lemma enroll_then_drop_restores_witness :
  let req := {| PortalController.userId := Sample.idAdaUser;
                PortalController.courseId := Sample.idCS101;
                PortalController.acceptsJson := true |} in
  snd (PortalController.dropFromCourse req
         (snd (PortalController.enrollInCourse req Sample.idNew 5 Sample.campus)))
  = Sample.campus.
Proof.
  intros req.
  pose proof (enroll_then_drop_restores req Sample.idNew 5 Sample.campus) as H.
  destruct H as [_ Hdrop].
  - eexists. reflexivity.
  - reflexivity.
  - intros e He. inversion He.
  - rewrite Hdrop. reflexivity.
Defined.

Lemma findById_NoDup {D : Type} (idOf : D -> ObjectId) (l : list D) (d : D) :
  NoDup (map idOf l) -> d ∈ l -> findById idOf l (idOf d) = Some d.
Proof.
  unfold findById, findOne. induction l as [|x r IH]; simpl; intros Hnd Hd.
  - inversion Hd.
  - apply NoDup_cons in Hnd as [Hx Hnd].
    apply elem_of_cons in Hd as [->|Hd].
    + by rewrite bool_decide_eq_true_2.
    + rewrite bool_decide_eq_false_2; [by apply IH|].
      intros Heq. apply Hx. rewrite Heq. apply list_elem_of_fmap. by exists d.
Qed.

(** X2: the unique index on (user, course) holds after any sequence of
    enroll and drop requests when it holds before. *)
Theorem enrollment_pairs_stay_unique (ops : list PortalController.Op) (s : Store) :
  EnrollmentModel.uniquePairs (enrollments s) ->
  EnrollmentModel.uniquePairs
    (enrollments (fold_left (fun st op => PortalController.run op st) ops s)).
Proof.
  revert s. induction ops as [|op r IH]; simpl; intros s Hs; [done|].
  apply IH. by apply run_uniquePairs.
Qed.

(** Two enrollments of Ada in CS101 and one drop, from the sample
    campus, leave the pairs of the collection distinct. *)
Lemma enrollment_pairs_stay_unique_witness :
  let req := {| PortalController.userId := Sample.idAdaUser;
                PortalController.courseId := Sample.idCS101;
                PortalController.acceptsJson := false |} in
  EnrollmentModel.uniquePairs
    (enrollments
       (fold_left (fun st op => PortalController.run op st)
          [PortalController.Enroll req Sample.idM1 5;
           PortalController.Enroll req Sample.idM2 6;
           PortalController.Drop req]
          Sample.campus)).
Proof.
  intros req. apply enrollment_pairs_stay_unique. apply NoDup_nil_2.
Defined.

(** X3: a drop is answered NotFound exactly when the pair has no row,
    and then the store is unchanged; every other drop succeeds. *)
Theorem drop_not_found_iff (req : PortalController.Request) (s : Store) :
  let r := PortalController.dropFromCourse req s in
  (errorKind (fst r) = Some NotFound <->
   countDocuments
     (EnrollmentModel.forPair (PortalController.userId req)
        (PortalController.courseId req)) (enrollments s) = 0) /\
  (errorKind (fst r) = Some NotFound -> snd r = s) /\
  (errorKind (fst r) <> Some NotFound -> isSuccess (fst r) = true).
Proof.
  intros r. subst r. unfold PortalController.dropFromCourse.
  destruct (findOne _ _) as [e|] eqn:Hfind; simpl.
  - apply findOne_Some in Hfind as [Hin Hpair]. split; [|split].
    + split; [by destruct (PortalController.acceptsJson req)|].
      intros Hzero. rewrite countDocuments_zero in Hzero.
      rewrite (Hzero e Hin) in Hpair. done.
    + by destruct (PortalController.acceptsJson req).
    + by destruct (PortalController.acceptsJson req).
  - rewrite findOne_None in Hfind. split; [|split].
    + split; [intros _; by apply countDocuments_zero|].
      by destruct (PortalController.acceptsJson req).
    + done.
    + by destruct (PortalController.acceptsJson req).
Qed.

(** X4: with the unique index in force and pairwise distinct ids, a drop
    that succeeds leaves no row for the pair: the same drop again is
    answered NotFound and changes nothing, and a new enrollment in the
    course is created with 201. *)
Theorem drop_twice_not_found (req : PortalController.Request)
    (newId : ObjectId) (now : Z) (s : Store) :
  EnrollmentModel.uniquePairs (enrollments s) ->
  NoDup (map Enrollment._id (enrollments s)) ->
  isSuccess (fst (PortalController.dropFromCourse req s)) = true ->
  let s1 := snd (PortalController.dropFromCourse req s) in
  countDocuments
    (EnrollmentModel.forPair (PortalController.userId req)
       (PortalController.courseId req)) (enrollments s1) = 0 /\
  PortalController.dropFromCourse req s1 =
    (respond (PortalController.acceptsJson req) 404 "Enrollment not found"
       "error" "You are not enrolled in this course"
       ("/catalog/course/" +:+ PortalController.courseId req), s1) /\
  (is_Some (findById Course._id (courses s) (PortalController.courseId req)) ->
   fst (PortalController.enrollInCourse req newId now s1) =
     respond (PortalController.acceptsJson req) 201 "Enrolled"
       "success" "Enrolled successfully"
       ("/catalog/course/" +:+ PortalController.courseId req)).
Proof.
  intros Hpairs Hids Hok s1.
  assert (countDocuments
            (EnrollmentModel.forPair (PortalController.userId req)
               (PortalController.courseId req)) (enrollments s1) = 0) as Hzero.
  { subst s1. revert Hok. unfold PortalController.dropFromCourse.
    destruct (findOne _ _) as [e|] eqn:Hfind.
    2:{ simpl. by destruct (PortalController.acceptsJson req). }
    intros _. simpl. apply findOne_Some in Hfind as [Hin Hpair].
    pose proof (deleteOne_found Enrollment._id _ _ _
                  (findById_NoDup Enrollment._id _ _ Hids Hin)) as Hperm.
    unfold EnrollmentModel.uniquePairs in Hpairs.
    rewrite Hperm in Hpairs. simpl in Hpairs.
    apply NoDup_cons in Hpairs as [Hnotin _].
    apply forPair_true in Hpair. rewrite Hpair in Hnotin.
    apply countDocuments_zero. intros d Hd.
    destruct (EnrollmentModel.forPair _ _ d) eqn:Hf; [|done].
    exfalso. apply Hnotin, existsb_forPair, existsb_exists.
    exists d. split; [by apply list_elem_of_In | done]. }
  assert (courses s1 = courses s) as Hcourses.
  { subst s1. unfold PortalController.dropFromCourse. by destruct (findOne _ _). }
  split; [exact Hzero|].
  pose proof Hzero as Hnone. rewrite countDocuments_zero in Hnone.
  split.
  - unfold PortalController.dropFromCourse.
    by rewrite (proj2 (findOne_None _ _) Hnone).
  - intros [c Hc]. unfold PortalController.enrollInCourse.
    rewrite Hcourses, Hc. unfold EnrollmentModel.create. simpl.
    rewrite findOne_existsb, (proj2 (findOne_None _ _) Hnone). done.
Qed.

(** Ada enrolls in CS101 on the sample campus and drops: the second
    drop is not found. *)
Lemma drop_twice_not_found_witness :
  let req := {| PortalController.userId := Sample.idAdaUser;
                PortalController.courseId := Sample.idCS101;
                PortalController.acceptsJson := true |} in
  let s := snd (PortalController.enrollInCourse req Sample.idNew 5 Sample.campus) in
  fst (PortalController.dropFromCourse req
         (snd (PortalController.dropFromCourse req s)))
  = json 404 "Enrollment not found".
Proof.
  intros req s.
  pose proof (drop_twice_not_found req Sample.idM1 7 s) as H.
  destruct H as (_ & Hdrop & _).
  - vm_compute. apply NoDup_singleton.
  - vm_compute. apply NoDup_singleton.
  - reflexivity.
  - rewrite Hdrop. reflexivity.
Defined.

(** ** Module delete *)

Section ModuleDeleteFacts.
Import ModuleAdmin.

Lemma listsPrerequisite_true (id : ObjectId) (m : Mod.t) :
  listsPrerequisite id m = true <-> id ∈ Mod.prerequisites m.
Proof. unfold listsPrerequisite. apply bool_decide_eq_true. Qed.

Lemma pullFromAll_unlisted (id : ObjectId) (l : list Mod.t) :
  (forall m, m ∈ l -> listsPrerequisite id m = false) -> pullFromAll id l = l.
Proof.
  unfold pullFromAll. induction l as [|x r IH]; simpl; intros H; [done|].
  rewrite (H x) by constructor. f_equal. apply IH.
  intros m Hm. apply H. by constructor.
Qed.

Lemma pull_unlists (id : ObjectId) (m : Mod.t) :
  id ∉ Mod.prerequisites (pull id m).
Proof.
  simpl. rewrite list_elem_of_In, filter_In. intros [_ H].
  by rewrite bool_decide_eq_true_2 in H.
Qed.

Lemma pullFromAll_spec (id : ObjectId) (l : list Mod.t) (m' : Mod.t) :
  m' ∈ pullFromAll id l ->
  (id ∉ Mod.prerequisites m') /\
  exists m, m ∈ l /\ Mod._id m' = Mod._id m /\
            Mod.prerequisites m' =
              List.filter (fun p => negb (bool_decide (p = id))) (Mod.prerequisites m).
Proof.
  unfold pullFromAll. intros Hm'. apply list_elem_of_fmap in Hm' as (m & -> & Hm).
  destruct (listsPrerequisite id m) eqn:Hl.
  - split; [apply pull_unlists|]. by exists m.
  - assert (id ∉ Mod.prerequisites m) as Hnot.
    { intros Hin. apply listsPrerequisite_true in Hin. congruence. }
    split; [done|]. exists m. split; [done|]. split; [done|].
    symmetry. apply forallb_filter_id, forallb_forall. intros p Hp.
    apply negb_true_iff, bool_decide_eq_false. intros ->.
    by apply Hnot, list_elem_of_In.
Qed.

End ModuleDeleteFacts.

(** X5: for a module of the store, the delete is refused with
    HasDependents, and nothing is written, exactly when some module of
    the store lists it as a prerequisite, the module itself included;
    otherwise the delete succeeds, takes that one module out and leaves
    every other document, prerequisite lists included, as it was. *)
Theorem deleteModule_guard (id : ObjectId) (acceptsJson : bool) (s : Store)
    (module : Mod.t) :
  findById Mod._id (modules s) id = Some module ->
  let r := ModuleAdmin.deleteModule id acceptsJson s in
  (errorKind (fst r) = Some HasDependents <->
   exists m, m ∈ modules s /\ id ∈ Mod.prerequisites m) /\
  (errorKind (fst r) = Some HasDependents -> snd r = s) /\
  (id ∈ Mod.prerequisites module -> errorKind (fst r) = Some HasDependents) /\
  ((forall m, m ∈ modules s -> id ∉ Mod.prerequisites m) ->
   isSuccess (fst r) = true /\
   modules (snd r) = deleteOne Mod._id id (modules s) /\
   modules s ≡ₚ module :: modules (snd r) /\
   courses (snd r) = courses s /\
   departments (snd r) = departments s).
Proof.
  intros Hfind r. subst r. unfold ModuleAdmin.deleteModule. rewrite Hfind.
  destruct (findById_Some _ _ _ _ Hfind) as [Hin Hid]. rewrite Hid.
  destruct (findOne _ _) as [m|] eqn:Hlists; simpl.
  - apply findOne_Some in Hlists as [Hm Hl].
    apply listsPrerequisite_true in Hl.
    split; [|split; [|split]].
    + split; [intros _; by exists m | intros _; by destruct acceptsJson].
    + done.
    + intros _. by destruct acceptsJson.
    + intros Hnone. by destruct (Hnone m Hm).
  - rewrite findOne_None in Hlists. split; [|split; [|split]].
    + split; [by destruct acceptsJson|].
      intros (m & Hm & Hl). apply listsPrerequisite_true in Hl.
      rewrite (Hlists m Hm) in Hl. done.
    + by destruct acceptsJson.
    + intros Hself. apply listsPrerequisite_true in Hself.
      rewrite (Hlists module Hin) in Hself. done.
    + intros _. split; [by destruct acceptsJson|].
      unfold ModuleAdmin.remove. simpl. rewrite Hid.
      rewrite (pullFromAll_unlisted id (modules s) Hlists).
      split; [done|]. split; [by apply deleteOne_found | done].
Qed.

(** In the store of the catalog example nobody lists M1: its delete
    succeeds and M2 and Morphan stay. *)
Lemma deleteModule_guard_witness :
  modules (snd (ModuleAdmin.deleteModule Sample.idM1 true Sample.catalog))
  = [Sample.M2; Sample.Morphan].
Proof.
  pose proof (deleteModule_guard Sample.idM1 true Sample.catalog Sample.M1 eq_refl)
    as (_ & _ & _ & Hok).
  destruct Hok as (_ & Hmods & _).
  - intros m Hm Hin.
    repeat (apply elem_of_cons in Hm as [->|Hm]; [inversion Hin|]). inversion Hm.
  - rewrite Hmods. reflexivity.
Defined.

(** X6: after [module.remove()] no module of the store lists the removed
    module as a prerequisite; every remaining module is a module of the
    store before, with the same id and with its other prerequisites in
    their order; departments and courses are untouched. *)
Theorem remove_unlists_everywhere (d : Mod.t) (s : Store) :
  (forall m', m' ∈ modules (ModuleAdmin.remove d s) ->
     (Mod._id d ∉ Mod.prerequisites m') /\
     exists m, m ∈ modules s /\ Mod._id m' = Mod._id m /\
               Mod.prerequisites m' =
                 List.filter (fun p => negb (bool_decide (p = Mod._id d)))
                   (Mod.prerequisites m)) /\
  courses (ModuleAdmin.remove d s) = courses s /\
  departments (ModuleAdmin.remove d s) = departments s.
Proof.
  split; [|done]. intros m' Hm'. unfold ModuleAdmin.remove in Hm'. simpl in Hm'.
  apply deleteOne_subset in Hm'. by apply pullFromAll_spec.
Qed.

(** X7: when every prerequisite of every module is a module of the
    store, the same holds after a delete request: the handler leaves no
    dangling prerequisite. *)
Theorem deleteModule_keeps_prerequisites (id : ObjectId) (acceptsJson : bool)
    (s : Store) :
  prerequisitesResolve s ->
  prerequisitesResolve (snd (ModuleAdmin.deleteModule id acceptsJson s)).
Proof.
  intros Hres. unfold ModuleAdmin.deleteModule.
  destruct (findById _ _ _) as [module|] eqn:Hfind; [|done].
  destruct (findById_Some _ _ _ _ Hfind) as [_ Hid]. rewrite Hid.
  destruct (findOne _ _) as [x|] eqn:Hlists; [done|].
  rewrite findOne_None in Hlists. simpl.
  unfold ModuleAdmin.remove. rewrite Hid.
  rewrite (pullFromAll_unlisted id (modules s) Hlists).
  intros m p Hm Hp. simpl in *.
  apply deleteOne_subset in Hm.
  assert (p <> id) as Hne.
  { intros ->. apply listsPrerequisite_true in Hp. rewrite (Hlists m Hm) in Hp. done. }
  rewrite findById_deleteOne_ne by done. by eapply Hres.
Qed.

(** In a store where CS102 requires CS101 and CS103 requires both, every
    prerequisite is a stored module.  Deleting CS103, which no module
    requires, succeeds and leaves CS102 requiring CS101, which is still
    in the store. *)
Lemma deleteModule_keeps_prerequisites_witness :
  let s' := snd (ModuleAdmin.deleteModule Sample.idM4 true linkedCatalog) in
  prerequisitesResolve linkedCatalog /\
  map Mod._id (modules s') = [Sample.idM1; Sample.idM2] /\
  map Mod.prerequisites (modules s') = [[]; [Sample.idM1]] /\
  prerequisitesResolve s'.
Proof.
  assert (prerequisitesResolve linkedCatalog) as Hlinked.
  { intros m p Hm Hp.
    repeat (apply elem_of_cons in Hm as [->|Hm];
            [repeat (apply elem_of_cons in Hp as [->|Hp];
                     [eexists; vm_compute; reflexivity|]);
             inversion Hp|]).
    inversion Hm. }
  split; [exact Hlinked|]. split; [reflexivity|]. split; [reflexivity|].
  exact (deleteModule_keeps_prerequisites Sample.idM4 true linkedCatalog Hlinked).
Defined.

(** ** Unique keys under insert and save *)

Section UniqueKeys.
Context {D K : Type} (idOf : D -> ObjectId) (key : D -> K).

Lemma NoDup_key_insert (d : D) (l : list D) :
  NoDup (map key l) ->
  (forall x, x ∈ l -> key x <> key d) ->
  NoDup (map key (l ++ [d])).
Proof.
  intros Hnd Hfree. rewrite map_app. simpl. apply NoDup_app.
  split; [done|]. split; [|apply NoDup_singleton].
  intros k Hk Hk'. apply list_elem_of_singleton in Hk' as ->.
  apply list_elem_of_fmap in Hk as (x & Hkey & Hx). by apply (Hfree x Hx).
Qed.

Lemma NoDup_key_replaceOne (d : D) (l : list D) :
  NoDup (map idOf l) ->
  NoDup (map key l) ->
  (forall x, x ∈ l -> idOf x <> idOf d -> key x <> key d) ->
  NoDup (map key (replaceOne idOf d l)).
Proof.
  induction l as [|x r IH]; simpl; intros Hids Hkeys Hfree; [constructor|].
  apply NoDup_cons in Hids as [Hid Hids]. apply NoDup_cons in Hkeys as [Hkey Hkeys].
  case_bool_decide as Hx; simpl; apply NoDup_cons.
  - split; [|done]. intros Hin. apply list_elem_of_fmap in Hin as (y & Hy & Hyr).
    apply (Hfree y); [by constructor | | done].
    intros Hyid. apply Hid. rewrite Hx, <- Hyid. apply list_elem_of_fmap. by exists y.
  - split.
    + intros Hin. apply list_elem_of_fmap in Hin as (y & Hy & Hyr).
      apply elem_of_replaceOne in Hyr as [Hyr| ->].
      * apply Hkey. rewrite Hy. apply list_elem_of_fmap. by exists y.
      * by apply (Hfree x); [constructor | |].
    + apply IH; [done | done |]. intros y Hy. apply Hfree. by constructor.
Qed.

End UniqueKeys.

(** ** Departments *)

Section DepartmentFacts.
Import DepartmentAdmin.

Lemma nameOrCode_true (name code : string) (x : Department.t) :
  nameOrCode name code x = true <->
  Department.name x = setName name \/ Department.code x = setCode code.
Proof.
  unfold nameOrCode. by rewrite orb_true_iff, !bool_decide_eq_true.
Qed.

(** The document that [createDepartment] builds from a body. *)
Definition departmentOf (b : Body) (newId : ObjectId) (now : Z) : Department.t :=
  {| Department._id := newId;
     Department.name := setName (name b);
     Department.code := setCode (toUpperCase (code b));
     Department.description := setText (description b);
     Department.headOfDepartment := setText (headOfDepartment b);
     Department.establishedDate := now;
     Department.isActive := true |}.

Lemma validate_None (d : Department.t) :
  validate d = None <->
  Department.name d <> EmptyString /\ Department.code d <> EmptyString.
Proof.
  unfold validate, truthy.
  destruct (bool_decide (Department.name d = EmptyString)) eqn:Hn; simpl.
  { apply bool_decide_eq_true in Hn. split; [done | by intros [? _]]. }
  apply bool_decide_eq_false in Hn.
  destruct (bool_decide (Department.code d = EmptyString)) eqn:Hc; simpl.
  { apply bool_decide_eq_true in Hc. split; [done | by intros [_ ?]]. }
  by apply bool_decide_eq_false in Hc.
Qed.

(** A new document is stored exactly when it passes validation and no
    stored document holds its name or its code. *)
Lemma insert_inr (d : Department.t) (l : list Department.t) :
  match insert d l with
  | inl _ =>
      ~ (validate d = None /\
         forall x, x ∈ l ->
           Department.name x <> Department.name d /\
           Department.code x <> Department.code d)
  | inr l' =>
      l' = l ++ [d] /\ validate d = None /\
      forall x, x ∈ l ->
        Department.name x <> Department.name d /\
        Department.code x <> Department.code d
  end.
Proof.
  unfold insert. destruct (validate d) eqn:Hvalid; [by intros [? _]|].
  rewrite findOne_existsb.
  destruct (findOne (sameKey d) l) as [x|] eqn:Hkey; simpl.
  - apply findOne_Some in Hkey as [Hx Hkey]. unfold sameKey in Hkey.
    apply orb_true_iff in Hkey. rewrite !bool_decide_eq_true in Hkey.
    intros [_ Hfree]. destruct (Hfree x Hx) as [Hn Hc]. by destruct Hkey.
  - split; [done|]. split; [done|]. rewrite findOne_None in Hkey.
    intros x Hx. specialize (Hkey x Hx). unfold sameKey in Hkey.
    apply orb_false_iff in Hkey as [Hn Hc].
    by apply bool_decide_eq_false in Hn, Hc.
Qed.

End DepartmentFacts.

(** X8: [createDepartment] answers that the name or code exists, a
    DuplicateKey, exactly when a department of the store has the name
    of the form or its code, each as the setters of the schema cast it.
    It succeeds exactly when there is no such department, the name and
    the code of the new document are not empty, and no department holds
    the code of the new document, which is the upper-cased code of the
    form as the setters cast it; it then appends that one document.  A
    request that does not succeed writes nothing. *)
Theorem createDepartment_outcome (b : DepartmentAdmin.Body) (newId : ObjectId)
    (now : Z) (s : Store) :
  let r := DepartmentAdmin.createDepartment b newId now s in
  let text := "Department with this name or code already exists" in
  let d := departmentOf b newId now in
  let found :=
    exists x, x ∈ departments s /\
      (Department.name x = DepartmentAdmin.setName (DepartmentAdmin.name b) \/
       Department.code x = DepartmentAdmin.setCode (DepartmentAdmin.code b)) in
  (reports (fst r) text <-> found) /\
  (reports (fst r) text -> errorKind (fst r) = Some DuplicateKey) /\
  (isSuccess (fst r) = true <->
   ~ found /\
   Department.name d <> EmptyString /\ Department.code d <> EmptyString /\
   forall x, x ∈ departments s -> Department.code x <> Department.code d) /\
  (isSuccess (fst r) = true -> snd r = setDepartments (departments s ++ [d]) s) /\
  (isSuccess (fst r) = false -> snd r = s).
Proof.
  intros r text d found. subst r text found.
  unfold DepartmentAdmin.createDepartment.
  destruct (findOne _ _) as [x|] eqn:Hpre.
  - apply findOne_Some in Hpre as [Hx Hkey]. apply nameOrCode_true in Hkey.
    assert (exists x, x ∈ departments s /\
              (Department.name x = DepartmentAdmin.setName (DepartmentAdmin.name b) \/
               Department.code x = DepartmentAdmin.setCode (DepartmentAdmin.code b)))
      as Hfound by (by exists x).
    simpl. split; [|split; [|split; [|split]]].
    + split; [done | intros _; by destruct (DepartmentAdmin.acceptsJson b)].
    + intros _. by destruct (DepartmentAdmin.acceptsJson b).
    + split; [by destruct (DepartmentAdmin.acceptsJson b) | by intros [Hno _]].
    + by destruct (DepartmentAdmin.acceptsJson b).
    + done.
  - rewrite findOne_None in Hpre.
    assert (~ exists x, x ∈ departments s /\
              (Department.name x = DepartmentAdmin.setName (DepartmentAdmin.name b) \/
               Department.code x = DepartmentAdmin.setCode (DepartmentAdmin.code b)))
      as Hfree.
    { intros (x & Hx & Hkey). apply (nameOrCode_true _ _ x) in Hkey.
      rewrite (Hpre x Hx) in Hkey. done. }
    change (DepartmentAdmin.insert _ (departments s))
      with (DepartmentAdmin.insert d (departments s)).
    change (jsonDoc 201 _) with (jsonDoc 201 d).
    pose proof (insert_inr d (departments s)) as Hins.
    destruct (DepartmentAdmin.insert d (departments s)) as [err|l]; simpl.
    + split; [|split; [|split; [|split]]].
      * split; [done | intros ?; by apply Hfree].
      * done.
      * split; [done|]. intros (_ & Hn & Hc & Hcodes). destruct Hins.
        split; [by apply validate_None|]. intros x Hx. split; [|by apply Hcodes].
        intros Hname. apply Hfree. exists x. split; [done|]. by left.
      * done.
      * done.
    + destruct Hins as (-> & Hvalid & Hkeys). apply validate_None in Hvalid as [Hn Hc].
      split; [|split; [|split; [|split]]].
      * split; [|done].
        destruct (DepartmentAdmin.acceptsJson b); simpl; [tauto | discriminate].
      * destruct (DepartmentAdmin.acceptsJson b); simpl; [tauto | discriminate].
      * split; [|intros _; by destruct (DepartmentAdmin.acceptsJson b)].
        intros _. split; [done|]. split; [done|]. split; [done|].
        intros x Hx. by destruct (Hkeys x Hx).
      * done.
      * by destruct (DepartmentAdmin.acceptsJson b).
Qed.

(** Without a department under its name or code, a form passes when
    upper-casing the code before the setter changes nothing, as for the
    code [phys]. *)
Example createDepartment_example :
  let b := {| DepartmentAdmin.name := "Physics"; DepartmentAdmin.code := "phys";
              DepartmentAdmin.description := EmptyString;
              DepartmentAdmin.headOfDepartment := EmptyString;
              DepartmentAdmin.isActive := EmptyString;
              DepartmentAdmin.acceptsJson := true |} in
  let r := DepartmentAdmin.createDepartment b Sample.idPhysics 0 Sample.campus in
  isSuccess (fst r) = true /\
  map Department.code (departments (snd r)) = ["CS"; "PHYS"] /\
  reports (fst (DepartmentAdmin.createDepartment b Sample.idNew 0 (snd r)))
    "Department with this name or code already exists".
Proof. vm_compute. repeat split. Qed.

(** X9: department names and codes stay pairwise distinct: a create
    request keeps them so, and with pairwise distinct ids so does an
    update request, which also keeps the ids of the collection. *)
Theorem department_keys_stay_unique (b : DepartmentAdmin.Body) (newId id : ObjectId)
    (now : Z) (s : Store) :
  NoDup (map Department.name (departments s)) ->
  NoDup (map Department.code (departments s)) ->
  let created := snd (DepartmentAdmin.createDepartment b newId now s) in
  let updated := snd (DepartmentAdmin.updateDepartment id b s) in
  (NoDup (map Department.name (departments created)) /\
   NoDup (map Department.code (departments created))) /\
  map Department._id (departments updated) = map Department._id (departments s) /\
  (NoDup (map Department._id (departments s)) ->
   NoDup (map Department.name (departments updated)) /\
   NoDup (map Department.code (departments updated))).
Proof.
  intros Hnames Hcodes created updated. subst created updated. split; [|split].
  - unfold DepartmentAdmin.createDepartment.
    destruct (findOne _ _); [done|].
    unfold DepartmentAdmin.insert. destruct (DepartmentAdmin.validate _); [done|].
    destruct (existsb _ _) eqn:Hex; [done|]. simpl.
    rewrite findOne_existsb in Hex. apply negb_false_iff in Hex.
    destruct (findOne _ (departments s)) eqn:Hfree; [done|].
    rewrite findOne_None in Hfree.
    split; apply NoDup_key_insert; try done; intros x Hx Heq;
      specialize (Hfree x Hx); unfold DepartmentAdmin.sameKey in Hfree;
      apply orb_false_iff in Hfree as [H1 H2];
      apply bool_decide_eq_false in H1, H2; done.
  - unfold DepartmentAdmin.updateDepartment.
    destruct (findById _ _ _); [|done]. destruct (findOne _ _); [done|].
    unfold DepartmentAdmin.save. destruct (DepartmentAdmin.validate _); [done|].
    destruct (existsb _ _); [done|]. simpl. apply map_replaceOne.
  - intros Hids. unfold DepartmentAdmin.updateDepartment.
    destruct (findById _ _ _); [|done]. destruct (findOne _ _); [done|].
    unfold DepartmentAdmin.save. destruct (DepartmentAdmin.validate _); [done|].
    destruct (existsb _ _) eqn:Hex; [done|]. simpl.
    rewrite findOne_existsb in Hex. apply negb_false_iff in Hex.
    destruct (findOne _ (departments s)) eqn:Hfree; [done|].
    rewrite findOne_None in Hfree.
    split; apply (NoDup_key_replaceOne Department._id); try done;
      intros x Hx Hid Heq; specialize (Hfree x Hx);
      apply andb_false_iff in Hfree as [Hfree|Hfree];
      try (apply negb_false_iff, bool_decide_eq_true in Hfree; done);
      unfold DepartmentAdmin.sameKey in Hfree;
      apply orb_false_iff in Hfree as [H1 H2];
      apply bool_decide_eq_false in H1, H2; done.
Qed.

(** The sample campus has one department; a second one under another
    name and code is appended, and the names stay distinct. *)
Lemma department_keys_stay_unique_witness :
  let b := {| DepartmentAdmin.name := " Physics ";
              DepartmentAdmin.code := "phy";
              DepartmentAdmin.description := EmptyString;
              DepartmentAdmin.headOfDepartment := EmptyString;
              DepartmentAdmin.isActive := EmptyString;
              DepartmentAdmin.acceptsJson := true |} in
  map Department.name
    (departments (snd (DepartmentAdmin.createDepartment b Sample.idPhysics 0
                         Sample.campus)))
  = ["Computer Science"; "Physics"] /\
  NoDup (map Department.name
           (departments (snd (DepartmentAdmin.createDepartment b Sample.idPhysics 0
                                Sample.campus)))).
Proof.
  intros b. split; [reflexivity|].
  refine (proj1 (proj1 (department_keys_stay_unique b Sample.idPhysics Sample.idCS 0
                          Sample.campus _ _))); apply NoDup_singleton.
Defined.

(** ** What each write request changes *)

Section Shapes.

Lemma createDepartment_shape (b : DepartmentAdmin.Body) (newId : ObjectId) (now : Z)
    (s : Store) :
  let s' := snd (DepartmentAdmin.createDepartment b newId now s) in
  courses s' = courses s /\ modules s' = modules s /\
  (departments s' = departments s \/ exists d, departments s' = departments s ++ [d]).
Proof.
  unfold DepartmentAdmin.createDepartment.
  destruct (findOne _ _); [by auto|].
  destruct (DepartmentAdmin.insert _ _) as [err|l] eqn:Hins; [by auto|].
  unfold DepartmentAdmin.insert in Hins.
  destruct (DepartmentAdmin.validate _); [done|]. destruct (existsb _ _); [done|].
  injection Hins as <-. simpl. split; [done|]. split; [done|]. right. by eexists.
Qed.

Lemma updateDepartment_shape (id : ObjectId) (b : DepartmentAdmin.Body) (s : Store) :
  let s' := snd (DepartmentAdmin.updateDepartment id b s) in
  courses s' = courses s /\ modules s' = modules s /\
  (departments s' = departments s \/
   exists d, departments s' = replaceOne Department._id d (departments s)).
Proof.
  unfold DepartmentAdmin.updateDepartment.
  destruct (findById _ _ _); [|by auto]. destruct (findOne _ _); [by auto|].
  destruct (DepartmentAdmin.save _ _) as [err|l] eqn:Hsave; [by auto|].
  unfold DepartmentAdmin.save in Hsave.
  destruct (DepartmentAdmin.validate _); [done|]. destruct (existsb _ _); [done|].
  injection Hsave as <-. simpl. split; [done|]. split; [done|]. right. by eexists.
Qed.

Lemma deleteDepartment_shape (id : ObjectId) (acceptsJson : bool) (s : Store) :
  let s' := snd (DepartmentController.deleteDepartment id acceptsJson s) in
  modules s' = modules s /\
  (s' = s \/
   ((forall c, c ∈ courses s -> Course.department c <> id) /\
    courses s' = courses s /\
    departments s' = deleteOne Department._id id (departments s))).
Proof.
  unfold DepartmentController.deleteDepartment.
  destruct (findById _ _ _) as [d|] eqn:Hfind; [|by auto].
  destruct (findById_Some _ _ _ _ Hfind) as [_ Hid]. rewrite Hid.
  destruct (0 <? _)%nat eqn:Hcount; [by auto|].
  apply Nat.ltb_ge in Hcount.
  assert (countDocuments (ofDepartment id) (courses s) = 0) as Hzero by lia.
  simpl. split; [done|]. right. unfold DepartmentModel.remove. simpl. rewrite Hid.
  rewrite (deleteMany_none _ _ Hzero). split; [|done].
  rewrite countDocuments_zero in Hzero. intros c Hc Hdep.
  apply ofDepartment_true in Hdep. rewrite (Hzero c Hc) in Hdep. done.
Qed.

Lemma createCourse_shape (req : CourseController.CreateRequest) (newId : ObjectId)
    (s : Store) :
  let s' := snd (CourseController.createCourse req newId s) in
  departments s' = departments s /\ modules s' = modules s /\
  (courses s' = courses s \/
   exists c, courses s' = courses s ++ [c] /\ CourseModel.preSave s c = None /\
             (forall x, x ∈ courses s -> Course.code x <> Course.code c)).
Proof.
  unfold CourseController.createCourse.
  destruct (findOne _ _); [by auto|]. destruct (CourseController.notAfter _ _); [by auto|].
  destruct (CourseModel.insert _ _) as [err|l] eqn:Hins; [by auto|].
  unfold CourseModel.insert in Hins.
  destruct (CourseModel.validate _); [done|].
  destruct (CourseModel.preSave _ _) eqn:Hhook; [done|].
  destruct (existsb _ _) eqn:Hex; [done|].
  injection Hins as <-. simpl. split; [done|]. split; [done|]. right.
  eexists. split; [done|]. split; [done|].
  rewrite findOne_existsb in Hex. apply negb_false_iff in Hex.
  destruct (findOne _ (courses s)) eqn:Hfree; [done|].
  rewrite findOne_None in Hfree. intros x Hx.
  exact (proj1 (bool_decide_eq_false _) (Hfree x Hx)).
Qed.

Lemma updateCourse_shape (id : ObjectId) (req : CourseController.CreateRequest)
    (isActive : string) (s : Store) :
  let r := CourseAdmin.updateCourse id req isActive s in
  departments (snd r) = departments s /\ modules (snd r) = modules s /\
  ((isSuccess (fst r) = false /\ courses (snd r) = courses s) \/
   exists c, isSuccess (fst r) = true /\
             courses (snd r) = replaceOne Course._id c (courses s) /\
             is_Some (findById Course._id (courses s) id) /\
             Course._id c = id /\
             Course.department c = CourseController.department req /\
             CourseModel.preSave s c = None /\
             (forall x, x ∈ courses s -> Course._id x <> Course._id c ->
                        Course.code x <> Course.code c)).
Proof.
  unfold CourseAdmin.updateCourse.
  destruct (findById _ _ _) as [stored|] eqn:Hfind.
  2:{ simpl. split; [done|]. split; [done|]. left.
      by destruct (CourseController.acceptsJson req). }
  destruct (findById_Some _ _ _ _ Hfind) as [_ Hid].
  destruct (findOne _ _).
  { simpl. split; [done|]. split; [done|]. left.
    by destruct (CourseController.acceptsJson req). }
  destruct (CourseController.notAfter _ _).
  { simpl. split; [done|]. split; [done|]. left.
    by destruct (CourseController.acceptsJson req). }
  destruct (CourseAdmin.save _ _) as [err|l] eqn:Hsave.
  { simpl. by auto. }
  unfold CourseAdmin.save in Hsave.
  destruct (CourseModel.validate _); [done|].
  destruct (CourseModel.preSave _ _) eqn:Hhook; [done|].
  destruct (existsb _ _) eqn:Hex; [done|].
  injection Hsave as <-. simpl. split; [done|]. split; [done|]. right.
  eexists. split; [by destruct (CourseController.acceptsJson req)|].
  split; [done|]. split; [by eexists|]. split; [done|]. split; [done|].
  split; [done|].
  rewrite findOne_existsb in Hex. apply negb_false_iff in Hex.
  destruct (findOne _ (courses s)) eqn:Hfree; [done|].
  rewrite findOne_None in Hfree. intros x Hx Hne.
  specialize (Hfree x Hx). apply andb_false_iff in Hfree as [Hfree|Hfree].
  - apply negb_false_iff, bool_decide_eq_true in Hfree. done.
  - by apply bool_decide_eq_false in Hfree.
Qed.

Lemma deleteCourse_shape (id : ObjectId) (acceptsJson : bool) (s : Store) :
  let s' := snd (CourseController.deleteCourse id acceptsJson s) in
  departments s' = departments s /\ modules s' = modules s /\
  (courses s' = courses s \/
   ((forall m, m ∈ modules s -> Mod.course m <> id) /\
    courses s' = deleteOne Course._id id (courses s))).
Proof.
  unfold CourseController.deleteCourse.
  destruct (findById _ _ _) as [c|] eqn:Hfind; [|by auto].
  destruct (findById_Some _ _ _ _ Hfind) as [_ Hid]. rewrite Hid.
  destruct (0 <? _)%nat eqn:Hcount; [by auto|].
  apply Nat.ltb_ge in Hcount.
  assert (countDocuments (ofCourse id) (modules s) = 0) as Hzero by lia.
  simpl. split; [done|]. split; [done|]. right. split; [|done].
  rewrite countDocuments_zero in Hzero. intros m Hm Hc.
  apply ofCourse_true in Hc. rewrite (Hzero m Hm) in Hc. done.
Qed.

Lemma createModule_shape (b : ModuleController.Body) (newId : ObjectId) (s : Store) :
  let s' := snd (ModuleController.createModule b newId s) in
  departments s' = departments s /\ courses s' = courses s /\
  (modules s' = modules s \/
   exists m, modules s' = modules s ++ [m] /\ ModuleModel.preSave s m = None /\
             (forall x, x ∈ modules s -> Mod.code x <> Mod.code m)).
Proof.
  unfold ModuleController.createModule.
  destruct (findOne _ _); [by auto|].
  destruct (ModuleController.weightsOff _); [by auto|].
  destruct (ModuleModel.insert _ _) as [err|l] eqn:Hins; [by auto|].
  unfold ModuleModel.insert in Hins.
  destruct (ModuleModel.validate _); [done|].
  destruct (ModuleModel.preSave _ _) eqn:Hhook; [done|].
  destruct (existsb _ _) eqn:Hex; [done|].
  injection Hins as <-. simpl. split; [done|]. split; [done|]. right.
  eexists. split; [done|]. split; [done|].
  rewrite findOne_existsb in Hex. apply negb_false_iff in Hex.
  destruct (findOne _ (modules s)) eqn:Hfree; [done|].
  rewrite findOne_None in Hfree. intros x Hx.
  exact (proj1 (bool_decide_eq_false _) (Hfree x Hx)).
Qed.

Lemma updateModule_shape (id : ObjectId) (b : ModuleController.Body) (s : Store) :
  let s' := snd (ModuleController.updateModule id b s) in
  departments s' = departments s /\ courses s' = courses s /\
  (modules s' = modules s \/
   exists m, modules s' = replaceOne Mod._id m (modules s) /\
             ModuleModel.preSave s m = None /\
             (forall x, x ∈ modules s -> Mod._id x <> Mod._id m ->
                        Mod.code x <> Mod.code m)).
Proof.
  unfold ModuleController.updateModule.
  destruct (findById _ _ _); [|by auto]. destruct (findOne _ _); [by auto|].
  destruct (ModuleController.weightsOff _); [by auto|].
  destruct (ModuleModel.save _ _) as [err|l] eqn:Hsave; [by auto|].
  unfold ModuleModel.save in Hsave.
  destruct (ModuleModel.validate _); [done|].
  destruct (ModuleModel.preSave _ _) eqn:Hhook; [done|].
  destruct (existsb _ _) eqn:Hex; [done|].
  injection Hsave as <-. simpl. split; [done|]. split; [done|]. right.
  eexists. split; [done|]. split; [done|].
  rewrite findOne_existsb in Hex. apply negb_false_iff in Hex.
  destruct (findOne _ (modules s)) eqn:Hfree; [done|].
  rewrite findOne_None in Hfree. intros x Hx Hne.
  specialize (Hfree x Hx). apply andb_false_iff in Hfree as [Hfree|Hfree].
  - apply negb_false_iff, bool_decide_eq_true in Hfree. done.
  - by apply bool_decide_eq_false in Hfree.
Qed.

Lemma deleteModule_shape (id : ObjectId) (acceptsJson : bool) (s : Store) :
  let s' := snd (ModuleAdmin.deleteModule id acceptsJson s) in
  departments s' = departments s /\ courses s' = courses s /\
  (modules s' = modules s \/ modules s' = deleteOne Mod._id id (modules s)).
Proof.
  unfold ModuleAdmin.deleteModule.
  destruct (findById _ _ _) as [m|] eqn:Hfind; [|by auto].
  destruct (findById_Some _ _ _ _ Hfind) as [_ Hid]. rewrite Hid.
  destruct (findOne _ _) eqn:Hlists; [by auto|].
  rewrite findOne_None in Hlists. simpl. split; [done|]. split; [done|]. right.
  rewrite Hid. by rewrite (pullFromAll_unlisted id (modules s) Hlists).
Qed.

Lemma preSave_resolves (s : Store) (m : Mod.t) :
  ModuleModel.preSave s m = None ->
  exists c, findById Course._id (courses s) (Mod.course m) = Some c /\
            Course.department c = Mod.department m /\
            is_Some (findById Department._id (departments s) (Mod.department m)).
Proof.
  unfold ModuleModel.preSave.
  destruct (findById Course._id _ _) as [c|]; [|done].
  destruct (findById Department._id _ _) as [d|]; [|done].
  case_bool_decide as Hdep; [|done]. intros _. exists c. by eauto.
Qed.

Lemma course_preSave_resolves (s : Store) (c : Course.t) :
  CourseModel.preSave s c = None ->
  is_Some (findById Department._id (departments s) (Course.department c)).
Proof.
  unfold CourseModel.preSave. by destruct (findById _ _ _); [eexists|].
Qed.

End Shapes.

(** ** Referential integrity under the write requests *)

(** X10: when every course names a department of the store, the same
    holds after any write request of an administrator: no handler,
    department delete and course update included, leaves a course
    without its department. *)
Theorem courses_keep_departments (op : AdminOp) (s : Store) :
  coursesResolve s -> coursesResolve (runAdmin op s).
Proof.
  intros Hres. destruct op; simpl.
  - destruct (createDepartment_shape b newId now s) as (Hc & _ & [Hd|[d Hd]]);
      intros c Hin; rewrite Hc in Hin; rewrite Hd; [by apply Hres|].
    apply findById_is_Some_app. by apply Hres.
  - destruct (updateDepartment_shape id b s) as (Hc & _ & [Hd|[d Hd]]);
      intros c Hin; rewrite Hc in Hin; rewrite Hd; [by apply Hres|].
    apply findById_replaceOne_is_Some. by apply Hres.
  - destruct (deleteDepartment_shape id acceptsJson s) as (_ & [->|(Hnone & Hc & Hd)]);
      [done|].
    intros c Hin. rewrite Hc in Hin. rewrite Hd.
    rewrite findById_deleteOne_ne by (by apply Hnone). by apply Hres.
  - destruct (createCourse_shape req newId s) as (Hd & _ & [Hc|(c0 & Hc & Hhook & _)]);
      intros c Hin; rewrite Hc in Hin; rewrite Hd; [by apply Hres|].
    apply elem_of_app in Hin as [Hin|Hin]; [by apply Hres|].
    apply list_elem_of_singleton in Hin as ->. by apply course_preSave_resolves.
  - destruct (updateCourse_shape id req isActive s)
      as (Hd & _ & [[_ Hc]|(c0 & _ & Hc & _ & _ & _ & Hhook & _)]);
      intros c Hin; rewrite Hc in Hin; rewrite Hd; [by apply Hres|].
    apply elem_of_replaceOne in Hin as [Hin| ->]; [by apply Hres|].
    by apply course_preSave_resolves.
  - destruct (deleteCourse_shape id acceptsJson s) as (Hd & _ & [Hc|[_ Hc]]);
      intros c Hin; rewrite Hc in Hin; rewrite Hd; [by apply Hres|].
    apply deleteOne_subset in Hin. by apply Hres.
  - destruct (createModule_shape b newId s) as (Hd & Hc & _).
    intros c Hin. rewrite Hc in Hin. rewrite Hd. by apply Hres.
  - destruct (updateModule_shape id b s) as (Hd & Hc & _).
    intros c Hin. rewrite Hc in Hin. rewrite Hd. by apply Hres.
  - destruct (deleteModule_shape id acceptsJson s) as (Hd & Hc & _).
    intros c Hin. rewrite Hc in Hin. rewrite Hd. by apply Hres.
Qed.

(** The course of the sample campus names CS, which is in the store;
    a refused delete of CS keeps it so. *)
Lemma courses_keep_departments_witness :
  coursesResolve (runAdmin (DeleteDepartment Sample.idCS true) Sample.campus).
Proof.
  apply courses_keep_departments. intros c Hc.
  apply list_elem_of_singleton in Hc as ->. eexists. reflexivity.
Defined.

(** X11: when every module names a course of the store and the
    department of that course, the same holds after every write request
    other than a course update: creates, module and department updates
    and the three guarded deletes leave no module without its course or
    with another department than its course. *)
Theorem modules_keep_references (op : AdminOp) (s : Store) :
  (forall id req isActive, op <> UpdateCourse id req isActive) ->
  modulesResolve s -> modulesResolve (runAdmin op s).
Proof.
  intros Hop Hres. destruct op; simpl.
  - destruct (createDepartment_shape b newId now s) as (Hc & Hm & [Hd|[d Hd]]);
      intros m Hin; rewrite Hm in Hin; rewrite Hc, Hd; [by apply Hres|].
    destruct (Hres m Hin) as (c & Hfc & Hdep & Hfd).
    exists c. split; [done|]. split; [done|]. by apply findById_is_Some_app.
  - destruct (updateDepartment_shape id b s) as (Hc & Hm & [Hd|[d Hd]]);
      intros m Hin; rewrite Hm in Hin; rewrite Hc, Hd; [by apply Hres|].
    destruct (Hres m Hin) as (c & Hfc & Hdep & Hfd).
    exists c. split; [done|]. split; [done|]. by apply findById_replaceOne_is_Some.
  - destruct (deleteDepartment_shape id acceptsJson s)
      as (Hm & [->|(Hnone & Hc & Hd)]); [done|].
    intros m Hin. rewrite Hm in Hin. rewrite Hc, Hd.
    destruct (Hres m Hin) as (c & Hfc & Hdep & Hfd).
    exists c. split; [done|]. split; [done|].
    rewrite findById_deleteOne_ne; [done|].
    rewrite <- Hdep. apply Hnone. by apply (findById_Some _ _ _ _ Hfc).
  - destruct (createCourse_shape req newId s) as (Hd & Hm & [Hc|(c0 & Hc & _)]);
      intros m Hin; rewrite Hm in Hin; rewrite Hc, Hd; [by apply Hres|].
    destruct (Hres m Hin) as (c & Hfc & Hdep & Hfd).
    exists c. split; [|done]. unfold findById in *. by rewrite findOne_app, Hfc.
  - by destruct (Hop id req isActive).
  - destruct (deleteCourse_shape id acceptsJson s) as (Hd & Hm & [Hc|[Hnone Hc]]);
      intros m Hin; rewrite Hm in Hin; rewrite Hc, Hd; [by apply Hres|].
    destruct (Hres m Hin) as (c & Hfc & Hdep & Hfd).
    exists c. split; [|done].
    rewrite findById_deleteOne_ne; [done | by apply Hnone].
  - destruct (createModule_shape b newId s) as (Hd & Hc & [Hm|(m0 & Hm & Hhook & _)]);
      intros m Hin; rewrite Hm in Hin; rewrite Hc, Hd; [by apply Hres|].
    apply elem_of_app in Hin as [Hin|Hin]; [by apply Hres|].
    apply list_elem_of_singleton in Hin as ->. by apply preSave_resolves.
  - destruct (updateModule_shape id b s) as (Hd & Hc & [Hm|(m0 & Hm & Hhook & _)]);
      intros m Hin; rewrite Hm in Hin; rewrite Hc, Hd; [by apply Hres|].
    apply elem_of_replaceOne in Hin as [Hin| ->]; [by apply Hres|].
    by apply preSave_resolves.
  - destruct (deleteModule_shape id acceptsJson s) as (Hd & Hc & [Hm|Hm]);
      intros m Hin; rewrite Hm in Hin; rewrite Hc, Hd; [by apply Hres|].
    apply deleteOne_subset in Hin. by apply Hres.
Qed.

(** In the store of the catalog example without the orphan, M1 and M2
    name CS101 and CS; the refused delete of CS101 keeps it so. *)
Lemma modules_keep_references_witness :
  modulesResolve
    (runAdmin (DeleteCourse Sample.idCS101 true)
       (setModules [Sample.M1; Sample.M2] Sample.campus)).
Proof.
  apply modules_keep_references; [done|].
  intros m Hm. exists Sample.CS101.
  repeat (apply elem_of_cons in Hm as [->|Hm];
          [split; [reflexivity|]; split; [reflexivity|]; eexists; reflexivity|]).
  inversion Hm.
Defined.

(** X12: a course update is the one write request that can break this:
    when it succeeds on a course that a module references and the form
    names another department than the module, the module no longer
    names the department of its course. *)
Theorem updateCourse_splits_module (id : ObjectId)
    (req : CourseController.CreateRequest) (isActive : string) (s : Store)
    (m : Mod.t) :
  m ∈ modules s ->
  Mod.course m = id ->
  CourseController.department req <> Mod.department m ->
  isSuccess (fst (CourseAdmin.updateCourse id req isActive s)) = true ->
  ~ modulesResolve (snd (CourseAdmin.updateCourse id req isActive s)).
Proof.
  intros Hm Hcourse Hdep Hok Hres.
  destruct (updateCourse_shape id req isActive s)
    as (_ & Hmods & [[Hfail _]|(c & _ & Hc & [stored Hstored] & Hid & Hcdep & _)]).
  { simpl in Hfail. congruence. }
  destruct (Hres m) as (c' & Hfc & Hdep' & _); [by rewrite Hmods|].
  rewrite Hc, Hcourse in Hfc.
  rewrite (findById_replaceOne Course._id _ id stored c Hstored Hid) in Hfc.
  injection Hfc as <-. congruence.
Qed.

(** CS101 has the module M1 in CS; with Physics in the store, moving
    CS101 to Physics succeeds and M1 is left naming CS. *)
Lemma updateCourse_splits_module_witness :
  let req := {| CourseController.name := "Introduction to Computing";
                CourseController.code := "cs101";
                CourseController.department := Sample.idPhysics;
                CourseController.duration := Some 3%Z;
                CourseController.description := EmptyString;
                CourseController.credits := Some 120%Z;
                CourseController.fee := 1000%float;
                CourseController.startDate := Some 1000%Z;
                CourseController.endDate := DateAt 2000;
                CourseController.acceptsJson := true |} in
  let s := setModules [Sample.M1] Sample.twoDepartments in
  ~ modulesResolve (snd (CourseAdmin.updateCourse Sample.idCS101 req "on" s)).
Proof.
  intros req s.
  apply (updateCourse_splits_module Sample.idCS101 req "on" s Sample.M1).
  - constructor.
  - reflexivity.
  - discriminate.
  - reflexivity.
Defined.

(** ** Unique codes *)

(** X13: course codes and module codes stay pairwise distinct: a create
    request keeps them so, and with pairwise distinct ids so does an
    update request, which keeps the ids of its collection. *)
Theorem codes_stay_unique (s : Store)
    (creq : CourseController.CreateRequest) (cid cnew : ObjectId) (isActive : string)
    (mb : ModuleController.Body) (mid mnew : ObjectId) :
  NoDup (map Course.code (courses s)) ->
  NoDup (map Mod.code (modules s)) ->
  NoDup (map Course.code (courses (snd (CourseController.createCourse creq cnew s)))) /\
  NoDup (map Mod.code (modules (snd (ModuleController.createModule mb mnew s)))) /\
  map Course._id (courses (snd (CourseAdmin.updateCourse cid creq isActive s)))
    = map Course._id (courses s) /\
  map Mod._id (modules (snd (ModuleController.updateModule mid mb s)))
    = map Mod._id (modules s) /\
  (NoDup (map Course._id (courses s)) ->
   NoDup (map Course.code
            (courses (snd (CourseAdmin.updateCourse cid creq isActive s))))) /\
  (NoDup (map Mod._id (modules s)) ->
   NoDup (map Mod.code (modules (snd (ModuleController.updateModule mid mb s))))).
Proof.
  intros Hcourses Hmodules.
  destruct (createCourse_shape creq cnew s) as (_ & _ & Hcc).
  destruct (createModule_shape mb mnew s) as (_ & _ & Hcm).
  destruct (updateCourse_shape cid creq isActive s) as (_ & _ & Huc).
  destruct (updateModule_shape mid mb s) as (_ & _ & Hum).
  simpl in *. repeat split.
  - destruct Hcc as [->|(c & -> & _ & Hfree)]; [done|]. by apply NoDup_key_insert.
  - destruct Hcm as [->|(m & -> & _ & Hfree)]; [done|]. by apply NoDup_key_insert.
  - destruct Huc as [[_ ->]|(c & _ & -> & _)]; [done | apply map_replaceOne].
  - destruct Hum as [->|(m & -> & _)]; [done | apply map_replaceOne].
  - intros Hids. destruct Huc as [[_ ->]|(c & _ & -> & _ & _ & _ & _ & Hfree)]; [done|].
    by apply (NoDup_key_replaceOne Course._id).
  - intros Hids. destruct Hum as [->|(m & -> & _ & Hfree)]; [done|].
    by apply (NoDup_key_replaceOne Mod._id).
Qed.

(** The store of the catalog example has the module codes CS101, CS102
    and CS999; a form with the code cs103 adds a fourth distinct code. *)
Lemma codes_stay_unique_witness :
  NoDup (map Mod.code
           (modules (snd (ModuleController.createModule
                            (Sample.moduleForm "cs103" 60 40 0)
                            Sample.idNew Sample.catalog)))) /\
  map Mod.code
    (modules (snd (ModuleController.createModule
                     (Sample.moduleForm "cs103" 60 40 0) Sample.idNew Sample.catalog)))
  = ["CS101"; "CS102"; "CS999"; "CS103"].
Proof.
  split; [|reflexivity].
  refine (proj1 (proj2 (codes_stay_unique Sample.catalog
    {| CourseController.name := EmptyString; CourseController.code := EmptyString;
       CourseController.department := Sample.idCS;
       CourseController.duration := None; CourseController.description := EmptyString;
       CourseController.credits := None; CourseController.fee := 0%float;
       CourseController.startDate := None; CourseController.endDate := Unset;
       CourseController.acceptsJson := true |}
    Sample.idCS101 Sample.idNew EmptyString
    (Sample.moduleForm "cs103" 60 40 0) Sample.idM1 Sample.idNew _ _))).
  - apply NoDup_singleton.
  - apply (bool_decide_unpack _). by vm_compute.
Defined.

(** ** Students: create and update *)

Section StudentWriteFacts.
Variable hashPassword : string -> string.

Lemma replaceOne_same_key {D K : Type} (idOf : D -> ObjectId) (key : D -> K)
    (l : list D) (d d' : D) :
  findById idOf l (idOf d') = Some d -> key d' = key d ->
  map key (replaceOne idOf d' l) = map key l.
Proof.
  unfold findById, findOne. intros Hfind Hkey.
  induction l as [|x r IH]; simpl in *; [done|].
  case_bool_decide as Hx; simpl.
  - injection Hfind as ->. by rewrite Hkey.
  - f_equal. by apply IH.
Qed.

(** The students after an update are reached from the students before
    by successful saves. *)
Lemma updateStudent_students (P : list Student.t -> Prop)
    (req : UpdateStudentRequest) (newUserId : ObjectId) (s : Store) :
  P (students s) ->
  (forall d l l', P l -> StudentModel.save d l = inr l' -> P l') ->
  P (students (snd (updateStudent hashPassword req newUserId s))).
Proof.
  intros Hbase Hstep.
  assert (forall d s0, P (students s0) ->
            P (students (snd (resetAndAnswer hashPassword req d s0)))) as Hreset.
  { intros d s0 H0. unfold resetAndAnswer.
    destruct (Student.user d); [|done].
    destruct (truthy _); [|done]. destruct (_ <? _)%nat; [done|].
    simpl. by destruct (findById _ _ _). }
  unfold updateStudent.
  destruct (findById _ _ _) as [student|]; [|done].
  destruct (findOne _ _); [done|].
  destruct (StudentModel.save _ _) as [err|l1] eqn:Hsave1; [done|].
  assert (P l1) as H1 by (by eapply Hstep).
  destruct (_ && _); [|by apply Hreset].
  destruct (findOne _ _); [done|]. destruct (_ || _); [done|].
  destruct (User_insert _ _ _) as [err|lu]; [done|].
  destruct (StudentModel.save (withUser _ _) _) as [err|l2] eqn:Hsave2; [done|].
  apply Hreset. simpl in *. by eapply Hstep.
Qed.

Lemma User_savePassword_keys (u : User.t) (plain : string) (l : list User.t) :
  findById User._id l (User._id u) = Some u ->
  map User._id (User_savePassword hashPassword u plain l) = map User._id l /\
  map User.email (User_savePassword hashPassword u plain l) = map User.email l.
Proof.
  intros Hfind. unfold User_savePassword. split.
  - apply map_replaceOne.
  - by apply (replaceOne_same_key User._id User.email l u).
Qed.

Lemma resetAndAnswer_users (req : UpdateStudentRequest) (d : Student.t) (s : Store) :
  map User._id (users (snd (resetAndAnswer hashPassword req d s))) = map User._id (users s) /\
  map User.email (users (snd (resetAndAnswer hashPassword req d s)))
    = map User.email (users s).
Proof.
  unfold resetAndAnswer.
  destruct (Student.user d) as [uid|]; [|done].
  destruct (truthy _); [|done]. destruct (_ <? _)%nat; [done|]. simpl.
  destruct (findById User._id (users s) uid) as [u|] eqn:Hu; [|done]. simpl.
  apply User_savePassword_keys.
  by destruct (findById_Some _ _ _ _ Hu) as [_ ->].
Qed.

End StudentWriteFacts.

(** X14: an update request never adds or removes a student: the ids of
    the students are the same after it, whatever it answers.  It adds at
    most one User, under the id and the lower-cased email of the
    request and only for a student without a login; for a student that
    has a login the ids and emails of the users are unchanged. *)
Theorem updateStudent_keeps_documents (hashPassword : string -> string)
    (req : UpdateStudentRequest) (newUserId : ObjectId) (s : Store) :
  let s' := snd (updateStudent hashPassword req newUserId s) in
  map Student._id (students s') = map Student._id (students s) /\
  ((map User._id (users s') = map User._id (users s) /\
    map User.email (users s') = map User.email (users s)) \/
   (map User._id (users s') = map User._id (users s) ++ [newUserId] /\
    map User.email (users s') = map User.email (users s) ++ [toLowerCase (us_email req)] /\
    exists student, findById Student._id (students s) (us_id req) = Some student /\
                    Student.user student = None)) /\
  (forall student uid,
     findById Student._id (students s) (us_id req) = Some student ->
     Student.user student = Some uid ->
     map User._id (users s') = map User._id (users s) /\
     map User.email (users s') = map User.email (users s)).
Proof.
  intros s'. subst s'.
  split.
  { apply (updateStudent_students hashPassword
             (fun l => map Student._id l = map Student._id (students s))); [done|].
    intros d l l' Hl Hsave. apply save_ok in Hsave as ->.
    by rewrite map_replaceOne. }
  assert ((map User._id (users (snd (updateStudent hashPassword req newUserId s)))
             = map User._id (users s) /\
           map User.email (users (snd (updateStudent hashPassword req newUserId s)))
             = map User.email (users s)) \/
          (map User._id (users (snd (updateStudent hashPassword req newUserId s)))
             = map User._id (users s) ++ [newUserId] /\
           map User.email (users (snd (updateStudent hashPassword req newUserId s)))
             = map User.email (users s) ++ [toLowerCase (us_email req)] /\
           exists student,
             findById Student._id (students s) (us_id req) = Some student /\
             Student.user student = None)) as Husers.
  { unfold updateStudent.
    destruct (findById _ _ _) as [student|] eqn:Hfind; [|by left].
    destruct (findOne _ _); [by left|].
    destruct (StudentModel.save _ _) as [err|l1]; [by left|].
    destruct (bool_decide (us_createLogin req = "on") && isNone _) eqn:Hlogin.
    2:{ left. exact (resetAndAnswer_users hashPassword req _ (setStudents l1 s)). }
    apply andb_true_iff in Hlogin as [_ Hnone]. simpl in Hnone.
    destruct (findOne _ (users _)); [by left|]. destruct (_ || _); [by left|].
    destruct (User_insert _ _ _) as [err|lu] eqn:Hins; [by left|].
    unfold User_insert in Hins. destruct (existsb _ _); [done|].
    injection Hins as <-.
    assert (exists student0,
              Some student = Some student0 /\ Student.user student0 = None) as Hex.
    { exists student. by destruct (Student.user student). }
    right. destruct (StudentModel.save _ _) as [err|l2]; simpl.
    - by rewrite !map_app.
    - destruct (resetAndAnswer_users hashPassword req
                  (withUser newUserId (assignFields req student))
                  (setStudents l2
                     (setUsers (users s ++ [ {| User._id := newUserId;
                         User.name := us_name req;
                         User.email := toLowerCase (us_email req);
                         User.password := hashPassword (us_password req);
                         User.role := "student"; User.isActive := true |} ])
                        (setStudents l1 s)))) as [Hi He].
      rewrite Hi, He. simpl. by rewrite !map_app. }
  split; [exact Husers|].
  intros student uid Hfind Hlinked.
  destruct Husers as [Hsame|(_ & _ & student0 & Hfind0 & Hnone)]; [done|].
  congruence.
Qed.

(** X15: with pairwise distinct ids, distinct emails and distinct roll
    numbers among the students, an update request leaves the emails and
    the roll numbers pairwise distinct. *)
Theorem updateStudent_keeps_keys_unique (hashPassword : string -> string)
    (req : UpdateStudentRequest) (newUserId : ObjectId) (s : Store) :
  NoDup (map Student._id (students s)) ->
  NoDup (map Student.email (students s)) ->
  NoDup (map Student.rollNumber (students s)) ->
  let s' := snd (updateStudent hashPassword req newUserId s) in
  NoDup (map Student.email (students s')) /\
  NoDup (map Student.rollNumber (students s')).
Proof.
  intros Hids Hemails Hrolls s'. subst s'.
  cut (NoDup (map Student._id
                (students (snd (updateStudent hashPassword req newUserId s)))) /\
       NoDup (map Student.email
                (students (snd (updateStudent hashPassword req newUserId s)))) /\
       NoDup (map Student.rollNumber
                (students (snd (updateStudent hashPassword req newUserId s)))));
    [tauto|].
  apply (updateStudent_students hashPassword
           (fun l => NoDup (map Student._id l) /\
                     NoDup (map Student.email l) /\
                     NoDup (map Student.rollNumber l))); [done|].
  intros d l l' (Hi & He & Hr) Hsave. unfold StudentModel.save in Hsave.
  destruct (StudentModel.validate d); [done|].
  destruct (existsb _ l) eqn:Hex; [done|]. injection Hsave as <-.
  rewrite findOne_existsb in Hex. apply negb_false_iff in Hex.
  destruct (findOne _ l) eqn:Hfree; [done|]. rewrite findOne_None in Hfree.
  split; [by rewrite map_replaceOne|].
  split; apply (NoDup_key_replaceOne Student._id); try done;
    intros x Hx Hid Heq; specialize (Hfree x Hx);
    unfold StudentModel.clashes in Hfree;
    apply andb_false_iff in Hfree as [Hfree|Hfree];
    try (apply negb_false_iff, bool_decide_eq_true in Hfree; done);
    apply orb_false_iff in Hfree as [Hfree _];
    apply orb_false_iff in Hfree as [H1 H2];
    apply bool_decide_eq_false in H1, H2; done.
Qed.

(** Ada and Bob of the sample campus have distinct ids, emails and roll
    numbers; after Bob's edit the emails are still distinct. *)
Lemma updateStudent_keeps_keys_unique_witness :
  NoDup (map Student.email
           (students (snd (updateStudent Sample.hash Sample.loginForBob Sample.idNew
                             Sample.campus)))).
Proof.
  refine (proj1 (updateStudent_keeps_keys_unique Sample.hash Sample.loginForBob
                   Sample.idNew Sample.campus _ _ _));
    apply (bool_decide_unpack _); by vm_compute.
Defined.

Section CreateStudentFacts.
Variable hashPassword : string -> string.
Import StudentAdmin.

Lemma insert_ok (d : Student.t) (l l' : list Student.t) :
  insert d l = inr l' ->
  l' = l ++ [d] /\
  forall x, x ∈ l -> Student.email x <> Student.email d /\
                     Student.rollNumber x <> Student.rollNumber d.
Proof.
  unfold insert. destruct (StudentModel.validate d); [done|].
  destruct (existsb _ l) eqn:Hex; [done|]. intros [= <-]. split; [done|].
  rewrite findOne_existsb in Hex. apply negb_false_iff in Hex.
  destruct (findOne _ l) eqn:Hfree; [done|]. rewrite findOne_None in Hfree.
  intros x Hx. specialize (Hfree x Hx). unfold sameKey in Hfree.
  apply orb_false_iff in Hfree as [Hfree _].
  apply orb_false_iff in Hfree as [H1 H2].
  by apply bool_decide_eq_false in H1, H2.
Qed.

Lemma emailOrRoll_true (b : Body) (x : Student.t) :
  emailOrRoll (email b) (toUpperCase (rollNumber b)) x = true <->
  Student.email x = StudentModel.setEmail (email b) \/
  Student.rollNumber x = StudentModel.setRollNumber (toUpperCase (rollNumber b)).
Proof.
  unfold emailOrRoll. by rewrite orb_true_iff, !bool_decide_eq_true.
Qed.

(** What a create request leaves behind, by its answer. *)
Lemma createStudent_cases (b : Body) (newId newUserId : ObjectId) (now : Z) (s : Store) :
  let r := createStudent hashPassword b newId newUserId now s in
  (* answered without a write *)
  (isSuccess (fst r) = false /\ (forall err, fst r <> thrown err) /\ snd r = s /\
   (reports (fst r) "Email or Roll Number already exists" <->
    is_Some (findOne (emailOrRoll (email b) (toUpperCase (rollNumber b))) (students s))))
  \/
  (* rejected *)
  (exists err, fst r = thrown err /\ students (snd r) = students s /\
     findOne (emailOrRoll (email b) (toUpperCase (rollNumber b))) (students s) = None)
  \/
  (* created *)
  (isSuccess (fst r) = true /\
   ~ reports (fst r) "Email or Roll Number already exists" /\
   findOne (emailOrRoll (email b) (toUpperCase (rollNumber b))) (students s) = None /\
   exists student,
     insert student (students s) = inr (students (snd r)) /\
     Student._id student = newId /\
     Student.email student = StudentModel.setEmail (toLowerCase (email b)) /\
     Student.rollNumber student =
       StudentModel.setRollNumber (toUpperCase (rollNumber b)) /\
     if bool_decide (createLogin b = "on")
     then Student.user student = Some newUserId /\
          map User._id (users (snd r)) = map User._id (users s) ++ [newUserId]
     else Student.user student = None /\ users (snd r) = users s).
Proof.
  intros r. subst r. unfold createStudent.
  destruct (findOne _ (students s)) as [x|] eqn:Hpre.
  { left. simpl. split; [by destruct (acceptsJson b)|].
    split; [by destruct (acceptsJson b)|]. split; [done|].
    split; [by eexists | intros _; by destruct (acceptsJson b)]. }
  assert (forall (text : string), text <> "Email or Roll Number already exists" ->
            isSuccess (@respond Student.t (acceptsJson b) 400 text
                         "error" text "/students/new") = false /\
            (forall err, @respond Student.t (acceptsJson b) 400 text
                           "error" text "/students/new" <> thrown err) /\
            s = s /\
            (reports (@respond Student.t (acceptsJson b) 400 text
                        "error" text "/students/new")
               "Email or Roll Number already exists" <-> is_Some (@None Student.t)))
    as Hanswer.
  { intros text Hne. destruct (acceptsJson b); simpl; repeat split; try done;
      by intros [? ?]. }
  destruct (bool_decide (createLogin b = "on")) eqn:Hlogin.
  - destruct (findOne _ (users s)).
    { left. by apply (Hanswer "A user with this email already exists"). }
    destruct (_ || _).
    { left. by apply (Hanswer "Password must be at least 6 characters"). }
    destruct (User_insert _ _ _) as [err|lu] eqn:Hins.
    { right. left. by exists err. }
    unfold User_insert in Hins. destruct (existsb _ _); [done|].
    injection Hins as <-.
    destruct (insert _ _) as [err|l] eqn:Hstudent.
    { right. left. by exists err. }
    right. right. simpl. split; [unfold created; by destruct (acceptsJson b)|].
    split; [unfold created; destruct (acceptsJson b); simpl; [tauto | discriminate]|].
    split; [done|].
    eexists. split; [exact Hstudent|]. split; [done|].
    split; [done|]. split; [done|].
    split; [done|]. by rewrite map_app.
  - destruct (insert _ _) as [err|l] eqn:Hstudent.
    { right. left. by exists err. }
    right. right. simpl. split; [unfold created; by destruct (acceptsJson b)|].
    split; [unfold created; destruct (acceptsJson b); simpl; [tauto | discriminate]|].
    split; [done|].
    eexists. split; [exact Hstudent|]. split; [done|].
    split; [done|]. split; [done|]. done.
Qed.

End CreateStudentFacts.

(** X16: a create request for a student answers that the email or roll
    number exists exactly when a student of the store has the email of
    the form, or its upper-cased roll number, each as the setters of the
    schema cast it.  Every answer that is not a success and not a
    rejected save, the conflict with a User email included, leaves the
    whole store unchanged; a rejected save leaves the students
    unchanged; a success appends one student, whose keys are the
    lower-cased email and the upper-cased roll number as the setters
    cast them, linked to a new User exactly when a login was asked for,
    and keeps emails and roll numbers pairwise distinct. *)
Theorem createStudent_outcome (hashPassword : string -> string)
    (b : StudentAdmin.Body) (newId newUserId : ObjectId) (now : Z) (s : Store) :
  let r := StudentAdmin.createStudent hashPassword b newId newUserId now s in
  let found :=
    exists x, x ∈ students s /\
      (Student.email x = StudentModel.setEmail (StudentAdmin.email b) \/
       Student.rollNumber x =
         StudentModel.setRollNumber (toUpperCase (StudentAdmin.rollNumber b))) in
  (reports (fst r) "Email or Roll Number already exists" <-> found) /\
  ((forall err, fst r <> thrown err) -> isSuccess (fst r) = false -> snd r = s) /\
  (forall err, fst r = thrown err -> students (snd r) = students s) /\
  (isSuccess (fst r) = true ->
   exists student,
     students (snd r) = students s ++ [student] /\
     Student._id student = newId /\
     Student.email student =
       StudentModel.setEmail (toLowerCase (StudentAdmin.email b)) /\
     Student.rollNumber student =
       StudentModel.setRollNumber (toUpperCase (StudentAdmin.rollNumber b)) /\
     (if bool_decide (StudentAdmin.createLogin b = "on")
      then Student.user student = Some newUserId /\
           map User._id (users (snd r)) = map User._id (users s) ++ [newUserId]
      else Student.user student = None /\ users (snd r) = users s) /\
     (NoDup (map Student.email (students s)) ->
      NoDup (map Student.email (students (snd r)))) /\
     (NoDup (map Student.rollNumber (students s)) ->
      NoDup (map Student.rollNumber (students (snd r))))).
Proof.
  intros r found. subst r found.
  assert (is_Some (findOne (StudentAdmin.emailOrRoll (StudentAdmin.email b)
                              (toUpperCase (StudentAdmin.rollNumber b))) (students s)) <->
          exists x, x ∈ students s /\
            (Student.email x = StudentModel.setEmail (StudentAdmin.email b) \/
             Student.rollNumber x =
               StudentModel.setRollNumber (toUpperCase (StudentAdmin.rollNumber b))))
    as Htaken.
  { split.
    - intros [x Hx]. apply findOne_Some in Hx as [Hin Hkey].
      exists x. split; [done|]. by apply emailOrRoll_true.
    - intros (x & Hin & Hkey). apply emailOrRoll_true in Hkey.
      destruct (findOne _ _) eqn:Hnone; [by eexists|].
      rewrite findOne_None in Hnone. rewrite (Hnone x Hin) in Hkey. done. }
  destruct (createStudent_cases hashPassword b newId newUserId now s)
    as [(Hfail & Hnothrow & Hsame & Hiff)
       |[(err & Hthrown & Hstudents & Hnone)
        |(Hok & Hnorep & Hnone & student & Hins & Hid & Hemail & Hroll & Hlink)]].
  - split; [by rewrite Hiff|]. split; [done|].
    split; [intros err Herr; by destruct (Hnothrow err)|].
    intros Hok. simpl in *. congruence.
  - rewrite Hthrown. simpl. split; [|split; [|split]].
    + rewrite <- Htaken, Hnone. split; [done | by intros [? ?]].
    + intros Hno. by destruct (Hno err).
    + intros err' _. exact Hstudents.
    + done.
  - split; [|split; [|split]].
    + rewrite <- Htaken, Hnone. split; [done | by intros [? ?]].
    + simpl in *. congruence.
    + intros err Herr. simpl in *. rewrite Herr in Hok. done.
    + intros _. apply insert_ok in Hins as [Happ Hfree].
      exists student. split; [done|]. split; [done|]. split; [done|].
      split; [done|]. split; [done|].
      split; intros Hnd; rewrite Happ; apply NoDup_key_insert; try done;
        intros x Hx; by destruct (Hfree x Hx).
Qed.

(** X17: the login is written before the student.  When a login is
    asked for, no student and no user stands in the way and the
    password is long enough, but the save of the student is rejected
    (by validation or by an index), the request is rejected with that
    error, no student is stored, and the new User, with role student,
    active and with the hashed password, stays in the store. *)
Theorem createStudent_login_survives_rejection (hashPassword : string -> string)
    (b : StudentAdmin.Body) (newId newUserId : ObjectId) (now : Z) (s : Store)
    (err : Error) :
  findOne (StudentAdmin.emailOrRoll (StudentAdmin.email b)
             (toUpperCase (StudentAdmin.rollNumber b))) (students s) = None ->
  StudentAdmin.createLogin b = "on" ->
  findOne (fun u => bool_decide (User.email u = toLowerCase (StudentAdmin.email b)))
    (users s) = None ->
  6 <= String.length (StudentAdmin.password b) ->
  StudentAdmin.insert (withUser newUserId (StudentAdmin.studentOf b newId now))
    (students s) = inl err ->
  let r := StudentAdmin.createStudent hashPassword b newId newUserId now s in
  fst r = thrown err /\
  students (snd r) = students s /\
  users (snd r) =
    users s ++ [ {| User._id := newUserId;
                    User.name := StudentAdmin.name b;
                    User.email := toLowerCase (StudentAdmin.email b);
                    User.password := hashPassword (StudentAdmin.password b);
                    User.role := "student";
                    User.isActive := true |} ].
Proof.
  intros Hpre Hlogin Huser Hlen Hinsert r. subst r.
  unfold StudentAdmin.createStudent. rewrite Hpre, Hlogin, Huser. simpl.
  assert (truthy (StudentAdmin.password b) = true) as ->.
  { unfold truthy. destruct (StudentAdmin.password b); simpl in *; [lia | done]. }
  assert ((String.length (StudentAdmin.password b) <? 6)%nat = false) as ->
    by (by apply Nat.ltb_ge).
  simpl. unfold User_insert. simpl.
  rewrite findOne_existsb, Huser. simpl. by rewrite Hinsert.
Qed.

(** A form for a student in year 11 with a login: the login of the
    sample campus grows by one user, and no student is added. *)
Lemma createStudent_login_survives_rejection_witness :
  let b := {| StudentAdmin.name := "Cy"; StudentAdmin.email := "cy@uni.edu";
              StudentAdmin.rollNumber := "r003";
              StudentAdmin.department := Sample.idCS;
              StudentAdmin.course := Sample.idCS101;
              StudentAdmin.year := Some 11%Z; StudentAdmin.semester := Some 1%Z;
              StudentAdmin.enrollmentDate := None; StudentAdmin.status := EmptyString;
              StudentAdmin.notes := EmptyString; StudentAdmin.createLogin := "on";
              StudentAdmin.password := "secret1";
              StudentAdmin.acceptsJson := true |} in
  let r := StudentAdmin.createStudent Sample.hash b Sample.idM4 Sample.idNew 0
             Sample.campus in
  fst r = thrown (ValidationFailed "year") /\
  students (snd r) = [Sample.Ada; Sample.Bob] /\
  map User.email (users (snd r)) = ["ada@uni.edu"; "eve@uni.edu"; "cy@uni.edu"].
Proof.
  intros b r.
  destruct (createStudent_login_survives_rejection Sample.hash b Sample.idM4
              Sample.idNew 0 Sample.campus (ValidationFailed "year"))
    as (Hreply & Hstudents & Husers); try reflexivity.
  - simpl. lia.
  - subst r. rewrite Hreply, Hstudents, Husers. repeat split.
Defined.

(** ** Catalog aggregator: the buckets in full *)

Section CatalogBuckets.
Import Catalog.

Lemma bucketsOf_None (st : Structure) (m : Populated) (d c : string) (sem : Z) :
  bucketsOf st m = None -> goesTo d c sem m && hasCourse st d c = false.
Proof.
  unfold bucketsOf, goesTo, hasCourse. intros Hnone.
  destruct (bool_decide (departmentKey m = Some d)) eqn:Hd; [|done].
  apply bool_decide_eq_true in Hd. rewrite Hd in Hnone.
  destruct (truthy d); [|done]. simpl in *.
  destruct (bool_decide (courseKey m = Some c)) eqn:Hc; [|done].
  apply bool_decide_eq_true in Hc. rewrite Hc in Hnone.
  destruct (truthy c); [|done]. simpl in *.
  destruct (objGet st d) as [b|]; simpl; [|by rewrite andb_false_r].
  destruct (objGet (courses b) c); [done | by rewrite andb_false_r].
Qed.

Lemma bucketsOf_truthy (st : Structure) (m : Populated)
    (d0 : string) (b0 : DepartmentBucket) (c0 : string) (cb0 : CourseBucket) :
  bucketsOf st m = Some (d0, b0, c0, cb0) -> truthy d0 = true /\ truthy c0 = true.
Proof.
  unfold bucketsOf.
  destruct (departmentKey m) as [d|]; [|done].
  destruct (truthy d) eqn:Hd; [|done]. simpl.
  destruct (objGet st d); [|done].
  destruct (courseKey m) as [c|]; [|done].
  destruct (truthy c) eqn:Hc; [|done]. simpl.
  destruct (objGet _ c); [|done]. by intros [= <- <- <- <-].
Qed.

Lemma hasCourse_addModule (st : Structure) (m : Populated) (d c : string) :
  hasCourse (addModule st m) d c = hasCourse st d c.
Proof.
  unfold addModule.
  destruct (bucketsOf st m) as [[[[d0 b0] c0] cb0]|] eqn:Hb; [|done].
  apply bucketsOf_Some in Hb as (_ & Hb0 & _ & Hcb0).
  unfold hasCourse. rewrite objGet_objSet.
  case_bool_decide as Hd; [|done]. subst d0. rewrite Hb0. simpl.
  rewrite objGet_objSet. case_bool_decide as Hc; [|done]. subst c0.
  by rewrite Hcb0.
Qed.

Lemma modulesAt_addModule (st : Structure) (m : Populated) (d c : string) (sem : Z) :
  modulesAt (addModule st m) d c sem =
    if goesTo d c sem m && hasCourse st d c
    then Some (default [] (modulesAt st d c sem) ++ [m])
    else modulesAt st d c sem.
Proof.
  unfold addModule.
  destruct (bucketsOf st m) as [[[[d0 b0] c0] cb0]|] eqn:Hb.
  2:{ by rewrite (bucketsOf_None st m d c sem Hb). }
  destruct (bucketsOf_truthy _ _ _ _ _ _ Hb) as [Htd Htc].
  apply bucketsOf_Some in Hb as (Hdk & Hb0 & Hck & Hcb0).
  unfold modulesAt, hasCourse, goesTo. rewrite Hdk, Hck, objGet_objSet.
  destruct (decide (d0 = d)) as [->|Hd].
  2:{ rewrite !bool_decide_eq_false_2 by congruence. done. }
  rewrite !bool_decide_eq_true_2 by done. rewrite Hb0, Htd. simpl.
  rewrite objGet_objSet.
  destruct (decide (c0 = c)) as [->|Hc].
  2:{ rewrite !bool_decide_eq_false_2 by congruence. done. }
  rewrite !bool_decide_eq_true_2 by done. rewrite Hcb0, Htc. simpl.
  destruct (decide (semesterKey m = sem)) as [<-|Hsem].
  - rewrite bool_decide_eq_true_2 by done. rewrite lookup_insert_eq.
    destruct (semesters cb0 !! semesterKey m) as [l|] eqn:Hl.
    + by rewrite Hl.
    + by rewrite lookup_insert_eq.
  - rewrite bool_decide_eq_false_2 by done. rewrite lookup_insert_ne by done.
    destruct (semesters cb0 !! semesterKey m); [done|].
    by rewrite lookup_insert_ne.
Qed.

Lemma fold_addModule_bucket (ms : list Populated) (st : Structure)
    (d c : string) (sem : Z) (acc : list Populated) :
  modulesAt st d c sem = (if bool_decide (acc = []) then None else Some acc) ->
  hasCourse (fold_left addModule ms st) d c = hasCourse st d c /\
  modulesAt (fold_left addModule ms st) d c sem =
    let l := acc ++ (if hasCourse st d c then List.filter (goesTo d c sem) ms else []) in
    if bool_decide (l = []) then None else Some l.
Proof.
  revert st acc. induction ms as [|m r IH]; intros st acc Hacc; simpl.
  - split; [done|]. destruct (hasCourse st d c); by rewrite app_nil_r.
  - destruct (IH (addModule st m)
                (acc ++ if goesTo d c sem m && hasCourse st d c then [m] else []))
      as [Hhas Hat].
    { rewrite modulesAt_addModule, Hacc.
      destruct (goesTo d c sem m && hasCourse st d c).
      - rewrite (bool_decide_eq_false_2 (acc ++ [m] = []))
          by (destruct acc; simpl; discriminate).
        by destruct (bool_decide (acc = [])) eqn:Hnil;
          [apply bool_decide_eq_true in Hnil as ->|].
      - by rewrite app_nil_r. }
    rewrite hasCourse_addModule in Hhas, Hat. split; [done|].
    rewrite Hat. simpl.
    destruct (hasCourse st d c); destruct (goesTo d c sem m); simpl;
      by rewrite <- ?app_assoc, ?app_nil_r.
Qed.

Lemma objGet_is_Some_objSet {V} (o : Obj V) (k k' : string) (v : V) :
  is_Some (objGet (objSet k v o) k') <-> k = k' \/ is_Some (objGet o k').
Proof.
  rewrite objGet_objSet. case_bool_decide as Hk.
  - split; [by left | by eexists].
  - split; [by right | by intros [?|?]].
Qed.

Lemma fold_addDepartment_keys (ds : list Department.t) (st : Structure) (d : string) :
  is_Some (objGet (fold_left addDepartment ds st) d) <->
  is_Some (objGet st d) \/ d ∈ map Department._id ds.
Proof.
  revert st. induction ds as [|dep r IH]; intros st; simpl.
  - split; [by left | intros [?|Hin]; [done | inversion Hin]].
  - rewrite IH. unfold addDepartment. rewrite objGet_is_Some_objSet, elem_of_cons.
    split; [intros [[<-|?]|?] | intros [?|[->|?]]]; by auto.
Qed.

Lemma fold_addDepartment_empty (ds : list Department.t) (st : Structure)
    (d c : string) :
  hasCourse st d c = false -> hasCourse (fold_left addDepartment ds st) d c = false.
Proof.
  revert st. induction ds as [|dep r IH]; intros st Hst; simpl; [done|].
  apply IH. unfold hasCourse, addDepartment. rewrite objGet_objSet.
  by case_bool_decide.
Qed.

Lemma addCourse_keys (st : Structure) (course : Course.t) (d : string) :
  is_Some (objGet (addCourse st course) d) <-> is_Some (objGet st d).
Proof.
  unfold addCourse. destruct (objGet st (Course.department course)) eqn:Hb; [|done].
  rewrite objGet_is_Some_objSet. split; [intros [<-|?] | by right]; [|done].
  by eexists.
Qed.

Lemma hasCourse_addCourse (st : Structure) (course : Course.t) (d c : string) :
  hasCourse (addCourse st course) d c =
    hasCourse st d c
    || (bool_decide (Course.department course = d)
        && bool_decide (Course._id course = c)
        && bool_decide (is_Some (objGet st d))).
Proof.
  unfold addCourse, hasCourse.
  destruct (objGet st (Course.department course)) as [b0|] eqn:Hb0.
  - rewrite objGet_objSet. case_bool_decide as Hd.
    + subst d. rewrite Hb0. simpl. rewrite objGet_objSet.
      case_bool_decide as Hc; simpl.
      * by destruct (objGet (courses b0) c).
      * by rewrite orb_false_r.
    + simpl. by rewrite orb_false_r.
  - destruct (bool_decide (Course.department course = d)) eqn:Hd; simpl.
    + apply bool_decide_eq_true in Hd. subst d. rewrite Hb0. simpl.
      by rewrite andb_false_r.
    + by rewrite orb_false_r.
Qed.

Lemma fold_addCourse_keys (cs : list Course.t) (st : Structure) (d : string) :
  is_Some (objGet (fold_left addCourse cs st) d) <-> is_Some (objGet st d).
Proof.
  revert st. induction cs as [|course r IH]; intros st; simpl; [done|].
  by rewrite IH, addCourse_keys.
Qed.

Lemma fold_addCourse_has (cs : list Course.t) (st : Structure) (d c : string) :
  hasCourse (fold_left addCourse cs st) d c = true <->
  hasCourse st d c = true \/
  (is_Some (objGet st d) /\
   exists course, course ∈ cs /\ Course._id course = c /\ Course.department course = d).
Proof.
  revert st. induction cs as [|course r IH]; intros st; simpl.
  - split; [by left | intros [?|(_ & x & Hx & _)]; [done | inversion Hx]].
  - rewrite IH, hasCourse_addCourse, addCourse_keys. rewrite orb_true_iff.
    rewrite !andb_true_iff, !bool_decide_eq_true. split.
    + intros [[?|[[Hd Hc] Hs]]|(Hs & x & Hx & Hc & Hd)].
      * by left.
      * right. split; [done|]. exists course. split; [constructor | done].
      * right. split; [done|]. exists x. split; [by constructor | done].
    + intros [?|(Hs & x & Hx & Hc & Hd)]; [by left; left|].
      apply elem_of_cons in Hx as [->|Hx].
      * left. right. done.
      * right. split; [done|]. by exists x.
Qed.

Lemma fold_addModule_keys (ms : list Populated) (st : Structure) (d : string) :
  is_Some (objGet (fold_left addModule ms st) d) <-> is_Some (objGet st d).
Proof.
  revert st. induction ms as [|m r IH]; intros st; simpl; [done|].
  rewrite IH. unfold addModule.
  destruct (bucketsOf st m) as [[[[d0 b0] c0] cb0]|] eqn:Hb; [|done].
  apply bucketsOf_Some in Hb as (_ & Hb0 & _).
  rewrite objGet_is_Some_objSet. split; [intros [<-|?] | by right]; [|done].
  by eexists.
Qed.

Lemma modulesAt_before_modules (cs : list Course.t) (ds : list Department.t)
    (d c : string) (sem : Z) :
  modulesAt (fold_left addCourse cs (fold_left addDepartment ds [])) d c sem = None.
Proof.
  assert (forall st, (forall d c sem, modulesAt st d c sem = None) ->
            forall d c sem, modulesAt (fold_left addCourse cs st) d c sem = None) as Hcs.
  { induction cs as [|course r IH]; intros st Hst; simpl; [done|].
    apply IH. intros d' c' sem'. unfold addCourse.
    destruct (objGet st (Course.department course)) as [b0|] eqn:Hb0; [|done].
    specialize (Hst d' c' sem'). unfold modulesAt in *. rewrite objGet_objSet.
    case_bool_decide as Hd; [|done]. subst d'. rewrite Hb0 in Hst. simpl in *.
    rewrite objGet_objSet. case_bool_decide as Hc; [|done]. simpl.
    apply lookup_empty. }
  apply Hcs. clear Hcs d c sem.
  assert (forall st, (forall d c sem, modulesAt st d c sem = None) ->
            forall d c sem, modulesAt (fold_left addDepartment ds st) d c sem = None)
    as Hds.
  { induction ds as [|dep r IH]; intros st Hst; simpl; [done|].
    apply IH. intros d' c' sem'. unfold addDepartment, modulesAt.
    rewrite objGet_objSet. case_bool_decide as Hd; [done|]. apply Hst. }
  by apply Hds.
Qed.

End CatalogBuckets.

Lemma insertBy_Permutation {A} (le : A -> A -> bool) (x : A) (l : list A) :
  insertBy le x l ≡ₚ x :: l.
Proof.
  induction l as [|y r IH]; simpl; [done|].
  destruct (le x y); [done|]. rewrite IH. apply Permutation_swap.
Qed.

Lemma sortBy_Permutation {A} (le : A -> A -> bool) (l : list A) :
  sortBy le l ≡ₚ l.
Proof.
  unfold sortBy. induction l as [|x r IH]; simpl; [done|].
  by rewrite insertBy_Permutation, IH.
Qed.

(** X18: in the structure built from the fetched departments, courses
    and modules, the list under a department, a course and a semester
    number is exactly the fetched modules whose keys resolve to these
    three, in the order they were fetched, provided the course has a
    bucket under the department; a semester gets a list only when it is
    not empty, and the modules add no course bucket. *)
Theorem semester_bucket_lists_matching_modules
    (ds : list Department.t) (cs : list Course.t) (ms : list Catalog.Populated)
    (d c : string) (sem : Z) :
  let st := Catalog.buildStructure ds cs ms in
  hasCourse st d c = hasCourse (Catalog.buildStructure ds cs []) d c /\
  modulesAt st d c sem =
    if hasCourse st d c && negb (bool_decide (List.filter (goesTo d c sem) ms = []))
    then Some (List.filter (goesTo d c sem) ms)
    else None.
Proof.
  unfold Catalog.buildStructure. simpl.
  destruct (fold_addModule_bucket ms
              (fold_left Catalog.addCourse cs (fold_left Catalog.addDepartment ds []))
              d c sem []) as [Hhas Hat].
  { apply modulesAt_before_modules. }
  split; [done|]. rewrite Hat, Hhas. clear Hat Hhas. simpl.
  destruct (hasCourse _ d c); simpl.
  - by destruct (bool_decide (List.filter (goesTo d c sem) ms = [])).
  - done.
Qed.

(** X19: the structure answered by the catalog request has a bucket for
    a department exactly when a department of the store has that id, and
    a bucket for a course under a department exactly when the department
    is in the store and a course of the store has that id and names that
    department: a course of a missing department gets no bucket, and no
    module adds or removes a bucket. *)
Theorem catalog_buckets_are_stored_documents (s : Store) (d c : string) :
  (is_Some (objGet (getStructuredModules s) d) <->
   d ∈ map Department._id (departments s)) /\
  (hasCourse (getStructuredModules s) d c = true <->
   d ∈ map Department._id (departments s) /\
   exists course, course ∈ courses s /\ Course._id course = c /\
                  Course.department course = d).
Proof.
  unfold getStructuredModules, Catalog.buildStructure.
  set (ms := map (Catalog.populate s) (modulesBySemesterName (modules s))).
  set (st0 := fold_left Catalog.addDepartment (departmentsByName (departments s)) []).
  assert (forall x, is_Some (objGet st0 x) <-> x ∈ map Department._id (departments s))
    as Hkeys.
  { intros x. unfold st0. rewrite fold_addDepartment_keys.
    unfold departmentsByName. rewrite sortBy_Permutation.
    split; [intros [[? Hnil]|?]; [done | done] | by right]. }
  split.
  - by rewrite fold_addModule_keys, fold_addCourse_keys.
  - destruct (fold_addModule_bucket ms
                (fold_left Catalog.addCourse (coursesByName (courses s)) st0)
                d c 0%Z []) as [-> _].
    { apply modulesAt_before_modules. }
    rewrite fold_addCourse_has, Hkeys.
    rewrite (fold_addDepartment_empty _ [] d c eq_refl : hasCourse st0 d c = false).
    unfold coursesByName.
    split.
    + intros [?|(Hd & x & Hx & Hrest)]; [done|]. split; [done|].
      exists x. split; [|done]. by rewrite sortBy_Permutation in Hx.
    + intros (Hd & x & Hx & Hrest). right. split; [done|].
      exists x. split; [|done]. by rewrite sortBy_Permutation.
Qed.

(** ** Sessions *)

Lemma role_gate_next (r : string) (user : option Auth.SessionUser) (a : bool) :
  Auth.requireRole r user a = Auth.next <->
  exists u, user = Some u /\ Auth.role u = r /\ Auth.isActive u <> Some false.
Proof.
  unfold Auth.requireRole, Auth.notInactive. destruct user as [u|].
  - destruct (bool_decide (Auth.role u = r)) eqn:Hr;
      destruct (bool_decide (Auth.isActive u = Some false)) eqn:Ha; simpl;
      try apply bool_decide_eq_true in Hr; try apply bool_decide_eq_false in Hr;
      try apply bool_decide_eq_true in Ha; try apply bool_decide_eq_false in Ha;
      (split; [intros Hnext | intros (u' & [= <-] & Hrole & Hactive)]);
      try done; try (by destruct a).
    by exists u.
  - split; [by destruct a | by intros (u & Hu & _)].
Qed.

Lemma protect_next (user : option Auth.SessionUser) (a : bool) :
  Auth.protect user a = Auth.next <->
  exists u, user = Some u /\ Auth.isActive u <> Some false.
Proof.
  unfold Auth.protect, Auth.notInactive. destruct user as [u|].
  - destruct (bool_decide (Auth.isActive u = Some false)) eqn:Ha; simpl;
      try apply bool_decide_eq_true in Ha; try apply bool_decide_eq_false in Ha;
      (split; [intros Hnext | intros (u' & [= <-] & Hactive)]);
      try done; try (by destruct a).
    by exists u.
  - split; [by destruct a | by intros (u & Hu & _)].
Qed.

(** X20: the admin gate lets a request through exactly when the role
    gate for the role admin does, whatever the two answer otherwise; a
    request that a role gate lets through is let through by the login
    gate; and a session whose user is marked inactive passes none of
    them. *)
Theorem role_gates_within_protect (r : string) (user : option Auth.SessionUser)
    (a a' : bool) :
  (Auth.admin user a = Auth.next <-> Auth.requireRole "admin" user a' = Auth.next) /\
  (Auth.requireRole r user a = Auth.next -> Auth.protect user a' = Auth.next) /\
  ((exists u, user = Some u /\ Auth.isActive u = Some false) ->
   Auth.protect user a <> Auth.next /\ Auth.requireRole r user a <> Auth.next).
Proof.
  split; [|split].
  - unfold Auth.admin, Auth.requireRole. destruct user as [u|].
    + destruct (_ && _); [done|]. by destruct a, a'.
    + by destruct a, a'.
  - rewrite role_gate_next, protect_next. intros (u & Hu & _ & Hactive). by exists u.
  - intros (u & -> & Hactive). rewrite role_gate_next, protect_next.
    split; [intros (u' & [= <-] & H) | intros (u' & [= <-] & _ & H)]; done.
Qed.

Section LoginFacts.
Variable matchPassword : User.t -> string -> bool.

Lemma login_cases (email password : string) (a : bool) (users : list User.t)
    (session : option Auth.SessionUser) :
  let r := Auth.login matchPassword email password a users session in
  (exists u, findOne (Auth.activeWithEmail email) users = Some u /\
             matchPassword u password = true /\
             isSuccess (fst r) = true /\ snd r = Some (Auth.sessionOf u))
  \/
  ((forall u, findOne (Auth.activeWithEmail email) users = Some u ->
              matchPassword u password = false) /\
   r = (respond a 401 "Invalid credentials" "error" "Invalid email or password"
          "/login", session) /\
   isSuccess (fst r) = false).
Proof.
  simpl. unfold Auth.login.
  destruct (findOne _ users) as [u|] eqn:Hfind.
  - destruct (matchPassword u password) eqn:Hpw.
    + left. exists u. by destruct a.
    + right. split; [by intros ? [= <-]|]. by destruct a.
  - right. split; [done|]. by destruct a.
Qed.

(** X21: a login succeeds only for a user of the store that is active,
    has the lower-cased email of the form and whose password check
    accepts the password; the session then holds this user, the login
    gate lets the session through, and a role gate lets it through
    exactly when it asks for the role of the user. *)
Theorem login_session_passes_own_role_gate (email password : string) (a a' : bool)
    (users : list User.t) (session : option Auth.SessionUser) :
  let r := Auth.login matchPassword email password a users session in
  isSuccess (fst r) = true ->
  exists u, u ∈ users /\ User.email u = toLowerCase email /\
            User.isActive u = true /\ matchPassword u password = true /\
            snd r = Some (Auth.sessionOf u) /\
            Auth.protect (snd r) a' = Auth.next /\
            forall role, Auth.requireRole role (snd r) a' = Auth.next <->
                         User.role u = role.
Proof.
  intros r Hok. subst r.
  destruct (login_cases email password a users session)
    as [(u & Hfind & Hpw & _ & Hsession)|(_ & _ & Hno)]; [|congruence].
  apply findOne_Some in Hfind as [Hin Hactive].
  unfold Auth.activeWithEmail in Hactive.
  apply andb_true_iff in Hactive as [Hemail Hactive].
  apply bool_decide_eq_true in Hemail.
  exists u. rewrite Hsession. repeat (split; [done|]). split.
  - apply protect_next. exists (Auth.sessionOf u). split; [done|]. simpl.
    by rewrite Hactive.
  - intros role. rewrite role_gate_next. split.
    + by intros (u' & [= <-] & Hrole & _).
    + intros Hrole. exists (Auth.sessionOf u). split; [done|]. split; [done|].
      simpl. by rewrite Hactive.
Qed.

(** X22: when every user of the store with the lower-cased email of the
    form is inactive, the login is refused with status 401 whatever the
    password, and the session is left as it was. *)
Theorem login_refuses_inactive_user (email password : string) (a : bool)
    (users : list User.t) (session : option Auth.SessionUser) :
  (forall u, u ∈ users -> User.email u = toLowerCase email ->
             User.isActive u = false) ->
  Auth.login matchPassword email password a users session =
    (respond a 401 "Invalid credentials" "error" "Invalid email or password" "/login",
     session).
Proof.
  intros Hinactive. unfold Auth.login.
  rewrite (proj2 (findOne_None (Auth.activeWithEmail email) users)); [done|].
  intros u Hu. unfold Auth.activeWithEmail.
  destruct (bool_decide (User.email u = toLowerCase email)) eqn:Hemail; [|done].
  apply bool_decide_eq_true in Hemail. by rewrite (Hinactive u Hu Hemail).
Qed.

Variable hashPassword : string -> string.

(** X23: when the password check accepts a password against its own
    hash, a student created with a login can sign in right away with
    the email and password of the form: the login succeeds and the
    session holds the new user, with the role student. *)
Theorem created_login_signs_in (b : StudentAdmin.Body) (newId newUserId : ObjectId)
    (now : Z) (s : Store) (a : bool) (session : option Auth.SessionUser) :
  (forall u p, User.password u = hashPassword p -> matchPassword u p = true) ->
  StudentAdmin.createLogin b = "on" ->
  let r := StudentAdmin.createStudent hashPassword b newId newUserId now s in
  isSuccess (fst r) = true ->
  let r' := Auth.login matchPassword (StudentAdmin.email b) (StudentAdmin.password b)
              a (users (snd r)) session in
  isSuccess (fst r') = true /\
  snd r' = Some {| Auth._id := newUserId; Auth.name := StudentAdmin.name b;
                   Auth.email := toLowerCase (StudentAdmin.email b);
                   Auth.role := "student"; Auth.isActive := Some true |}.
Proof.
  intros Hmatch Hon r Hok r'. subst r r'. revert Hok.
  unfold StudentAdmin.createStudent.
  destruct (findOne _ (students s)); [by destruct (StudentAdmin.acceptsJson b)|].
  rewrite bool_decide_eq_true_2 by done.
  destruct (findOne _ (users s)) eqn:Hfree;
    [by destruct (StudentAdmin.acceptsJson b)|].
  destruct (_ || _); [by destruct (StudentAdmin.acceptsJson b)|].
  unfold User_insert. destruct (existsb _ _); [done|].
  destruct (StudentAdmin.insert _ _); [done|]. intros _. simpl.
  unfold Auth.login. rewrite findOne_app.
  rewrite (proj2 (findOne_None (Auth.activeWithEmail (StudentAdmin.email b)) (users s))).
  2:{ intros u Hu. unfold Auth.activeWithEmail.
      by rewrite (proj1 (findOne_None _ _) Hfree u Hu). }
  simpl. unfold Auth.activeWithEmail. simpl.
  rewrite bool_decide_eq_true_2 by done. simpl.
  rewrite Hmatch by done. by destruct a.
Qed.

End LoginFacts.

(** The admin of the sample campus signs in with the email in capitals. *)
Lemma login_session_passes_own_role_gate_witness :
  let r := Auth.login checkHash "Eve@Uni.edu" "hash" true
             [Sample.AdaUser; Sample.EveUser] None in
  isSuccess (fst r) = true /\
  exists u, u ∈ [Sample.AdaUser; Sample.EveUser] /\
            User.email u = toLowerCase "Eve@Uni.edu" /\
            User.isActive u = true /\ checkHash u "hash" = true /\
            snd r = Some (Auth.sessionOf u) /\
            Auth.protect (snd r) false = Auth.next /\
            forall role, Auth.requireRole role (snd r) false = Auth.next <->
                         User.role u = role.
Proof.
  split; [reflexivity|].
  apply (login_session_passes_own_role_gate checkHash "Eve@Uni.edu" "hash" true false
           [Sample.AdaUser; Sample.EveUser] None).
  reflexivity.
Defined.

(** A deactivated account with the right password is refused. *)
Lemma login_refuses_inactive_user_witness :
  let ada := {| User._id := Sample.idAdaUser; User.name := "Ada";
                User.email := "ada@uni.edu"; User.password := Sample.hash "secret1";
                User.role := "student"; User.isActive := false |} in
  checkHash ada "secret1" = true /\
  Auth.login checkHash "ada@uni.edu" "secret1" true [ada; Sample.EveUser] None =
    (json 401 "Invalid credentials", None).
Proof.
  intros ada. split; [reflexivity|].
  apply (login_refuses_inactive_user checkHash "ada@uni.edu" "secret1" true
           [ada; Sample.EveUser] None).
  intros u Hu Hemail.
  apply elem_of_cons in Hu as [->|Hu]; [reflexivity|].
  apply elem_of_cons in Hu as [->|Hu]; [discriminate Hemail | inversion Hu].
Defined.

(** A student created with a login on the sample campus signs in. *)
Lemma created_login_signs_in_witness :
  let b := {| StudentAdmin.name := "Cy"; StudentAdmin.email := "Cy@Uni.edu";
              StudentAdmin.rollNumber := "r003";
              StudentAdmin.department := Sample.idCS;
              StudentAdmin.course := Sample.idCS101;
              StudentAdmin.year := Some 1%Z; StudentAdmin.semester := Some 1%Z;
              StudentAdmin.enrollmentDate := None; StudentAdmin.status := EmptyString;
              StudentAdmin.notes := EmptyString; StudentAdmin.createLogin := "on";
              StudentAdmin.password := "secret1";
              StudentAdmin.acceptsJson := true |} in
  let r := StudentAdmin.createStudent Sample.hash b Sample.idM4 Sample.idNew 0
             Sample.campus in
  let r' := Auth.login checkHash "Cy@Uni.edu" "secret1" true (users (snd r)) None in
  isSuccess (fst r) = true /\
  isSuccess (fst r') = true /\
  snd r' = Some {| Auth._id := Sample.idNew; Auth.name := "Cy";
                   Auth.email := "cy@uni.edu"; Auth.role := "student";
                   Auth.isActive := Some true |}.
Proof.
  intros b r r'. split; [reflexivity|].
  apply (created_login_signs_in checkHash Sample.hash b Sample.idM4 Sample.idNew 0
           Sample.campus true None).
  - intros u p Hp. unfold checkHash. by apply bool_decide_eq_true_2.
  - reflexivity.
  - reflexivity.
Defined.
